(** * The collection engine of summerise-genai (ssamai): a shallow embedding

    The development follows the Go packages of the repository:
    - [time], [errors]: the few facts of the Go standard library the
      collectors rely on;
    - [models]: pkg/models/types.go;
    - [config]: internal/config (CLIToolConfig, ExpandPath);
    - [Gemini]: the improved Gemini CLI collector;
    - [AmazonQ]: internal/collector/amazonq.go;
    - [Claude]: internal/collector/claude.go;
    - [Factory]: the registry and CollectAllSources;
    - [configfile]: internal/config (Config, LoadConfig);
    - [service]: the collect service (CollectService.Execute);
    - [cmd]: the collect command (buildCollectionConfig, the
      collect...Data functions, executeCollection).

    Strings are byte strings, and white space in them is what Unicode
    calls white space, in UTF-8.  A Go slice is a list (a nil slice and an
    empty slice are both the empty list), a Go [map[string]string] is a
    [gmap string string] (a nil map and an empty map are both the empty
    map), a nilable pointer is an [option]. *)

From stdpp Require Import base option list gmap strings pretty.
From Stdlib Require Import ZArith Lia.
From Stdlib Require Import Ascii.
From Stdlib Require String.

Local Open Scope Z_scope.

(** ** Package time *)

Module time.

  (** An instant, counted in nanoseconds from January 1, year 1,
      00:00:00 UTC, which is the zero value of [time.Time]. *)
Definition Time : Type := Z.

Definition Duration : Type := Z.
Definition Nanosecond : Duration := 1.
Definition Second : Duration := 1000000000.
Definition Minute : Duration := 60 * Second.
Definition Hour : Duration := 60 * Minute.

Definition zero : Time := 0.
Definition IsZero (t : Time) : bool := t =? 0.
Definition Before (t u : Time) : bool := t <? u.
Definition After (t u : Time) : bool := t >? u.
Definition Add (t : Time) (d : Duration) : Time := t + d.

  (** Nanoseconds between the zero Time and the Unix epoch. *)
Definition unixEpoch : Z := 62135596800 * Second.
Definition UnixNano (t : Time) : Z := t - unixEpoch.

End time.

(** ** Errors *)

Module errors.

  (** The error values that reach the collectors.  [Canceled] and
      [DeadlineExceeded] are the two sentinels of package context;
      [PathError] is an error of the file layer, with the answer of
      [os.IsNotExist] on it; [New] is [errors.New] or [fmt.Errorf]
      without [%w]; [Wrap] is [fmt.Errorf] with [%w]. *)
Inductive error : Type :=
  | Canceled
  | DeadlineExceeded
  | PathError (text : string) (notExist : bool)
  | New (text : string)
  | Wrap (text : string) (err : error).

Definition Error (e : error) : string :=
    match e with
    | Canceled => "context canceled"
    | DeadlineExceeded => "context deadline exceeded"
    | PathError text _ => text
    | New text => text
    | Wrap text _ => text
    end.

  (** [fmt.Errorf(prefix + "%w", err)] *)
Definition Errorf_w (prefix : string) (err : error) : error :=
    Wrap (prefix +:+ Error err) err.

  (** [os.IsNotExist(err)], for a possibly nil [err]; it does not look
      through [fmt.Errorf] wrappers. *)
Definition IsNotExist (err : option error) : bool :=
    match err with
    | Some (PathError _ b) => b
    | _ => false
    end.

Definition error_eqb_ctx (e : error) : bool :=
    match e with
    | Canceled | DeadlineExceeded => true
    | _ => false
    end.

End errors.
Export errors.

(** ** Package models (pkg/models/types.go) *)

Module models.

(** [type CollectionSource string] *)
Abbreviation CollectionSource := string (only parsing).
Definition SourceClaudeCode : CollectionSource := "claude_code".
Definition SourceGeminiCLI : CollectionSource := "gemini_cli".
Definition SourceAmazonQ : CollectionSource := "amazon_q".

Module Message.
Record t : Type := mk {
      ID : string;
      Role : string;
      Content : string;
      Timestamp : time.Time;
      Metadata : gmap string string
    }.
End Message.

Module FileReference.
Record t : Type := mk {
      Path : string;
      Name : string;
      Size : Z;
      ModTime : time.Time;
      ContentType : string;
      Hash : string
    }.
End FileReference.

Module Command.
Record t : Type := mk {
      ID : string;
      Command : string;
      Args : list string;
      Output : string;
      Error : string;
      ExitCode : Z;
      Timestamp : time.Time;
      Duration : time.Duration;
      Environment : gmap string string
    }.
End Command.

Module SessionData.
Record t : Type := mk {
      ID : string;
      Source : CollectionSource;
      Timestamp : time.Time;
      Title : string;
      Messages : list Message.t;
      Metadata : gmap string string;
      Files : list FileReference.t;
      Commands : list Command.t
    }.
End SessionData.

  (** [End] is a keyword: the field [End] of the source is [End_]. *)
Module DateRange.
Record t : Type := mk {
      Start : time.Time;
      End_ : time.Time
    }.
End DateRange.

Module CollectionConfig.
Record t : Type := mk {
      Sources : list CollectionSource;
      IncludeFiles : bool;
      IncludeCommands : bool;
      DateRange : option DateRange.t;
      OutputPath : string;
      Template : string
    }.
End CollectionConfig.

Module CollectionResult.
Record t : Type := mk {
      Sessions : list SessionData.t;
      TotalCount : Z;
      Sources : list CollectionSource;
      CollectedAt : time.Time;
      Duration : time.Duration;
      Errors : list string
    }.
End CollectionResult.

End models.
Import models.

(** ** Byte strings

    A Go string is a sequence of bytes; the text in it is UTF-8. *)

(** the value of a byte *)
Definition byteOf (a : ascii) : Z := Z.of_N (N_of_ascii a).

(** [s[i]] *)
Definition byteAt (s : list ascii) (i : Z) : Z := byteOf (nth (Z.to_nat i) s Ascii.zero).

(** [s[i:j]] *)
Definition slice (s : list ascii) (i j : Z) : list ascii :=
  take (Z.to_nat (j - i)) (drop (Z.to_nat i) s).

(** ** Package unicode/utf8 *)

Module utf8.

Definition RuneError : Z := 0xFFFD.
Definition RuneSelf : Z := 0x80.
Definition UTFMax : Z := 4.

Definition maskx : Z := 0x3F.
Definition mask2 : Z := 0x1F.
Definition mask3 : Z := 0x0F.
Definition mask4 : Z := 0x07.

Definition locb : Z := 0x80.
Definition hicb : Z := 0xBF.

Definition xx : Z := 0xF1.
Definition as_ : Z := 0xF0.
Definition s1 : Z := 0x02.
Definition s2 : Z := 0x13.
Definition s3 : Z := 0x03.
Definition s4 : Z := 0x23.
Definition s5 : Z := 0x34.
Definition s6 : Z := 0x04.
Definition s7 : Z := 0x44.

(** the table [first]: what the first byte of a sequence announces *)
Definition first (b : Z) : Z :=
  if b <? 0x80 then as_
  else if b <? 0xC2 then xx
  else if b <? 0xE0 then s1
  else if b =? 0xE0 then s2
  else if b <? 0xED then s3
  else if b =? 0xED then s4
  else if b <? 0xF0 then s3
  else if b =? 0xF0 then s5
  else if b <? 0xF4 then s6
  else if b =? 0xF4 then s7
  else xx.

(** the table [acceptRanges]: the bounds [lo], [hi] of the second byte *)
Definition acceptRanges (i : Z) : Z * Z :=
  match i with
  | 0 => (locb, hicb)
  | 1 => (0xA0, hicb)
  | 2 => (locb, 0x9F)
  | 3 => (0x90, hicb)
  | 4 => (locb, 0x8F)
  | _ => (0, 0)
  end.

(** a [rune] is an [int32] *)
Definition int32 (z : Z) : Z := (z + 2 ^ 31) mod 2 ^ 32 - 2 ^ 31.

(** [utf8.DecodeRuneInString]: the rune [s] begins with and its width in
    bytes; [(RuneError, 1)] for an encoding that is not valid. *)
Definition DecodeRuneInString (s : list ascii) : Z * Z :=
  let n := Z.of_nat (length s) in
  if n <? 1 then (RuneError, 0)
  else
    let s0 := byteAt s 0 in
    let x := first s0 in
    if x >=? as_
    then
      let mask := Z.shiftr (int32 (Z.shiftl x 31)) 31 in
      (Z.lor (Z.land s0 (Z.lnot mask)) (Z.land RuneError mask), 1)
    else
      let sz := Z.land x 7 in
      let accept := acceptRanges (Z.shiftr x 4) in
      if n <? sz then (RuneError, 1)
      else
        let s1 := byteAt s 1 in
        if (s1 <? accept.1) || (accept.2 <? s1) then (RuneError, 1)
        else if sz <=? 2
        then (Z.lor (Z.shiftl (Z.land s0 mask2) 6) (Z.land s1 maskx), 2)
        else
          let s2 := byteAt s 2 in
          if (s2 <? locb) || (hicb <? s2) then (RuneError, 1)
          else if sz <=? 3
          then (Z.lor (Z.lor (Z.shiftl (Z.land s0 mask3) 12)
                             (Z.shiftl (Z.land s1 maskx) 6))
                      (Z.land s2 maskx), 3)
          else
            let s3 := byteAt s 3 in
            if (s3 <? locb) || (hicb <? s3) then (RuneError, 1)
            else (Z.lor (Z.lor (Z.lor (Z.shiftl (Z.land s0 mask4) 18)
                                      (Z.shiftl (Z.land s1 maskx) 12))
                               (Z.shiftl (Z.land s2 maskx) 6))
                        (Z.land s3 maskx), 4).

(** [utf8.RuneStart]: the byte is not a continuation byte *)
Definition RuneStart (b : Z) : bool := negb (Z.land b 0xC0 =? 0x80).

(** [for start--; start >= lim; start-- { if RuneStart(s[start]) { break } }]
    with [k] indices left from [lim + k - 1] down to [lim]: the index
    the loop ends on *)
Fixpoint backToRuneStart (s : list ascii) (lim : Z) (k : nat) : Z :=
  match k with
  | O => lim - 1
  | S k' =>
      if RuneStart (byteAt s (lim + Z.of_nat k')) then lim + Z.of_nat k'
      else backToRuneStart s lim k'
  end.

(** [utf8.DecodeLastRuneInString]: the rune [s] ends with and its width *)
Definition DecodeLastRuneInString (s : list ascii) : Z * Z :=
  let end_ := Z.of_nat (length s) in
  if end_ =? 0 then (RuneError, 0)
  else
    let start := end_ - 1 in
    let r := byteAt s start in
    if r <? RuneSelf then (r, 1)
    else
      let lim := end_ - UTFMax in
      let lim := if lim <? 0 then 0 else lim in
      let start := backToRuneStart s lim (Z.to_nat (start - lim)) in
      let start := if start <? 0 then 0 else start in
      let '(r, size) := DecodeRuneInString (slice s start end_) in
      if negb (start + size =? end_) then (RuneError, 1) else (r, size).

End utf8.

(** ** Package unicode *)

Module unicode.

Definition MaxLatin1 : Z := 0xFF.

(** the ranges of the table [White_Space] above Latin-1 *)
Definition White_Space : list (Z * Z) :=
  [(0x1680, 0x1680); (0x2000, 0x200a); (0x2028, 0x2029); (0x202f, 0x202f);
   (0x205f, 0x205f); (0x3000, 0x3000)].

(** [unicode.IsSpace] *)
Definition IsSpace (r : Z) : bool :=
  if (0 <=? r) && (r <=? MaxLatin1)
  then (r =? 0x09) || (r =? 0x0A) || (r =? 0x0B) || (r =? 0x0C) || (r =? 0x0D)
       || (r =? 0x20) || (r =? 0x85) || (r =? 0xA0)
  else existsb (fun range => (range.1 <=? r) && (r <=? range.2)) White_Space.

End unicode.

(** ** Package strings *)

Module strings.

Definition newline : Ascii.ascii := "010"%char.

Definition HasPrefix (s prefix : string) : bool := String.prefix prefix s.

Definition HasSuffix (s suffix : string) : bool :=
  String.prefix (String.rev suffix) (String.rev s).

(** the table [asciiSpace] *)
Definition asciiSpace (c : Z) : Z :=
  if (c =? 0x09) || (c =? 0x0A) || (c =? 0x0B) || (c =? 0x0C) || (c =? 0x0D)
     || (c =? 0x20)
  then 1 else 0.

(** [indexFunc]: the index of the first rune of [s] on which [f]
    answers [truth], or -1.  The loop [for i, r := range s] takes one
    rune each time, so [length s] turns are enough. *)
Fixpoint indexFuncLoop (fuel : nat) (s : list ascii) (f : Z -> bool) (truth : bool) : Z :=
  match fuel with
  | O => -1
  | S fuel' =>
      match s with
      | [] => -1
      | _ :: _ =>
          let '(r, size) := utf8.DecodeRuneInString s in
          if Bool.eqb (f r) truth then 0
          else
            let i := indexFuncLoop fuel' (drop (Z.to_nat size) s) f truth in
            if i =? -1 then -1 else size + i
      end
  end.

Definition indexFunc (s : list ascii) (f : Z -> bool) (truth : bool) : Z :=
  indexFuncLoop (length s) s f truth.

(** [lastIndexFunc]: the index of the last rune of [s] on which [f]
    answers [truth], or -1; [s] in the loop is [s[0:i]]. *)
Fixpoint lastIndexFuncLoop (fuel : nat) (s : list ascii) (f : Z -> bool) (truth : bool)
    : Z :=
  match fuel with
  | O => -1
  | S fuel' =>
      match s with
      | [] => -1
      | _ :: _ =>
          let '(r, size) := utf8.DecodeLastRuneInString s in
          let i := Z.of_nat (length s) - size in
          if Bool.eqb (f r) truth then i
          else lastIndexFuncLoop fuel' (slice s 0 i) f truth
      end
  end.

Definition lastIndexFunc (s : list ascii) (f : Z -> bool) (truth : bool) : Z :=
  lastIndexFuncLoop (length s) s f truth.

Definition TrimLeftFunc (s : list ascii) (f : Z -> bool) : list ascii :=
  let i := indexFunc s f false in
  if i =? -1 then [] else slice s i (Z.of_nat (length s)).

Definition TrimRightFunc (s : list ascii) (f : Z -> bool) : list ascii :=
  let i := lastIndexFunc s f false in
  let i :=
    if (0 <=? i) && (byteAt s i >=? utf8.RuneSelf)
    then i + (utf8.DecodeRuneInString (slice s i (Z.of_nat (length s)))).2
    else i + 1 in
  slice s 0 i.

Definition TrimFunc (s : list ascii) (f : Z -> bool) : list ascii :=
  TrimRightFunc (TrimLeftFunc s f) f.

(** the first loop of [TrimSpace]: the index it stops at, and whether it
    stops on a byte that is not ASCII *)
Fixpoint asciiStart (rest : list ascii) (start : Z) : Z * bool :=
  match rest with
  | [] => (start, false)
  | c :: rest' =>
      if byteOf c >=? utf8.RuneSelf then (start, true)
      else if asciiSpace (byteOf c) =? 0 then (start, false)
      else asciiStart rest' (start + 1)
  end.

(** the second loop, on [s[start:stop]] read from its end *)
Fixpoint asciiStop (reversed : list ascii) (stop : Z) : Z * bool :=
  match reversed with
  | [] => (stop, false)
  | c :: reversed' =>
      if byteOf c >=? utf8.RuneSelf then (stop, true)
      else if asciiSpace (byteOf c) =? 0 then (stop, false)
      else asciiStop reversed' (stop - 1)
  end.

(** [strings.TrimSpace]: leading and trailing white space removed, as
    Unicode defines white space.  ASCII bytes are looked at first; at the
    first byte that is not ASCII the runes are decoded. *)
Definition TrimSpaceBytes (s : list ascii) : list ascii :=
  let '(start, beyondASCII) := asciiStart s 0 in
  if beyondASCII
  then TrimFunc (slice s start (Z.of_nat (length s))) unicode.IsSpace
  else
    let '(stop, beyondASCII) :=
      asciiStop (rev (slice s start (Z.of_nat (length s)))) (Z.of_nat (length s)) in
    if beyondASCII
    then TrimRightFunc (slice s start stop) unicode.IsSpace
    else slice s start stop.

Definition TrimSpace (s : string) : string :=
  String.string_of_list_ascii (TrimSpaceBytes (String.list_ascii_of_string s)).

(** [strings.Split(s, "\n")] *)
Fixpoint SplitLines (s : string) : list string :=
  match s with
  | EmptyString => [EmptyString]
  | String a s' =>
      if Ascii.eqb a newline then EmptyString :: SplitLines s'
      else match SplitLines s' with
           | x :: r => String a x :: r
           | [] => [String a EmptyString]
           end
  end.

Definition Contains (s substr : string) : bool :=
  match String.index 0 substr s with
  | Some _ => true
  | None => false
  end.

(** [strings.Join(l, sep)] *)
Definition Join (l : list string) (sep : string) : string := String.concat sep l.

Definition TrimSuffix (s suffix : string) : string :=
  if HasSuffix s suffix
  then String.substring 0 (String.length s - String.length suffix) s
  else s.

(** [fmt.Sprintf("%d", n)] *)
Definition itoa (n : Z) : string := pretty n.

(** [len(s)] *)
Definition len (s : string) : Z := Z.of_nat (String.length s).

End strings.

(** ** JSON values and the shapes the decoders fill *)

Module json.

(** A parsed JSON text.  A number keeps its literal. *)
#[local] Unset Elimination Schemes.
Inductive JValue : Type :=
| JNull
| JBool (b : bool)
| JNumber (literal : string)
| JString (s : string)
| JArray (items : list JValue)
| JObject (members : list (string * JValue)).
#[local] Set Elimination Schemes.

(** [m[key]] on the Go map an object decodes to: the last member with
    that key. *)
Fixpoint get (members : list (string * JValue)) (key : string) : option JValue :=
  match members with
  | [] => None
  | (k, v) :: rest =>
      match get rest key with
      | Some v' => Some v'
      | None => if String.eqb k key then Some v else None
      end
  end.

(** The type assertion [.(string)] on a looked-up value. *)
Definition asString (v : option JValue) : option string :=
  match v with
  | Some (JString s) => Some s
  | _ => None
  end.

Definition asArray (v : option JValue) : option (list JValue) :=
  match v with
  | Some (JArray l) => Some l
  | _ => None
  end.

Definition asObject (v : option JValue) : option (list (string * JValue)) :=
  match v with
  | Some (JObject m) => Some m
  | _ => None
  end.

(** *** Decoding an object into a struct

    A struct is described by its fields: the JSON name and what a member
    value does to the struct ([None]: the value has the wrong JSON type
    for the field, an [UnmarshalTypeError]).  Members are taken in order;
    after an error the decoder goes on and reports the first error at the
    end, so the pair returned has the error and a partly filled struct. *)

Definition Setter (T : Type) : Type := JValue -> T -> option T.

(** [%q] of a key, for the error texts *)
Definition quoted (key : string) : string :=
  String "034"%char "" +:+ key +:+ String "034"%char "".

Definition setString {T} (upd : string -> T -> T) : Setter T :=
  fun v x =>
    match v with
    | JString s => Some (upd s x)
    | JNull => Some x
    | _ => None
    end.

(** a field of type [map[string]interface{}] *)
Definition setMap {T} (upd : list (string * JValue) -> T -> T) : Setter T :=
  fun v x =>
    match v with
    | JObject m => Some (upd m x)
    | JNull => Some (upd [] x)
    | _ => None
    end.

Fixpoint findField {T} (fieldEq : string -> string -> bool)
    (fields : list (string * Setter T)) (key : string) : option (Setter T) :=
  match fields with
  | [] => None
  | (name, set) :: rest =>
      if fieldEq key name then Some set else findField fieldEq rest key
  end.

Fixpoint decodeMembers {T} (fieldEq : string -> string -> bool)
    (fields : list (string * Setter T)) (disallowUnknownFields : bool)
    (members : list (string * JValue)) (x : T) : T * option error :=
  match members with
  | [] => (x, None)
  | (key, v) :: rest =>
      match findField fieldEq fields key with
      | None =>
          if disallowUnknownFields
          then (fst (decodeMembers fieldEq fields disallowUnknownFields rest x),
                Some (New ("json: unknown field " +:+ quoted key)))
          else decodeMembers fieldEq fields disallowUnknownFields rest x
      | Some set =>
          match set v x with
          | Some x' => decodeMembers fieldEq fields disallowUnknownFields rest x'
          | None =>
              (fst (decodeMembers fieldEq fields disallowUnknownFields rest x),
               Some (New ("json: cannot unmarshal value into Go struct field "
                          +:+ key)))
          end
      end
  end.

(** [decoder.Decode(&x)] for a struct [x] that starts as [zero]; [input]
    is what the decoder read, a value or its syntax error.  The texts of
    the type errors are abridged. *)
Definition decodeStruct {T} (fieldEq : string -> string -> bool)
    (fields : list (string * Setter T)) (disallowUnknownFields : bool)
    (zero : T) (input : JValue + error) : T * option error :=
  match input with
  | inr err => (zero, Some err)
  | inl (JObject members) =>
      decodeMembers fieldEq fields disallowUnknownFields members zero
  | inl JNull => (zero, None)
  | inl _ => (zero, Some (New "json: cannot unmarshal value into Go value"))
  end.

End json.
Import json.

(** ** The JSON shapes of the Gemini CLI and Amazon Q files *)

Module GeminiHistoryEntry.
Record t : Type := mk {
  ID : string;
  Command : string;
  Prompt : string;
  Response : string;
  Timestamp : string;
  Model : string;
  Metadata : list (string * JValue)
}.
Definition zero : t := mk "" "" "" "" "" "" [].
End GeminiHistoryEntry.

Module GeminiMessagePart.
Record t : Type := mk {
  Type_ : string;
  Text : string
}.
End GeminiMessagePart.

Module GeminiMessage.
Record t : Type := mk {
  ID : string;
  Role : string;
  Content : string;
  Parts : list GeminiMessagePart.t;
  Timestamp : string;
  Metadata : list (string * JValue)
}.
End GeminiMessage.

(** [Temperature] keeps the literal of the number. *)
Module GeminiSessionSettings.
Record t : Type := mk {
  Model : string;
  Temperature : string;
  MaxTokens : Z
}.
End GeminiSessionSettings.

Module GeminiSessionData.
Record t : Type := mk {
  ID : string;
  Title : string;
  CreatedAt : string;
  UpdatedAt : string;
  Model : string;
  Messages : list GeminiMessage.t;
  Metadata : list (string * JValue);
  Settings : option GeminiSessionSettings.t
}.
End GeminiSessionData.

Module AmazonQHistoryEntry.
Record t : Type := mk {
  ID : string;
  ConversationID : string;
  Query : string;
  Response : string;
  Timestamp : string;
  Service : string;
  Region : string;
  UserID : string;
  SessionType : string;
  Context : list (string * JValue);
  Metadata : list (string * JValue)
}.
Definition zero : t := mk "" "" "" "" "" "" "" "" "" [] [].
End AmazonQHistoryEntry.

Module AmazonQMessage.
Record t : Type := mk {
  ID : string;
  Role : string;
  Content : string;
  Timestamp : string;
  MessageType : string;
  Service : string;
  Context : list (string * JValue);
  Metadata : list (string * JValue)
}.
End AmazonQMessage.

Module AmazonQSessionSettings.
Record t : Type := mk {
  Service : string;
  Region : string;
  MaxTokens : Z;
  Temperature : string
}.
End AmazonQSessionSettings.

Module AmazonQSessionData.
Record t : Type := mk {
  ID : string;
  ConversationID : string;
  Title : string;
  CreatedAt : string;
  UpdatedAt : string;
  Service : string;
  Region : string;
  UserID : string;
  Messages : list AmazonQMessage.t;
  Context : list (string * JValue);
  Settings : option AmazonQSessionSettings.t;
  Metadata : list (string * JValue)
}.
End AmazonQSessionData.

(** ** The host: clock, scheduler, file layer, and the library calls
    whose code is outside the repository *)

Module FileInfo.
Record t : Type := mk {
  Name : string;
  Size : Z;
  IsDir : bool;
  ModTime : time.Time
}.
End FileInfo.

(** One call of the callback of [WalkDir] or [filepath.Walk]. *)
Module WalkEntry.
Record t : Type := mk {
  path : string;
  IsDir : bool;
  err : option error;
  info : FileInfo.t
}.
End WalkEntry.

(** What [bufio.Scanner] yields on an open file with the 64KB buffer:
    the tokens of the successive [Scan] calls, and the value of
    [scanner.Err()] after a given number of tokens have been taken. *)
Module Scanned.
Record t : Type := mk {
  lines : list string;
  Err : nat -> option error
}.
End Scanned.

(** The interfaces [FileReader] and [AmazonQFileReader]. *)
Module FileReader.
Record t : Type := mk {
  ReadFile : string -> string + error;
  Stat : string -> FileInfo.t + error;
  WalkDir : string -> list WalkEntry.t
}.
End FileReader.

Module Env.
Record t : Type := mk {
  (** successive readings of [time.Now()] *)
  clock : nat -> time.Time;
  (** whether the 30s timer of [context.WithTimeout] has fired at the
      n-th look at the context *)
  timer_fired : nat -> bool;
  (** the choices of the Go scheduler *)
  sched : nat -> nat;
  NumCPU : Z;
  UserHomeDir : string + error;
  os_Stat : string -> FileInfo.t + error;
  os_ReadFile : string -> string + error;
  os_Open : string -> Scanned.t + error;
  filepath_Walk : string -> list WalkEntry.t;
  filepath_Join : string -> string -> string;
  filepath_Base : string -> string;
  filepath_Ext : string -> string;
  (** [matched, _ := filepath.Match(pattern, name)] *)
  filepath_Match : string -> string -> bool;
  strings_ToLower : string -> string;
  (** [time.Parse(time.RFC3339, s)] *)
  time_Parse : string -> option time.Time;
  (** the first JSON value of the input, as [json.Decoder] reads it, or
      the syntax error *)
  json_Decode : string -> JValue + error;
  (** the input as one JSON value, as [json.Unmarshal] reads it, or the
      syntax error *)
  json_Unmarshal : string -> JValue + error;
  (** [json.Unmarshal(data, &sessionData)] on the two session shapes *)
  json_Unmarshal_Gemini : string -> GeminiSessionData.t + error;
  json_Unmarshal_AmazonQ : string -> AmazonQSessionData.t + error;
  (** whether an object key names a struct field, for encoding/json *)
  json_fieldEq : string -> string -> bool;
  (** [fmt.Sprintf("%v", v)] on a decoded value *)
  fmt_v : JValue -> string
}.
End Env.

(** ** Effects: the log, the clock, the context, the scheduler *)

(** What is printed: the three methods of the logger interfaces, and
    [fmt.Printf] to the standard output; the texts are kept without
    their final line feed. *)
Inductive LogEntry : Type :=
| Printf (msg : string)
| Warnf (msg : string)
| Errorf (msg : string)
| Stdout (msg : string).

Module World.
Record t : Type := mk {
  ticks : nat;
  polls : nat;
  steps : nat;
  logs : list LogEntry
}.
Definition init : t := mk 0 0 0 [].
End World.

Definition M (A : Type) : Type := World.t -> A * World.t.

Definition ret {A} (a : A) : M A := fun w => (a, w).

Definition bind {A B} (m : M A) (k : A -> M B) : M B :=
  fun w => let (a, w') := m w in k a w'.

Notation "x <- m ;; k" := (bind m (fun x => k))
  (at level 62, m at next level, right associativity).
Notation "m ;;; k" := (bind m (fun _ => k))
  (at level 62, right associativity).

Definition log (e : LogEntry) : M unit :=
  fun w => (tt, World.mk (World.ticks w) (World.polls w) (World.steps w)
                         (World.logs w ++ [e])).

Definition Now (E : Env.t) : M time.Time :=
  fun w => (Env.clock E (World.ticks w),
            World.mk (S (World.ticks w)) (World.polls w) (World.steps w)
                     (World.logs w)).

(** A context: its error at each look, [None] while it is not done. *)
Definition Context : Type := nat -> option error.

Definition Background : Context := fun _ => None.

(** [context.WithTimeout(ctx, d)] *)
Definition WithTimeout (E : Env.t) (ctx : Context) : Context :=
  fun n => match ctx n with
           | Some e => Some e
           | None => if Env.timer_fired E n then Some DeadlineExceeded else None
           end.

(** One look at the context, as in
    [select { case <-ctx.Done(): ... ctx.Err() ...; default: }]. *)
Definition Done (ctx : Context) : M (option error) :=
  fun w => (ctx (World.polls w),
            World.mk (World.ticks w) (S (World.polls w)) (World.steps w)
                     (World.logs w)).

(** The scheduler picks one of [n] runnable alternatives. *)
Definition choose (E : Env.t) (n : nat) : M nat :=
  fun w => ((Env.sched E (World.steps w) `mod` n)%nat,
            World.mk (World.ticks w) (World.polls w) (S (World.steps w))
                     (World.logs w)).

(** The order in which concurrent pieces of work take effect: the
    scheduler picks the next one among those left. *)
Fixpoint interleave {A} (E : Env.t) (fuel : nat) (work : list A) : M (list A) :=
  match fuel with
  | O => ret []
  | S fuel' =>
      match work with
      | [] => ret []
      | _ =>
          i <- choose E (length work) ;;
          match work !! i with
          | Some x => r <- interleave E fuel' (delete i work) ;; ret (x :: r)
          | None => ret []
          end
      end
  end.

Definition schedule {A} (E : Env.t) (work : list A) : M (list A) :=
  interleave E (length work) work.

(** ** Package config *)

Module config.

Module CLIToolConfig.
Record t : Type := mk {
  SessionDir : string;
  HistoryFile : string;
  ConfigDir : string;
  LogsDir : string;
  CacheDir : string;
  IncludePatterns : list string;
  ExcludePatterns : list string
}.
Definition empty : t := mk "" "" "" "" "" [] [].
End CLIToolConfig.

Definition ExpandPath (E : Env.t) (path : string) : string * option error :=
  match path with
  | EmptyString => (path, None)
  | String c rest =>
      if negb (Ascii.eqb c "~"%char) then (path, None)
      else match Env.UserHomeDir E with
           | inr err => ("", Some (Errorf_w "홈 디렉토리를 찾을 수 없습니다: " err))
           | inl home => (Env.filepath_Join E home rest, None)
           end
  end.

End config.

(** the error of a call that returns a value or an error *)
Definition errOf {A} (r : A + error) : option error :=
  match r with
  | inl _ => None
  | inr e => Some e
  end.

Definition isEmpty (s : string) : bool := String.eqb s "".

(** ** The Gemini CLI collector

    Concurrency is put in sequence.  The goroutines of [Collect] append
    to [allSessions] under a mutex, each in one piece: they are run one
    after the other in an order the scheduler picks.  In the session
    pipeline the results reach the collecting loop in an order the
    scheduler picks; that loop looks at the context once per [select],
    and takes the [ctx.Done()] case as soon as the context is done. *)

Module Gemini.

Definition maxFileSize : Z := 100 * 1024 * 1024.
Definition bufferSize : Z := 64 * 1024.
Definition maxWorkers : Z := 10.
Definition maxJSONDepth : Z := 100.
Definition maxMessagesPerFile : Z := 10000.

Module ImprovedGeminiCLICollector.
Record t : Type := mk {
  config : config.CLIToolConfig.t;
  fileReader : FileReader.t
}.
End ImprovedGeminiCLICollector.
Import ImprovedGeminiCLICollector.

Inductive Branch : Type := History | SessionDir.

Definition historyFields : list (string * Setter GeminiHistoryEntry.t) :=
  let upd := GeminiHistoryEntry.mk in
  [ ("id", setString (fun s e => let 'GeminiHistoryEntry.mk _ b c d f g h := e in upd s b c d f g h));
    ("command", setString (fun s e => let 'GeminiHistoryEntry.mk a _ c d f g h := e in upd a s c d f g h));
    ("prompt", setString (fun s e => let 'GeminiHistoryEntry.mk a b _ d f g h := e in upd a b s d f g h));
    ("response", setString (fun s e => let 'GeminiHistoryEntry.mk a b c _ f g h := e in upd a b c s f g h));
    ("timestamp", setString (fun s e => let 'GeminiHistoryEntry.mk a b c d _ g h := e in upd a b c d s g h));
    ("model", setString (fun s e => let 'GeminiHistoryEntry.mk a b c d f _ h := e in upd a b c d f s h));
    ("metadata", setMap (fun m e => let 'GeminiHistoryEntry.mk a b c d f g _ := e in upd a b c d f g m)) ].

(** [min(a ...int)] *)
Fixpoint minLoop (result : Z) (rest : list Z) : Z :=
  match rest with
  | [] => result
  | v :: rest' => if v <? result then minLoop v rest' else minLoop result rest'
  end.

Definition min (a : list Z) : Z :=
  match a with
  | [] => 0
  | a0 :: rest => minLoop a0 rest
  end.

Definition isWithinDateRange (timestamp : time.Time) (dateRange : DateRange.t) : bool :=
  if negb (time.IsZero (DateRange.Start dateRange))
     && time.Before timestamp (DateRange.Start dateRange) then false
  else if negb (time.IsZero (DateRange.End_ dateRange))
          && time.After timestamp (DateRange.End_ dateRange) then false
  else true.

(** the loop [for _, session := range sessions] of [filterByDateRange] *)
Fixpoint filterLoop (sessions : list SessionData.t) (dateRange : DateRange.t)
    (filtered : list SessionData.t) : list SessionData.t :=
  match sessions with
  | [] => filtered
  | session :: rest =>
      if isWithinDateRange (SessionData.Timestamp session) dateRange
      then filterLoop rest dateRange (filtered ++ [session])
      else filterLoop rest dateRange filtered
  end.

Definition filterByDateRange (sessions : list SessionData.t)
    (dateRange : option DateRange.t) : list SessionData.t :=
  match dateRange with
  | None => sessions
  | Some dr => filterLoop sessions dr []
  end.

Definition extractTitleFromPrompt (prompt : string) : string :=
  if strings.len prompt =? 0 then "Gemini CLI Session"
  else
    let lines := strings.SplitLines prompt in
    let title := strings.TrimSpace (hd "" lines) in
    let title := if strings.len title >? 100
                 then String.substring 0 97 title +:+ "..." else title in
    if isEmpty title then "Gemini CLI Session" else title.

Definition extractContentFromGeminiMessage (msg : GeminiMessage.t) : string :=
  if negb (isEmpty (GeminiMessage.Content msg)) then GeminiMessage.Content msg
  else
    let contents :=
      flat_map (fun part =>
                  if String.eqb (GeminiMessagePart.Type_ part) "text"
                     && negb (isEmpty (GeminiMessagePart.Text part))
                  then [GeminiMessagePart.Text part] else [])
               (GeminiMessage.Parts msg) in
    strings.Join contents (String strings.newline "").

Section Collector.
Context (E : Env.t) (g : ImprovedGeminiCLICollector.t).

Definition validateConfigDirectory : option error :=
  let '(configDir, err) := config.ExpandPath E (config.CLIToolConfig.ConfigDir (config g)) in
  match err with
  | Some err => Some (Errorf_w "failed to expand config directory path: " err)
  | None =>
      if IsNotExist (errOf (FileReader.Stat (fileReader g) configDir))
      then Some (New ("gemini CLI config directory does not exist: " +:+ configDir))
      else None
  end.

Definition convertHistoryEntryToSession (entry : GeminiHistoryEntry.t) (index : Z)
    : M SessionData.t :=
  let sessionID :=
    if isEmpty (GeminiHistoryEntry.ID entry)
    then "gemini-cli-history-" +:+ strings.itoa index
    else GeminiHistoryEntry.ID entry in
  now <- Now E ;;
  let timestamp :=
    if negb (isEmpty (GeminiHistoryEntry.Timestamp entry))
    then match Env.time_Parse E (GeminiHistoryEntry.Timestamp entry) with
         | Some t => t
         | None => now
         end
    else now in
  let metadata : gmap string string :=
    <["source_type" := "gemini_cli_history"]>
      (<["command" := GeminiHistoryEntry.Command entry]>
         (<["model" := GeminiHistoryEntry.Model entry]> ∅)) in
  let userMsg :=
    if negb (isEmpty (GeminiHistoryEntry.Prompt entry))
    then [Message.mk (sessionID +:+ "-user") "user"
            (GeminiHistoryEntry.Prompt entry) timestamp ∅]
    else [] in
  let assistantMsg :=
    if negb (isEmpty (GeminiHistoryEntry.Response entry))
    then [Message.mk (sessionID +:+ "-assistant") "assistant"
            (GeminiHistoryEntry.Response entry)
            (time.Add timestamp (1 * time.Second)) ∅]
    else [] in
  ret (SessionData.mk sessionID SourceGeminiCLI timestamp
         (extractTitleFromPrompt (GeminiHistoryEntry.Prompt entry))
         (userMsg ++ assistantMsg) metadata [] []).

Definition parseJSONHistoryEntry (line : string) (lineNum : Z)
    : M (option SessionData.t * option error) :=
  let '(entry, err) :=
    decodeStruct (Env.json_fieldEq E) historyFields true
                 GeminiHistoryEntry.zero (Env.json_Decode E line) in
  match err with
  | Some err => ret (None, Some (Errorf_w "failed to parse JSON: " err))
  | None => s <- convertHistoryEntryToSession entry lineNum ;; ret (Some s, None)
  end.

Definition parseTextHistoryEntry (line : string) (lineNum : Z)
    : M (option SessionData.t) :=
  if strings.len (strings.TrimSpace line) =? 0 then ret None
  else
    let sessionID := "gemini-cli-text-" +:+ strings.itoa lineNum in
    t1 <- Now E ;;
    t2 <- Now E ;;
    ret (Some (SessionData.mk sessionID SourceGeminiCLI t1
                 "Gemini CLI History Entry"
                 [Message.mk (sessionID +:+ "-user") "user" line t2
                    {["source_type" := "gemini_cli_text"]}]
                 (<["entry_number" := strings.itoa lineNum]>
                    {["source_type" := "gemini_cli_history"]})
                 [] [])).

Definition parseHistoryLine (line : string) (lineNum : Z)
    : M (option SessionData.t * option error) :=
  if strings.HasPrefix line "{" then parseJSONHistoryEntry line lineNum
  else s <- parseTextHistoryEntry line lineNum ;; ret (s, None).

(** The loop [for scanner.Scan()] of [parseHistoryFileStreaming], on
    the tokens still to come; [taken] counts the tokens taken, which is
    also [lineNum].  Leaving the loop, by its end or by [break], goes to
    the test of [scanner.Err()]. *)
Fixpoint scanLoop (ctx : Context) (scanErr : nat -> option error)
    (lines : list string) (lineNum : Z) (taken : nat)
    (sessions : list SessionData.t) : M (list SessionData.t * option error) :=
  let afterLoop (taken : nat) (sessions : list SessionData.t) :=
    match scanErr taken with
    | Some err => ret ([], Some (Errorf_w "error reading history file: " err))
    | None => ret (sessions, None)
    end in
  match lines with
  | [] => afterLoop taken sessions
  | text :: rest =>
      d <- Done ctx ;;
      match d with
      | Some err => ret ([], Some err)
      | None =>
          let lineNum := lineNum + 1 in
          let taken := S taken in
          let line := strings.TrimSpace text in
          if isEmpty line then scanLoop ctx scanErr rest lineNum taken sessions
          else
            r <- parseHistoryLine line lineNum ;;
            match r with
            | (_, Some err) =>
                log (Warnf ("Failed to parse history line " +:+ strings.itoa lineNum
                            +:+ ": " +:+ Error err)) ;;;
                scanLoop ctx scanErr rest lineNum taken sessions
            | (session, None) =>
                let sessions := match session with
                                | Some s => sessions ++ [s]
                                | None => sessions
                                end in
                if Z.of_nat (length sessions) >=? maxMessagesPerFile
                then
                  log (Warnf ("Reached maximum messages per file limit: "
                              +:+ strings.itoa maxMessagesPerFile)) ;;;
                  afterLoop taken sessions
                else scanLoop ctx scanErr rest lineNum taken sessions
            end
      end
  end.

Definition parseHistoryFileStreaming (ctx : Context) (filePath : string)
    (collectConfig : CollectionConfig.t) : M (list SessionData.t * option error) :=
  match Env.os_Open E filePath with
  | inr err => ret ([], Some (Errorf_w "failed to open history file: " err))
  | inl file => scanLoop ctx (Scanned.Err file) (Scanned.lines file) 0 0%nat []
  end.

Definition collectFromHistoryWithRetry (ctx : Context)
    (collectConfig : CollectionConfig.t) : M (list SessionData.t * option error) :=
  let '(historyPath, err) :=
    config.ExpandPath E (config.CLIToolConfig.HistoryFile (config g)) in
  match err with
  | Some err => ret ([], Some (Errorf_w "failed to expand history file path: " err))
  | None =>
      match FileReader.Stat (fileReader g) historyPath with
      | inr err => ret ([], Some (Errorf_w "failed to stat history file: " err))
      | inl info =>
          if FileInfo.Size info >? maxFileSize
          then ret ([], Some (New ("history file too large: "
                                   +:+ strings.itoa (FileInfo.Size info)
                                   +:+ " bytes (max: " +:+ strings.itoa maxFileSize
                                   +:+ ")")))
          else parseHistoryFileStreaming ctx historyPath collectConfig
      end
  end.

Definition convertGeminiMessage (sessionTimestamp : time.Time)
    (geminiMsg : GeminiMessage.t) : Message.t :=
  let timestamp :=
    if negb (isEmpty (GeminiMessage.Timestamp geminiMsg))
    then match Env.time_Parse E (GeminiMessage.Timestamp geminiMsg) with
         | Some msgTime => msgTime
         | None => sessionTimestamp
         end
    else sessionTimestamp in
  Message.mk (GeminiMessage.ID geminiMsg) (GeminiMessage.Role geminiMsg)
             (extractContentFromGeminiMessage geminiMsg) timestamp ∅.

Definition convertGeminiSessionToModel (geminiSession : GeminiSessionData.t)
    (filePath : string) : M SessionData.t :=
  now <- Now E ;;
  let id :=
    if isEmpty (GeminiSessionData.ID geminiSession)
    then "gemini-cli-" +:+ Env.filepath_Base E filePath
    else GeminiSessionData.ID geminiSession in
  let timestamp :=
    if negb (isEmpty (GeminiSessionData.CreatedAt geminiSession))
    then match Env.time_Parse E (GeminiSessionData.CreatedAt geminiSession) with
         | Some t => t
         | None => now
         end
    else now in
  let metadata : gmap string string :=
    <["source_type" := "gemini_cli_session"]>
      (<["model" := GeminiSessionData.Model geminiSession]>
         (<["file_path" := filePath]> ∅)) in
  ret (SessionData.mk id SourceGeminiCLI timestamp
         (GeminiSessionData.Title geminiSession)
         (map (convertGeminiMessage timestamp) (GeminiSessionData.Messages geminiSession))
         metadata [] []).

Definition parseTextSession (content : string) (path : string) : M SessionData.t :=
  let fileName := Env.filepath_Base E path in
  let sessionID :=
    "gemini-cli-text-" +:+ strings.TrimSuffix fileName (Env.filepath_Ext E fileName) in
  t1 <- Now E ;;
  t2 <- Now E ;;
  ret (SessionData.mk sessionID SourceGeminiCLI t1
         ("Gemini CLI Session: " +:+ fileName)
         [Message.mk (sessionID +:+ "-content") "user" content t2
            {["source_type" := "gemini_cli_text"]}]
         (<["source_type" := "gemini_cli_text"]> {["file_path" := path]})
         [] []).

Definition parseSessionFileSafe (path : string) (collectConfig : CollectionConfig.t)
    : M (option SessionData.t * option error) :=
  match FileReader.Stat (fileReader g) path with
  | inr err => ret (None, Some (Errorf_w "failed to stat file: " err))
  | inl info =>
      if FileInfo.Size info >? maxFileSize
      then ret (None, Some (New ("file too large: "
                                 +:+ strings.itoa (FileInfo.Size info) +:+ " bytes")))
      else
        match FileReader.ReadFile (fileReader g) path with
        | inr err => ret (None, Some (Errorf_w "failed to read file: " err))
        | inl data =>
            match Env.json_Unmarshal_Gemini E data with
            | inr _ => s <- parseTextSession data path ;; ret (Some s, None)
            | inl sessionData =>
                s <- convertGeminiSessionToModel sessionData path ;; ret (Some s, None)
            end
        end
  end.

(** The callback of [WalkDir], over the calls the file layer makes. *)
Fixpoint walkLoop (entries : list WalkEntry.t) (filePaths : list string)
    : list string * option error :=
  match entries with
  | [] => (filePaths, None)
  | d :: rest =>
      match WalkEntry.err d with
      | Some err => (filePaths, Some err)
      | None =>
          if WalkEntry.IsDir d || negb (strings.HasSuffix (WalkEntry.path d) ".json")
          then walkLoop rest filePaths
          else walkLoop rest (filePaths ++ [WalkEntry.path d])
      end
  end.

Fixpoint logErrors (prefix : string) (errors : list error) : M unit :=
  match errors with
  | [] => ret tt
  | err :: rest => log (Warnf (prefix +:+ Error err)) ;;; logErrors prefix rest
  end.

(** The two last turns of the collecting loop, which find the result
    channel and the error channel closed. *)
Fixpoint closeLoop (ctx : Context) (channels : nat) (sessions : list SessionData.t)
    (errors : list error) : M (list SessionData.t * option error) :=
  match channels with
  | O =>
      logErrors "Session file processing error: " errors ;;;
      ret (sessions, None)
  | S channels' =>
      d <- Done ctx ;;
      match d with
      | Some err => ret ([], Some err)
      | None => closeLoop ctx channels' sessions errors
      end
  end.

(** The collecting loop, over the files in the order their results
    arrive; the worker of a file runs [parseSessionFileSafe] and sends
    to the result channel or to the error channel. *)
Fixpoint collectLoop (ctx : Context) (collectConfig : CollectionConfig.t)
    (arrivals : list string) (sessions : list SessionData.t) (errors : list error)
    : M (list SessionData.t * option error) :=
  match arrivals with
  | [] => closeLoop ctx 2 sessions errors
  | filePath :: rest =>
      d <- Done ctx ;;
      match d with
      | Some err => ret ([], Some err)
      | None =>
          r <- parseSessionFileSafe filePath collectConfig ;;
          match r with
          | (_, Some err) =>
              collectLoop ctx collectConfig rest sessions
                (errors ++ [Errorf_w ("failed to parse session file " +:+ filePath
                                      +:+ ": ") err])
          | (Some session, None) =>
              collectLoop ctx collectConfig rest (sessions ++ [session]) errors
          | (None, None) => collectLoop ctx collectConfig rest sessions errors
          end
      end
  end.

Definition collectFromSessionDirConcurrent (ctx : Context)
    (collectConfig : CollectionConfig.t) : M (list SessionData.t * option error) :=
  let '(sessionDirPath, err) :=
    config.ExpandPath E (config.CLIToolConfig.SessionDir (config g)) in
  match err with
  | Some err =>
      ret ([], Some (Errorf_w "failed to expand session directory path: " err))
  | None =>
      let '(filePaths, err) :=
        walkLoop (FileReader.WalkDir (fileReader g) sessionDirPath) [] in
      match err with
      | Some err => ret ([], Some (Errorf_w "failed to walk session directory: " err))
      | None =>
          let numWorkers :=
            min [maxWorkers; Z.of_nat (length filePaths); Env.NumCPU E] in
          if numWorkers =? 0 then ret ([], None)
          else
            arrivals <- schedule E filePaths ;;
            collectLoop ctx collectConfig arrivals [] []
      end
  end.

Definition runBranch (ctx : Context) (collectConfig : CollectionConfig.t)
    (b : Branch) (state : list SessionData.t * list error)
    : M (list SessionData.t * list error) :=
  let '(allSessions, errs) := state in
  match b with
  | History =>
      r <- collectFromHistoryWithRetry ctx collectConfig ;;
      match r with
      | (_, Some err) =>
          ret (allSessions, errs ++ [Errorf_w "history collection failed: " err])
      | (sessions, None) => ret (allSessions ++ sessions, errs)
      end
  | SessionDir =>
      r <- collectFromSessionDirConcurrent ctx collectConfig ;;
      match r with
      | (_, Some err) =>
          ret (allSessions,
               errs ++ [Errorf_w "session directory collection failed: " err])
      | (sessions, None) => ret (allSessions ++ sessions, errs)
      end
  end.

Fixpoint runBranches (ctx : Context) (collectConfig : CollectionConfig.t)
    (order : list Branch) (state : list SessionData.t * list error)
    : M (list SessionData.t * list error) :=
  match order with
  | [] => ret state
  | b :: rest =>
      state' <- runBranch ctx collectConfig b state ;;
      runBranches ctx collectConfig rest state'
  end.

(** the goroutines [Collect] starts *)
Definition branches : list Branch :=
  (if negb (isEmpty (config.CLIToolConfig.HistoryFile (config g)))
   then [History] else [])
  ++ (if negb (isEmpty (config.CLIToolConfig.SessionDir (config g)))
      then [SessionDir] else []).

Definition Collect (ctx : Context) (collectConfig : option CollectionConfig.t)
    : M (list SessionData.t * option error) :=
  match collectConfig with
  | None => ret ([], Some (New "collection config is nil"))
  | Some collectConfig =>
      let ctx := WithTimeout E ctx in
      match validateConfigDirectory with
      | Some err =>
          ret ([], Some (Errorf_w "config directory validation failed: " err))
      | None =>
          order <- schedule E branches ;;
          state <- runBranches ctx collectConfig order ([], []) ;;
          let '(allSessions, errs) := state in
          logErrors "Collection warning: " errs ;;;
          let allSessions :=
            match CollectionConfig.DateRange collectConfig with
            | Some dr => filterByDateRange allSessions (Some dr)
            | None => allSessions
            end in
          ret (allSessions, None)
      end
  end.

Definition GetSource : CollectionSource := SourceGeminiCLI.

Definition Validate : option error := validateConfigDirectory.

Definition GetSupportedFormats : list string := ["json"; "text"; "jsonl"].

End Collector.

Definition NewImprovedGeminiCLICollector (cfg : config.CLIToolConfig.t)
    (defaultFileReader : FileReader.t) : ImprovedGeminiCLICollector.t :=
  ImprovedGeminiCLICollector.mk cfg defaultFileReader.

End Gemini.

(** ** The Amazon Q collector (internal/collector/amazonq.go)

    Concurrency is put in sequence as for the Gemini CLI collector. *)

Module AmazonQ.

Definition amazonQMaxFileSize : Z := 100 * 1024 * 1024.
Definition amazonQBufferSize : Z := 64 * 1024.
Definition amazonQMaxWorkers : Z := 10.
Definition amazonQMaxMessagesPerFile : Z := 10000.

Module AmazonQCollector.
Record t : Type := mk {
  config : config.CLIToolConfig.t;
  fileReader : FileReader.t
}.
End AmazonQCollector.
Import AmazonQCollector.

Inductive Branch : Type := History | SessionDir | AWSConfig.

Definition historyFields : list (string * Setter AmazonQHistoryEntry.t) :=
  let upd := AmazonQHistoryEntry.mk in
  [ ("id", setString (fun s e => let 'AmazonQHistoryEntry.mk _ b c d f g h i j k l := e in upd s b c d f g h i j k l));
    ("conversation_id", setString (fun s e => let 'AmazonQHistoryEntry.mk a _ c d f g h i j k l := e in upd a s c d f g h i j k l));
    ("query", setString (fun s e => let 'AmazonQHistoryEntry.mk a b _ d f g h i j k l := e in upd a b s d f g h i j k l));
    ("response", setString (fun s e => let 'AmazonQHistoryEntry.mk a b c _ f g h i j k l := e in upd a b c s f g h i j k l));
    ("timestamp", setString (fun s e => let 'AmazonQHistoryEntry.mk a b c d _ g h i j k l := e in upd a b c d s g h i j k l));
    ("service", setString (fun s e => let 'AmazonQHistoryEntry.mk a b c d f _ h i j k l := e in upd a b c d f s h i j k l));
    ("region", setString (fun s e => let 'AmazonQHistoryEntry.mk a b c d f g _ i j k l := e in upd a b c d f g s i j k l));
    ("user_id", setString (fun s e => let 'AmazonQHistoryEntry.mk a b c d f g h _ j k l := e in upd a b c d f g h s j k l));
    ("session_type", setString (fun s e => let 'AmazonQHistoryEntry.mk a b c d f g h i _ k l := e in upd a b c d f g h i s k l));
    ("context", setMap (fun m e => let 'AmazonQHistoryEntry.mk a b c d f g h i j _ l := e in upd a b c d f g h i j m l));
    ("metadata", setMap (fun m e => let 'AmazonQHistoryEntry.mk a b c d f g h i j k _ := e in upd a b c d f g h i j k m)) ].

(** [minInts(a ...int)] *)
Fixpoint minIntsLoop (result : Z) (rest : list Z) : Z :=
  match rest with
  | [] => result
  | v :: rest' => if v <? result then minIntsLoop v rest' else minIntsLoop result rest'
  end.

Definition minInts (a : list Z) : Z :=
  match a with
  | [] => 0
  | a0 :: rest => minIntsLoop a0 rest
  end.

Definition isWithinDateRange (timestamp : time.Time) (dateRange : DateRange.t) : bool :=
  if negb (time.IsZero (DateRange.Start dateRange))
     && time.Before timestamp (DateRange.Start dateRange) then false
  else if negb (time.IsZero (DateRange.End_ dateRange))
          && time.After timestamp (DateRange.End_ dateRange) then false
  else true.

(** the loop [for _, session := range sessions] of [filterByDateRange] *)
Fixpoint filterLoop (sessions : list SessionData.t) (dateRange : DateRange.t)
    (filtered : list SessionData.t) : list SessionData.t :=
  match sessions with
  | [] => filtered
  | session :: rest =>
      if isWithinDateRange (SessionData.Timestamp session) dateRange
      then filterLoop rest dateRange (filtered ++ [session])
      else filterLoop rest dateRange filtered
  end.

Definition filterByDateRange (sessions : list SessionData.t)
    (dateRange : option DateRange.t) : list SessionData.t :=
  match dateRange with
  | None => sessions
  | Some dr => filterLoop sessions dr []
  end.

Definition extractTitleFromQuery (query : string) : string :=
  if strings.len query =? 0 then "Amazon Q CLI Session"
  else
    let lines := strings.SplitLines query in
    let title := strings.TrimSpace (hd "" lines) in
    let title := if strings.len title >? 100
                 then String.substring 0 97 title +:+ "..." else title in
    if isEmpty title then "Amazon Q CLI Session" else title.

(** One dummy session of [generateDummyData]; [age] is how far before
    [now] its timestamp lies. *)
Definition dummySession (now : time.Time) (n : string) (age : time.Duration)
    (title question answer service region : string) : SessionData.t :=
  let msgMeta : gmap string string :=
    <["region" := region]> {["service" := service]} in
  SessionData.mk ("amazonq-dummy-" +:+ n) SourceAmazonQ (time.Add now (- age)) title
    [ Message.mk ("amazonq-dummy-" +:+ n +:+ "-user") "user" question
        (time.Add now (- age)) msgMeta;
      Message.mk ("amazonq-dummy-" +:+ n +:+ "-assistant") "assistant" answer
        (time.Add now (- age + time.Minute)) msgMeta ]
    (<["user_id" := "demo-user"]>
       (<["source_type" := "amazon_q_dummy"]>
          (<["region" := region]> {["service" := service]})))
    [] [].

(** the slice literal [generateDummyData] returns, for a reading [now]
    of the clock *)
Definition dummyData (now : time.Time) : list SessionData.t :=
  [ dummySession now "1" (24 * time.Hour) "AWS EC2 Instance Management"
      "How do I create an EC2 instance with auto-scaling?"
      "To create an EC2 instance with auto-scaling, you need to: 1) Create a launch template 2) Create an auto-scaling group 3) Configure scaling policies..."
      "ec2" "us-west-2";
    dummySession now "2" (12 * time.Hour) "S3 Bucket Security Configuration"
      "What are the best practices for securing S3 buckets?"
      "Here are the key S3 security best practices: 1) Enable versioning 2) Configure bucket policies 3) Use IAM roles 4) Enable access logging..."
      "s3" "us-east-1";
    dummySession now "3" (6 * time.Hour) "Lambda Function Optimization"
      "How can I optimize my Lambda function for better performance?"
      "To optimize Lambda performance: 1) Right-size memory allocation 2) Minimize cold starts 3) Use connection pooling 4) Optimize code and dependencies..."
      "lambda" "eu-west-1" ].

Section Collector.
Context (E : Env.t) (a : AmazonQCollector.t).

Definition generateDummyData : M (list SessionData.t) :=
  now <- Now E ;;
  ret (dummyData now).

Definition validateConfigDirectory : option error :=
  let '(configDir, err) := config.ExpandPath E (config.CLIToolConfig.ConfigDir (config a)) in
  match err with
  | Some err => Some (Errorf_w "failed to expand config directory path: " err)
  | None =>
      if IsNotExist (errOf (FileReader.Stat (fileReader a) configDir))
      then Some (New ("Amazon Q CLI config directory does not exist: " +:+ configDir))
      else None
  end.

Definition convertHistoryEntryToSession (entry : AmazonQHistoryEntry.t) (index : Z)
    : M SessionData.t :=
  let sessionID :=
    if isEmpty (AmazonQHistoryEntry.ID entry)
    then "amazonq-history-" +:+ strings.itoa index
    else AmazonQHistoryEntry.ID entry in
  now <- Now E ;;
  let timestamp :=
    if negb (isEmpty (AmazonQHistoryEntry.Timestamp entry))
    then match Env.time_Parse E (AmazonQHistoryEntry.Timestamp entry) with
         | Some t => t
         | None => now
         end
    else now in
  let metadata : gmap string string :=
    <["source_type" := "amazon_q_history"]>
      (<["session_type" := AmazonQHistoryEntry.SessionType entry]>
         (<["conversation_id" := AmazonQHistoryEntry.ConversationID entry]>
            (<["user_id" := AmazonQHistoryEntry.UserID entry]>
               (<["region" := AmazonQHistoryEntry.Region entry]>
                  (<["service" := AmazonQHistoryEntry.Service entry]> ∅))))) in
  let msgMeta : gmap string string :=
    <["region" := AmazonQHistoryEntry.Region entry]>
      (<["service" := AmazonQHistoryEntry.Service entry]> ∅) in
  let userMsg :=
    if negb (isEmpty (AmazonQHistoryEntry.Query entry))
    then [Message.mk (sessionID +:+ "-user") "user"
            (AmazonQHistoryEntry.Query entry) timestamp msgMeta]
    else [] in
  let assistantMsg :=
    if negb (isEmpty (AmazonQHistoryEntry.Response entry))
    then [Message.mk (sessionID +:+ "-assistant") "assistant"
            (AmazonQHistoryEntry.Response entry)
            (time.Add timestamp (1 * time.Second)) msgMeta]
    else [] in
  ret (SessionData.mk sessionID SourceAmazonQ timestamp
         (extractTitleFromQuery (AmazonQHistoryEntry.Query entry))
         (userMsg ++ assistantMsg) metadata [] []).

(** The decoder is used as it is made: [DisallowUnknownFields] is not
    called. *)
Definition parseJSONHistoryEntry (line : string) (lineNum : Z)
    : M (option SessionData.t * option error) :=
  let '(entry, err) :=
    decodeStruct (Env.json_fieldEq E) historyFields false
                 AmazonQHistoryEntry.zero (Env.json_Decode E line) in
  match err with
  | Some err => ret (None, Some (Errorf_w "failed to parse JSON: " err))
  | None => s <- convertHistoryEntryToSession entry lineNum ;; ret (Some s, None)
  end.

Definition parseTextHistoryEntry (line : string) (lineNum : Z)
    : M (option SessionData.t) :=
  if strings.len (strings.TrimSpace line) =? 0 then ret None
  else
    let sessionID := "amazonq-text-" +:+ strings.itoa lineNum in
    t1 <- Now E ;;
    t2 <- Now E ;;
    ret (Some (SessionData.mk sessionID SourceAmazonQ t1
                 "Amazon Q CLI History Entry"
                 [Message.mk (sessionID +:+ "-user") "user" line t2
                    {["source_type" := "amazon_q_text"]}]
                 (<["entry_number" := strings.itoa lineNum]>
                    {["source_type" := "amazon_q_history"]})
                 [] [])).

Definition parseHistoryLine (line : string) (lineNum : Z)
    : M (option SessionData.t * option error) :=
  if strings.HasPrefix line "{" then parseJSONHistoryEntry line lineNum
  else s <- parseTextHistoryEntry line lineNum ;; ret (s, None).

(** The loop [for lineNum, line := range lines] of
    [parseHistoryFileStreaming]; [lineNum] is the index of the first
    line of [lines]. *)
Fixpoint linesLoop (ctx : Context) (lines : list string) (lineNum : Z)
    (sessions : list SessionData.t) : M (list SessionData.t * option error) :=
  match lines with
  | [] => ret (sessions, None)
  | text :: rest =>
      d <- Done ctx ;;
      match d with
      | Some err => ret ([], Some err)
      | None =>
          let line := strings.TrimSpace text in
          if isEmpty line then linesLoop ctx rest (lineNum + 1) sessions
          else
            r <- parseHistoryLine line (lineNum + 1) ;;
            match r with
            | (_, Some err) =>
                log (Warnf ("Failed to parse Amazon Q history line "
                            +:+ strings.itoa (lineNum + 1) +:+ ": " +:+ Error err)) ;;;
                linesLoop ctx rest (lineNum + 1) sessions
            | (session, None) =>
                let sessions := match session with
                                | Some s => sessions ++ [s]
                                | None => sessions
                                end in
                if Z.of_nat (length sessions) >=? amazonQMaxMessagesPerFile
                then
                  log (Warnf ("Reached maximum messages per file limit: "
                              +:+ strings.itoa amazonQMaxMessagesPerFile)) ;;;
                  ret (sessions, None)
                else linesLoop ctx rest (lineNum + 1) sessions
            end
      end
  end.

Definition parseHistoryFileStreaming (ctx : Context) (filePath : string)
    (collectConfig : CollectionConfig.t) : M (list SessionData.t * option error) :=
  match FileReader.ReadFile (fileReader a) filePath with
  | inr err => ret ([], Some (Errorf_w "failed to read history file: " err))
  | inl content => linesLoop ctx (strings.SplitLines content) 0 []
  end.

Definition collectFromHistoryWithRetry (ctx : Context)
    (collectConfig : CollectionConfig.t) : M (list SessionData.t * option error) :=
  let '(historyPath, err) :=
    config.ExpandPath E (config.CLIToolConfig.HistoryFile (config a)) in
  match err with
  | Some err => ret ([], Some (Errorf_w "failed to expand history file path: " err))
  | None =>
      match FileReader.Stat (fileReader a) historyPath with
      | inr err =>
          if IsNotExist (Some err)
          then
            log (Warnf ("Amazon Q CLI history file not found: " +:+ historyPath)) ;;;
            ret ([], None)
          else ret ([], Some (Errorf_w "failed to stat history file: " err))
      | inl info =>
          if FileInfo.Size info >? amazonQMaxFileSize
          then ret ([], Some (New ("history file too large: "
                                   +:+ strings.itoa (FileInfo.Size info)
                                   +:+ " bytes (max: "
                                   +:+ strings.itoa amazonQMaxFileSize +:+ ")")))
          else parseHistoryFileStreaming ctx historyPath collectConfig
      end
  end.

Definition convertAmazonQMessage (sessionTimestamp : time.Time)
    (amazonQMsg : AmazonQMessage.t) : Message.t :=
  let timestamp :=
    if negb (isEmpty (AmazonQMessage.Timestamp amazonQMsg))
    then match Env.time_Parse E (AmazonQMessage.Timestamp amazonQMsg) with
         | Some msgTime => msgTime
         | None => sessionTimestamp
         end
    else sessionTimestamp in
  Message.mk (AmazonQMessage.ID amazonQMsg) (AmazonQMessage.Role amazonQMsg)
             (AmazonQMessage.Content amazonQMsg) timestamp
             (<["message_type" := AmazonQMessage.MessageType amazonQMsg]>
                (<["service" := AmazonQMessage.Service amazonQMsg]> ∅)).

Definition convertAmazonQSessionToModel (amazonQSession : AmazonQSessionData.t)
    (filePath : string) : M SessionData.t :=
  now <- Now E ;;
  let id :=
    if isEmpty (AmazonQSessionData.ID amazonQSession)
    then "amazonq-" +:+ Env.filepath_Base E filePath
    else AmazonQSessionData.ID amazonQSession in
  let timestamp :=
    if negb (isEmpty (AmazonQSessionData.CreatedAt amazonQSession))
    then match Env.time_Parse E (AmazonQSessionData.CreatedAt amazonQSession) with
         | Some t => t
         | None => now
         end
    else now in
  let metadata : gmap string string :=
    <["source_type" := "amazon_q_session"]>
      (<["conversation_id" := AmazonQSessionData.ConversationID amazonQSession]>
         (<["user_id" := AmazonQSessionData.UserID amazonQSession]>
            (<["region" := AmazonQSessionData.Region amazonQSession]>
               (<["service" := AmazonQSessionData.Service amazonQSession]>
                  (<["file_path" := filePath]> ∅))))) in
  ret (SessionData.mk id SourceAmazonQ timestamp
         (AmazonQSessionData.Title amazonQSession)
         (map (convertAmazonQMessage timestamp)
              (AmazonQSessionData.Messages amazonQSession))
         metadata [] []).

Definition parseTextSession (content : string) (path : string) : M SessionData.t :=
  let fileName := Env.filepath_Base E path in
  let sessionID :=
    "amazonq-text-" +:+ strings.TrimSuffix fileName (Env.filepath_Ext E fileName) in
  t1 <- Now E ;;
  t2 <- Now E ;;
  ret (SessionData.mk sessionID SourceAmazonQ t1
         ("Amazon Q CLI Session: " +:+ fileName)
         [Message.mk (sessionID +:+ "-content") "user" content t2
            {["source_type" := "amazon_q_text"]}]
         (<["source_type" := "amazon_q_text"]> {["file_path" := path]})
         [] []).

Definition parseSessionFileSafe (path : string) (collectConfig : CollectionConfig.t)
    : M (option SessionData.t * option error) :=
  match FileReader.Stat (fileReader a) path with
  | inr err => ret (None, Some (Errorf_w "failed to stat file: " err))
  | inl info =>
      if FileInfo.Size info >? amazonQMaxFileSize
      then ret (None, Some (New ("file too large: "
                                 +:+ strings.itoa (FileInfo.Size info) +:+ " bytes")))
      else
        match FileReader.ReadFile (fileReader a) path with
        | inr err => ret (None, Some (Errorf_w "failed to read file: " err))
        | inl data =>
            match Env.json_Unmarshal_AmazonQ E data with
            | inr _ => s <- parseTextSession data path ;; ret (Some s, None)
            | inl sessionData =>
                s <- convertAmazonQSessionToModel sessionData path ;; ret (Some s, None)
            end
        end
  end.

Definition isAmazonQFile (filePath : string) : bool :=
  let fileName := Env.filepath_Base E filePath in
  let fileExt := Env.filepath_Ext E fileName in
  let amazonQPatterns := [".json"; ".log"; ".session"; "amazonq"; "aws-q"; "q-cli"] in
  existsb (fun pattern =>
             strings.Contains (Env.strings_ToLower E fileName) pattern
             || String.eqb (Env.strings_ToLower E fileExt) pattern)
          amazonQPatterns.

(** The callback of [WalkDir], over the calls the file layer makes. *)
Fixpoint walkLoop (entries : list WalkEntry.t) (filePaths : list string)
    : list string * option error :=
  match entries with
  | [] => (filePaths, None)
  | d :: rest =>
      match WalkEntry.err d with
      | Some err => (filePaths, Some err)
      | None =>
          if WalkEntry.IsDir d then walkLoop rest filePaths
          else if isAmazonQFile (WalkEntry.path d)
               then walkLoop rest (filePaths ++ [WalkEntry.path d])
               else walkLoop rest filePaths
      end
  end.

Fixpoint logErrors (prefix : string) (errors : list error) : M unit :=
  match errors with
  | [] => ret tt
  | err :: rest => log (Warnf (prefix +:+ Error err)) ;;; logErrors prefix rest
  end.

(** The two last turns of the collecting loop, which find the result
    channel and the error channel closed. *)
Fixpoint closeLoop (ctx : Context) (channels : nat) (sessions : list SessionData.t)
    (errors : list error) : M (list SessionData.t * option error) :=
  match channels with
  | O =>
      logErrors "Amazon Q session file processing error: " errors ;;;
      ret (sessions, None)
  | S channels' =>
      d <- Done ctx ;;
      match d with
      | Some err => ret ([], Some err)
      | None => closeLoop ctx channels' sessions errors
      end
  end.

(** The collecting loop, over the files in the order their results
    arrive. *)
Fixpoint collectLoop (ctx : Context) (collectConfig : CollectionConfig.t)
    (arrivals : list string) (sessions : list SessionData.t) (errors : list error)
    : M (list SessionData.t * option error) :=
  match arrivals with
  | [] => closeLoop ctx 2 sessions errors
  | filePath :: rest =>
      d <- Done ctx ;;
      match d with
      | Some err => ret ([], Some err)
      | None =>
          r <- parseSessionFileSafe filePath collectConfig ;;
          match r with
          | (_, Some err) =>
              collectLoop ctx collectConfig rest sessions
                (errors ++ [Errorf_w ("failed to parse Amazon Q session file "
                                      +:+ filePath +:+ ": ") err])
          | (Some session, None) =>
              collectLoop ctx collectConfig rest (sessions ++ [session]) errors
          | (None, None) => collectLoop ctx collectConfig rest sessions errors
          end
      end
  end.

Definition collectFromSessionDirConcurrent (ctx : Context)
    (collectConfig : CollectionConfig.t) : M (list SessionData.t * option error) :=
  let '(sessionDirPath, err) :=
    config.ExpandPath E (config.CLIToolConfig.SessionDir (config a)) in
  match err with
  | Some err =>
      ret ([], Some (Errorf_w "failed to expand session directory path: " err))
  | None =>
      if IsNotExist (errOf (FileReader.Stat (fileReader a) sessionDirPath))
      then
        log (Warnf ("Amazon Q CLI session directory not found: " +:+ sessionDirPath)) ;;;
        ret ([], None)
      else
        let '(filePaths, err) :=
          walkLoop (FileReader.WalkDir (fileReader a) sessionDirPath) [] in
        match err with
        | Some err =>
            ret ([], Some (Errorf_w "failed to walk session directory: " err))
        | None =>
            let numWorkers :=
              minInts [amazonQMaxWorkers; Z.of_nat (length filePaths); Env.NumCPU E] in
            if numWorkers =? 0 then ret ([], None)
            else
              arrivals <- schedule E filePaths ;;
              collectLoop ctx collectConfig arrivals [] []
        end
  end.

(** the loop [for _, awsPath := range awsPaths] of [collectFromAWSConfig] *)
Fixpoint awsLoop (ctx : Context) (awsPaths : list string)
    (sessions : list SessionData.t) : M (list SessionData.t * option error) :=
  match awsPaths with
  | [] => ret (sessions, None)
  | awsPath :: rest =>
      d <- Done ctx ;;
      match d with
      | Some err => ret ([], Some err)
      | None =>
          let '(expandedPath, err) := config.ExpandPath E awsPath in
          match err with
          | Some _ => awsLoop ctx rest sessions
          | None =>
              if IsNotExist (errOf (FileReader.Stat (fileReader a) expandedPath))
              then awsLoop ctx rest sessions
              else
                match FileReader.ReadFile (fileReader a) expandedPath with
                | inr _ => awsLoop ctx rest sessions
                | inl data =>
                    let base := Env.filepath_Base E expandedPath in
                    t1 <- Now E ;;
                    t2 <- Now E ;;
                    let session :=
                      SessionData.mk ("amazonq-aws-config-" +:+ base) SourceAmazonQ t1
                        ("AWS Configuration: " +:+ base)
                        [Message.mk ("aws-config-" +:+ base) "system" data t2
                           (<["config_file" := expandedPath]>
                              {["source_type" := "aws_config"]})]
                        (<["config_path" := expandedPath]>
                           {["source_type" := "aws_config"]})
                        [] [] in
                    awsLoop ctx rest (sessions ++ [session])
                end
          end
      end
  end.

Definition collectFromAWSConfig (ctx : Context) (collectConfig : CollectionConfig.t)
    : M (list SessionData.t * option error) :=
  awsLoop ctx ["~/.aws/config"; "~/.aws/credentials"; "~/.amazon-q/config";
               "~/.amazon-q/session.json"] [].

Definition runBranch (ctx : Context) (collectConfig : CollectionConfig.t)
    (b : Branch) (state : list SessionData.t * list error)
    : M (list SessionData.t * list error) :=
  let '(allSessions, errs) := state in
  match b with
  | History =>
      r <- collectFromHistoryWithRetry ctx collectConfig ;;
      match r with
      | (_, Some err) =>
          ret (allSessions,
               errs ++ [Errorf_w "Amazon Q history collection failed: " err])
      | (sessions, None) => ret (allSessions ++ sessions, errs)
      end
  | SessionDir =>
      r <- collectFromSessionDirConcurrent ctx collectConfig ;;
      match r with
      | (_, Some err) =>
          ret (allSessions,
               errs ++ [Errorf_w "Amazon Q session directory collection failed: " err])
      | (sessions, None) => ret (allSessions ++ sessions, errs)
      end
  | AWSConfig =>
      r <- collectFromAWSConfig ctx collectConfig ;;
      match r with
      | (_, Some err) =>
          ret (allSessions, errs ++ [Errorf_w "AWS config collection failed: " err])
      | (sessions, None) => ret (allSessions ++ sessions, errs)
      end
  end.

Fixpoint runBranches (ctx : Context) (collectConfig : CollectionConfig.t)
    (order : list Branch) (state : list SessionData.t * list error)
    : M (list SessionData.t * list error) :=
  match order with
  | [] => ret state
  | b :: rest =>
      state' <- runBranch ctx collectConfig b state ;;
      runBranches ctx collectConfig rest state'
  end.

(** the goroutines [Collect] starts *)
Definition branches : list Branch :=
  (if negb (isEmpty (config.CLIToolConfig.HistoryFile (config a)))
   then [History] else [])
  ++ (if negb (isEmpty (config.CLIToolConfig.SessionDir (config a)))
      then [SessionDir] else [])
  ++ [AWSConfig].

Definition Collect (ctx : Context) (collectConfig : option CollectionConfig.t)
    : M (list SessionData.t * option error) :=
  match collectConfig with
  | None => ret ([], Some (New "collection config is nil"))
  | Some collectConfig =>
      let ctx := WithTimeout E ctx in
      match validateConfigDirectory with
      | Some err =>
          log (Warnf ("Amazon Q CLI not found, returning dummy data: " +:+ Error err)) ;;;
          dummy <- generateDummyData ;;
          ret (dummy, None)
      | None =>
          order <- schedule E branches ;;
          state <- runBranches ctx collectConfig order ([], []) ;;
          let '(allSessions, errs) := state in
          logErrors "Collection warning: " errs ;;;
          allSessions <-
            (if Z.of_nat (length allSessions) =? 0
             then
               log (Printf "No Amazon Q CLI data found, generating dummy data") ;;;
               generateDummyData
             else ret allSessions) ;;
          let allSessions :=
            match CollectionConfig.DateRange collectConfig with
            | Some dr => filterByDateRange allSessions (Some dr)
            | None => allSessions
            end in
          ret (allSessions, None)
      end
  end.

Definition GetSource : CollectionSource := SourceAmazonQ.

Definition Validate : M (option error) :=
  if isEmpty (config.CLIToolConfig.ConfigDir (config a))
  then ret (Some (New "config directory not specified"))
  else
    let '(configDir, err) :=
      config.ExpandPath E (config.CLIToolConfig.ConfigDir (config a)) in
    match err with
    | Some err => ret (Some (Errorf_w "failed to expand config directory path: " err))
    | None =>
        if IsNotExist (errOf (FileReader.Stat (fileReader a) configDir))
        then
          log (Warnf ("Amazon Q CLI config directory does not exist: " +:+ configDir)) ;;;
          ret None
        else ret None
    end.

Definition GetSupportedFormats : list string := ["json"; "text"; "aws-logs"; "session"].

End Collector.

Definition NewAmazonQCollector (cfg : config.CLIToolConfig.t)
    (defaultFileReader : FileReader.t) : AmazonQCollector.t :=
  AmazonQCollector.mk cfg defaultFileReader.

End AmazonQ.

(** ** The Claude Code collector (internal/collector/claude.go) *)

(** A call returns, or panics. *)
Inductive Outcome (A : Type) : Type :=
| Returned (a : A)
| Panicked (msg : string).
Arguments Returned {A} a.
Arguments Panicked {A} msg.

Module Claude.

Module ClaudeCodeCollector.
Record t : Type := mk {
  config : config.CLIToolConfig.t
}.
End ClaudeCodeCollector.
Import ClaudeCodeCollector.

Definition NewClaudeCodeCollector (cfg : config.CLIToolConfig.t) : ClaudeCodeCollector.t :=
  ClaudeCodeCollector.mk cfg.

(** the loop of [filterByDateRange], with its two [continue]s *)
Fixpoint filterLoop (sessions : list SessionData.t) (dateRange : DateRange.t)
    (filtered : list SessionData.t) : list SessionData.t :=
  match sessions with
  | [] => filtered
  | session :: rest =>
      if negb (time.IsZero (DateRange.Start dateRange))
         && time.Before (SessionData.Timestamp session) (DateRange.Start dateRange)
      then filterLoop rest dateRange filtered
      else if negb (time.IsZero (DateRange.End_ dateRange))
              && time.After (SessionData.Timestamp session) (DateRange.End_ dateRange)
      then filterLoop rest dateRange filtered
      else filterLoop rest dateRange (filtered ++ [session])
  end.

Definition filterByDateRange (sessions : list SessionData.t)
    (dateRange : option DateRange.t) : list SessionData.t :=
  match dateRange with
  | None => sessions
  | Some dr => filterLoop sessions dr []
  end.

(** [json.Unmarshal(data, &m)] for [m] of type [map[string]interface{}] *)
Definition unmarshalMap (E : Env.t) (data : string)
    : list (string * JValue) * option error :=
  match Env.json_Unmarshal E data with
  | inr err => ([], Some err)
  | inl (JObject members) => (members, None)
  | inl JNull => ([], None)
  | inl _ => ([], Some (New "json: cannot unmarshal value into Go value of type map[string]interface {}"))
  end.

Section Collector.
Context (E : Env.t) (c : ClaudeCodeCollector.t).

Definition parseMessage (msgMap : list (string * JValue)) (index : Z) : M Message.t :=
  let id := match asString (json.get msgMap "id") with
            | Some id => id
            | None => "msg-" +:+ strings.itoa (index + 1)
            end in
  let role := match asString (json.get msgMap "role") with
              | Some role => role
              | None => match asString (json.get msgMap "sender") with
                        | Some sender => sender
                        | None => "unknown"
                        end
              end in
  let content := match asString (json.get msgMap "content") with
                 | Some content => content
                 | None => match asString (json.get msgMap "text") with
                           | Some text => text
                           | None => match asString (json.get msgMap "body") with
                                     | Some body => body
                                     | None => ""
                                     end
                           end
                 end in
  let timestamp := match asString (json.get msgMap "timestamp") with
                   | Some timestamp =>
                       match Env.time_Parse E timestamp with
                       | Some t => t
                       | None => time.zero
                       end
                   | None => time.zero
                   end in
  timestamp <- (if time.IsZero timestamp then Now E else ret timestamp) ;;
  ret (Message.mk id role content timestamp ∅).

(** the loop [for i, msgInterface := range messages] of [parseSessionMap] *)
Fixpoint messagesLoop (messages : list JValue) (i : Z) (acc : list Message.t)
    : M (list Message.t) :=
  match messages with
  | [] => ret acc
  | msgInterface :: rest =>
      match msgInterface with
      | JObject msgMap =>
          message <- parseMessage msgMap i ;;
          messagesLoop rest (i + 1) (acc ++ [message])
      | _ => messagesLoop rest (i + 1) acc
      end
  end.

(** the loop [for k, v := range metadata] of [parseSessionMap] *)
Fixpoint metadataLoop (metadata : list (string * JValue)) (acc : gmap string string)
    : gmap string string :=
  match metadata with
  | [] => acc
  | (k, v) :: rest =>
      match v with
      | JString str => metadataLoop rest (<[k := str]> acc)
      | _ => metadataLoop rest (<[k := Env.fmt_v E v]> acc)
      end
  end.

Definition parseSessionMap (sessionMap : list (string * JValue))
    : M (option SessionData.t) :=
  id <- match asString (json.get sessionMap "id") with
        | Some id => ret id
        | None =>
            now <- Now E ;;
            ret ("claude-session-" +:+ strings.itoa (time.UnixNano now))
        end ;;
  let timestamp :=
    match asString (json.get sessionMap "timestamp") with
    | Some timestamp =>
        match Env.time_Parse E timestamp with
        | Some t => t
        | None => time.zero
        end
    | None =>
        match asString (json.get sessionMap "created_at") with
        | Some createdAt =>
            match Env.time_Parse E createdAt with
            | Some t => t
            | None => time.zero
            end
        | None => time.zero
        end
    end in
  timestamp <- (if time.IsZero timestamp then Now E else ret timestamp) ;;
  let title := match asString (json.get sessionMap "title") with
               | Some title => title
               | None => match asString (json.get sessionMap "name") with
                         | Some name => name
                         | None => ""
                         end
               end in
  messages <- match asArray (json.get sessionMap "messages") with
              | Some messages => messagesLoop messages 0 []
              | None => ret []
              end ;;
  let metadata := match asObject (json.get sessionMap "metadata") with
                  | Some metadata => metadataLoop metadata ∅
                  | None => ∅
                  end in
  ret (Some (SessionData.mk id SourceClaudeCode timestamp title messages metadata [] [])).

(** the loops [for _, sessionInterface := range sessionsData] and
    [for _, item := range data] of [parseHistoryData] *)
Fixpoint itemsLoop (items : list JValue) (sessions : list SessionData.t)
    : M (list SessionData.t) :=
  match items with
  | [] => ret sessions
  | item :: rest =>
      match item with
      | JObject itemMap =>
          session <- parseSessionMap itemMap ;;
          match session with
          | Some s => itemsLoop rest (sessions ++ [s])
          | None => itemsLoop rest sessions
          end
      | _ => itemsLoop rest sessions
      end
  end.

(** the loop [for _, key := range alternativeKeys] of [parseHistoryData] *)
Fixpoint keysLoop (historyData : list (string * JValue)) (keys : list string)
    (sessions : list SessionData.t) : M (list SessionData.t) :=
  match keys with
  | [] => ret sessions
  | key :: rest =>
      match asArray (json.get historyData key) with
      | Some data =>
          sessions <- itemsLoop data sessions ;;
          keysLoop historyData rest sessions
      | None => keysLoop historyData rest sessions
      end
  end.

Definition parseHistoryData (historyData : list (string * JValue))
    : M (list SessionData.t) :=
  sessions <- match asArray (json.get historyData "sessions") with
              | Some sessionsData => itemsLoop sessionsData []
              | None => ret []
              end ;;
  keysLoop historyData ["conversations"; "chats"; "history"; "data"] sessions.

Definition parseTextSession (filePath content : string)
    : M (option SessionData.t * option error) :=
  t1 <- Now E ;;
  t2 <- Now E ;;
  let timestamp := match Env.os_Stat E filePath with
                   | inl info => FileInfo.ModTime info
                   | inr _ => t2
                   end in
  ret (Some (SessionData.mk
               ("claude-text-session-" +:+ strings.itoa (time.UnixNano t1))
               SourceClaudeCode timestamp (Env.filepath_Base E filePath)
               [Message.mk "msg-1" "content" content timestamp ∅]
               (<["file_type" := "text"]> {["file_path" := filePath]})
               [] []),
       None).

Definition parseSessionFile (filePath : string)
    : M (option SessionData.t * option error) :=
  match Env.os_ReadFile E filePath with
  | inr err => ret (None, Some (Errorf_w "파일 읽기 실패: " err))
  | inl data =>
      let '(sessionData, err) := unmarshalMap E data in
      match err with
      | Some _ => parseTextSession filePath data
      | None => s <- parseSessionMap sessionData ;; ret (s, None)
      end
  end.

Definition matchesIncludePattern (filePath : string) : bool :=
  if Z.of_nat (length (config.CLIToolConfig.IncludePatterns (config c))) =? 0 then true
  else
    let fileName := Env.filepath_Base E filePath in
    existsb (fun pattern => Env.filepath_Match E pattern fileName)
            (config.CLIToolConfig.IncludePatterns (config c)).

Definition matchesExcludePattern (filePath : string) : bool :=
  if Z.of_nat (length (config.CLIToolConfig.ExcludePatterns (config c))) =? 0 then false
  else
    let fileName := Env.filepath_Base E filePath in
    existsb (fun pattern => Env.filepath_Match E pattern fileName)
            (config.CLIToolConfig.ExcludePatterns (config c)).

Definition collectFromHistory (ctx : Context) (collectConfig : option CollectionConfig.t)
    : M (list SessionData.t * option error) :=
  d <- Done ctx ;;
  match d with
  | Some err => ret ([], Some err)
  | None =>
      let '(historyPath, err) :=
        config.ExpandPath E (config.CLIToolConfig.HistoryFile (config c)) in
      match err with
      | Some err => ret ([], Some (Errorf_w "히스토리 파일 경로 확장 실패: " err))
      | None =>
          if IsNotExist (errOf (Env.os_Stat E historyPath))
          then ret ([], Some (New ("히스토리 파일이 존재하지 않습니다: " +:+ historyPath)))
          else
            match Env.os_ReadFile E historyPath with
            | inr err => ret ([], Some (Errorf_w "히스토리 파일 읽기 실패: " err))
            | inl data =>
                d <- Done ctx ;;
                match d with
                | Some err => ret ([], Some err)
                | None =>
                    let '(historyData, err) := unmarshalMap E data in
                    match err with
                    | Some err =>
                        ret ([], Some (Errorf_w "히스토리 파일 JSON 파싱 실패: " err))
                    | None =>
                        sessions <- parseHistoryData historyData ;;
                        ret (sessions, None)
                    end
                end
            end
      end
  end.

(** The callback of [filepath.Walk], over the calls the file layer
    makes. *)
Fixpoint walkLoop (ctx : Context) (entries : list WalkEntry.t)
    (sessions : list SessionData.t) : M (list SessionData.t * option error) :=
  match entries with
  | [] => ret (sessions, None)
  | entry :: rest =>
      match WalkEntry.err entry with
      | Some err => ret (sessions, Some err)
      | None =>
          d <- Done ctx ;;
          match d with
          | Some err => ret (sessions, Some err)
          | None =>
              let path := WalkEntry.path entry in
              if WalkEntry.IsDir entry then walkLoop ctx rest sessions
              else if negb (matchesIncludePattern path) then walkLoop ctx rest sessions
              else if matchesExcludePattern path then walkLoop ctx rest sessions
              else
                r <- parseSessionFile path ;;
                match r with
                | (_, Some err) =>
                    log (Stdout ("세션 파일 파싱 실패 (건너뜀): " +:+ path +:+ " - "
                                 +:+ Error err)) ;;;
                    walkLoop ctx rest sessions
                | (Some sessionData, None) => walkLoop ctx rest (sessions ++ [sessionData])
                | (None, None) => walkLoop ctx rest sessions
                end
          end
      end
  end.

Definition collectFromSessionDir (ctx : Context) (collectConfig : option CollectionConfig.t)
    : M (list SessionData.t * option error) :=
  let '(sessionDir, err) :=
    config.ExpandPath E (config.CLIToolConfig.SessionDir (config c)) in
  match err with
  | Some err => ret ([], Some (Errorf_w "세션 디렉토리 경로 확장 실패: " err))
  | None =>
      if IsNotExist (errOf (Env.os_Stat E sessionDir))
      then ret ([], Some (New ("세션 디렉토리가 존재하지 않습니다: " +:+ sessionDir)))
      else
        r <- walkLoop ctx (Env.filepath_Walk E sessionDir) [] ;;
        match r with
        | (_, Some err) => ret ([], Some (Errorf_w "세션 디렉토리 순회 실패: " err))
        | (sessions, None) => ret (sessions, None)
        end
  end.

(** [collectConfig] is a pointer the method never tests: reading
    [collectConfig.DateRange] on nil panics. *)
Definition Collect (ctx : Context) (collectConfig : option CollectionConfig.t)
    : M (Outcome (list SessionData.t * option error)) :=
  d <- Done ctx ;;
  match d with
  | Some err => ret (Returned ([], Some err))
  | None =>
      let '(configDir, err) :=
        config.ExpandPath E (config.CLIToolConfig.ConfigDir (config c)) in
      match err with
      | Some err => ret (Returned ([], Some (Errorf_w "설정 디렉토리 경로 확장 실패: " err)))
      | None =>
          if IsNotExist (errOf (Env.os_Stat E configDir))
          then ret (Returned ([], Some (New ("Claude Code 설정 디렉토리가 존재하지 않습니다: "
                                             +:+ configDir))))
          else
            sessions <-
              (if negb (isEmpty (config.CLIToolConfig.HistoryFile (config c)))
               then
                 r <- collectFromHistory ctx collectConfig ;;
                 match r with
                 | (_, Some err) =>
                     log (Stdout ("경고: 히스토리 파일 수집 실패: " +:+ Error err)) ;;;
                     ret []
                 | (historySessions, None) => ret ([] ++ historySessions)
                 end
               else ret []) ;;
            d <- Done ctx ;;
            match d with
            | Some err => ret (Returned ([], Some err))
            | None =>
                sessions <-
                  (if negb (isEmpty (config.CLIToolConfig.SessionDir (config c)))
                   then
                     r <- collectFromSessionDir ctx collectConfig ;;
                     match r with
                     | (_, Some err) =>
                         log (Stdout ("경고: 세션 디렉토리 수집 실패: " +:+ Error err)) ;;;
                         ret sessions
                     | (sessionSessions, None) => ret (sessions ++ sessionSessions)
                     end
                   else ret sessions) ;;
                match collectConfig with
                | None =>
                    ret (Panicked "runtime error: invalid memory address or nil pointer dereference")
                | Some collectConfig =>
                    match CollectionConfig.DateRange collectConfig with
                    | Some dr => ret (Returned (filterByDateRange sessions (Some dr), None))
                    | None => ret (Returned (sessions, None))
                    end
                end
            end
      end
  end.

Definition GetSource : CollectionSource := SourceClaudeCode.

Definition Validate : option error :=
  if isEmpty (config.CLIToolConfig.ConfigDir (config c))
  then Some (New "설정 디렉토리가 지정되지 않았습니다")
  else
    let '(configDir, err) :=
      config.ExpandPath E (config.CLIToolConfig.ConfigDir (config c)) in
    match err with
    | Some err => Some (Errorf_w "설정 디렉토리 경로 확장 실패: " err)
    | None =>
        if IsNotExist (errOf (Env.os_Stat E configDir))
        then Some (New ("설정 디렉토리가 존재하지 않습니다: " +:+ configDir))
        else None
    end.

Definition GetSupportedFormats : list string := ["json"; "text"].

End Collector.
End Claude.

(** ** The registry and the top-level orchestrator *)

Module Factory.

(** The interface [models.Collector]. *)
Module Collector.
Record t : Type := mk {
  Collect : Context -> option CollectionConfig.t
            -> M (Outcome (list SessionData.t * option error));
  GetSource : CollectionSource;
  Validate : M (option error);
  GetSupportedFormats : list string
}.
End Collector.

(** A value of type [interface{}] handed to a constructor. *)
Inductive ConfigValue : Type :=
| CLITool (cfg : config.CLIToolConfig.t)
| Other.

Abbreviation CollectorConstructor := (ConfigValue -> Collector.t).

Abbreviation Registry := (gmap CollectionSource CollectorConstructor).

Definition Register (registry : Registry) (source : CollectionSource)
    (constructor : CollectorConstructor) : Registry :=
  <[source := constructor]> registry.

Definition GetCollector (registry : Registry) (source : CollectionSource)
    (config : ConfigValue) : option Collector.t * option error :=
  match registry !! source with
  | None => (None, Some (New ("no collector registered for source: " +:+ source)))
  | Some constructor => (Some (constructor config), None)
  end.

Definition ListRegisteredSources (registry : Registry) : list CollectionSource :=
  (map_to_list registry).*1.

Definition IsRegistered (registry : Registry) (source : CollectionSource) : bool :=
  match registry !! source with
  | Some _ => true
  | None => false
  end.

(** [DefaultFileReader] and [DefaultAmazonQFileReader] *)
Definition defaultFileReader (E : Env.t) : FileReader.t :=
  FileReader.mk (Env.os_ReadFile E) (Env.os_Stat E) (Env.filepath_Walk E).

Definition geminiCollector (E : Env.t) (g : Gemini.ImprovedGeminiCLICollector.t)
    : Collector.t :=
  Collector.mk
    (fun ctx collectConfig =>
       r <- Gemini.Collect E g ctx collectConfig ;; ret (Returned r))
    Gemini.GetSource
    (ret (Gemini.Validate E g))
    Gemini.GetSupportedFormats.

Definition amazonQCollector (E : Env.t) (a : AmazonQ.AmazonQCollector.t)
    : Collector.t :=
  Collector.mk
    (fun ctx collectConfig =>
       r <- AmazonQ.Collect E a ctx collectConfig ;; ret (Returned r))
    AmazonQ.GetSource
    (AmazonQ.Validate E a)
    AmazonQ.GetSupportedFormats.

Definition claudeCollector (E : Env.t) (c : Claude.ClaudeCodeCollector.t)
    : Collector.t :=
  Collector.mk (Claude.Collect E c) Claude.GetSource (ret (Claude.Validate E c))
               Claude.GetSupportedFormats.

(** the type assertion [configInterface.(config.CLIToolConfig)] of the
    two [init] functions, with the empty configuration as default *)
Definition asCLIToolConfig (configInterface : ConfigValue) : config.CLIToolConfig.t :=
  match configInterface with
  | CLITool cfg => cfg
  | Other => config.CLIToolConfig.empty
  end.

(** the registry once the [init] functions have run *)
Definition initRegistry (E : Env.t) : Registry :=
  Register
    (Register ∅ SourceGeminiCLI
       (fun configInterface =>
          geminiCollector E
            (Gemini.NewImprovedGeminiCLICollector (asCLIToolConfig configInterface)
                                                  (defaultFileReader E))))
    SourceAmazonQ
    (fun configInterface =>
       amazonQCollector E
         (AmazonQ.NewAmazonQCollector (asCLIToolConfig configInterface)
                                      (defaultFileReader E))).

Definition addError (result : CollectionResult.t) (errMsg : string) : CollectionResult.t :=
  CollectionResult.mk (CollectionResult.Sessions result)
    (CollectionResult.TotalCount result) (CollectionResult.Sources result)
    (CollectionResult.CollectedAt result) (CollectionResult.Duration result)
    (CollectionResult.Errors result ++ [errMsg]).

Definition addSessions (result : CollectionResult.t) (source : CollectionSource)
    (sessions : list SessionData.t) : CollectionResult.t :=
  CollectionResult.mk (CollectionResult.Sessions result ++ sessions)
    (CollectionResult.TotalCount result) (CollectionResult.Sources result ++ [source])
    (CollectionResult.CollectedAt result) (CollectionResult.Duration result)
    (CollectionResult.Errors result).

Definition setTotalCount (result : CollectionResult.t) : CollectionResult.t :=
  CollectionResult.mk (CollectionResult.Sessions result)
    (Z.of_nat (length (CollectionResult.Sessions result)))
    (CollectionResult.Sources result)
    (CollectionResult.CollectedAt result) (CollectionResult.Duration result)
    (CollectionResult.Errors result).

Section Orchestrator.
Context (registry : Registry) (ctx : Context)
        (collectionConfig : CollectionConfig.t)
        (configs : gmap CollectionSource ConfigValue).

(** one turn of the loop [for _, source := range collectionConfig.Sources] *)
Definition collectSource (source : CollectionSource) (result : CollectionResult.t)
    : M (Outcome CollectionResult.t) :=
  match configs !! source with
  | None =>
      ret (Returned (addError result ("소스 '" +:+ source +:+ "'에 대한 설정이 없습니다")))
  | Some config =>
      match GetCollector registry source config with
      | (_, Some err) =>
          ret (Returned (addError result
                 ("소스 '" +:+ source +:+ "'의 collector 생성 실패: " +:+ Error err)))
      | (None, None) =>
          ret (Panicked "runtime error: invalid memory address or nil pointer dereference")
      | (Some collector, None) =>
          r <- Collector.Collect collector ctx (Some collectionConfig) ;;
          match r with
          | Panicked msg => ret (Panicked msg)
          | Returned (_, Some err) =>
              ret (Returned (addError result
                     ("소스 '" +:+ source +:+ "'에서 데이터 수집 실패: " +:+ Error err)))
          | Returned (sessions, None) => ret (Returned (addSessions result source sessions))
          end
      end
  end.

Fixpoint sourcesLoop (sources : list CollectionSource) (result : CollectionResult.t)
    : M (Outcome CollectionResult.t) :=
  match sources with
  | [] => ret (Returned result)
  | source :: rest =>
      r <- collectSource source result ;;
      match r with
      | Panicked msg => ret (Panicked msg)
      | Returned result' => sourcesLoop rest result'
      end
  end.

End Orchestrator.

Definition CollectAllSources (E : Env.t) (registry : Registry) (ctx : Context)
    (collectionConfig : option CollectionConfig.t)
    (configs : gmap CollectionSource ConfigValue)
    : M (Outcome (option CollectionResult.t * option error)) :=
  collectedAt <- Now E ;;
  let result := CollectionResult.mk [] 0 [] collectedAt 0 [] in
  match collectionConfig with
  | None =>
      ret (Panicked "runtime error: invalid memory address or nil pointer dereference")
  | Some collectionConfig =>
      r <- sourcesLoop registry ctx collectionConfig configs
             (CollectionConfig.Sources collectionConfig) result ;;
      match r with
      | Panicked msg => ret (Panicked msg)
      | Returned result => ret (Returned (Some (setTotalCount result), None))
      end
  end.

End Factory.

(** ** The properties, in the words of the specification *)

Module Spec.

(** The retention rule of the date-range filter: the start is zero or
    not after the timestamp, and the end is zero or not before it. *)
Definition Retained (timestamp : time.Time) (dateRange : DateRange.t) : Prop :=
  (DateRange.Start dateRange = time.zero \/ DateRange.Start dateRange <= timestamp)
  /\ (DateRange.End_ dateRange = time.zero \/ timestamp <= DateRange.End_ dateRange).

#[global] Instance Retained_dec timestamp dateRange : Decision (Retained timestamp dateRange).
Proof. unfold Retained. apply _. Defined.

(** the sessions a range retains, in their order *)
Definition retainedSessions (sessions : list SessionData.t) (dateRange : DateRange.t)
    : list SessionData.t :=
  filter (fun s => Retained (SessionData.Timestamp s) dateRange) sessions.


(** role and content of the messages of a record, in order *)
Definition rolesContents (s : SessionData.t) : list (string * string) :=
  map (fun m => (Message.Role m, Message.Content m)) (SessionData.Messages s).





(** no collector of the registry panics on a request that is not nil *)
Definition CollectorsReturn (registry : Factory.Registry) (ctx : Context)
    (collectionConfig : CollectionConfig.t) : Prop :=
  forall source constructor config w,
    registry !! source = Some constructor ->
    exists r w',
      Factory.Collector.Collect (constructor config) ctx (Some collectionConfig) w
      = (Returned r, w').

(** a requested source the orchestrator cannot collect from: it has no
    configuration, or no constructor is registered for it, or its
    collector returns an error *)
Definition SourceFails (registry : Factory.Registry) (ctx : Context)
    (collectionConfig : CollectionConfig.t)
    (configs : gmap CollectionSource Factory.ConfigValue)
    (source : CollectionSource) (w : World.t) : Prop :=
  configs !! source = None
  \/ registry !! source = None
  \/ exists config constructor sessions err w',
       configs !! source = Some config
       /\ registry !! source = Some constructor
       /\ Factory.Collector.Collect (constructor config) ctx (Some collectionConfig) w
          = (Returned (sessions, Some err), w').

(** the warning logged when the cap on the records of a file is hit *)
Definition capWarning : LogEntry :=
  Warnf "Reached maximum messages per file limit: 10000".

End Spec.

(** ** A small host, for the concrete runs

    One configuration directory [/test] with a history file of four
    lines and a session directory with one JSON file; the JSON reader
    knows the texts that occur in these files. *)

Module Example.

Definition quote : string := String "034"%char "".
Definition jstr (s : string) : string := quote +:+ s +:+ quote.
Definition member (k v : string) : string := jstr k +:+ ":" +:+ jstr v.

(** [{"id":"test-1","prompt":"Hello","response":"Hi there"}] *)
Definition lineKnown : string :=
  "{" +:+ member "id" "test-1" +:+ "," +:+ member "prompt" "Hello" +:+ ","
      +:+ member "response" "Hi there" +:+ "}".

(** [{"id":"q-1","query":"How to create EC2?","response":"Use AWS console"}] *)
Definition lineQuery : string :=
  "{" +:+ member "id" "q-1" +:+ "," +:+ member "query" "How to create EC2?" +:+ ","
      +:+ member "response" "Use AWS console" +:+ "}".

(** [{"id":"a","extra":"x"}]: [extra] is a field of neither entry shape *)
Definition lineExtra : string :=
  "{" +:+ member "id" "a" +:+ "," +:+ member "extra" "x" +:+ "}".

(** not JSON *)
Definition lineBroken : string := "{oops".

Definition lineText : string := "What is Go?".

(** [{"id":"session-1","title":"Test Session"}] *)
Definition sessionText : string :=
  "{" +:+ member "id" "session-1" +:+ "," +:+ member "title" "Test Session" +:+ "}".

Definition syntaxError : error := New "invalid character in JSON input".

Definition parse (text : string) : JValue + error :=
  if String.eqb text lineKnown
  then inl (JObject [("id", JString "test-1"); ("prompt", JString "Hello");
                     ("response", JString "Hi there")])
  else if String.eqb text lineQuery
  then inl (JObject [("id", JString "q-1"); ("query", JString "How to create EC2?");
                     ("response", JString "Use AWS console")])
  else if String.eqb text lineExtra
  then inl (JObject [("id", JString "a"); ("extra", JString "x")])
  else if String.eqb text sessionText
  then inl (JObject [("id", JString "session-1"); ("title", JString "Test Session")])
  else inr syntaxError.

Definition historyPath : string := "/test/history.jsonl".
Definition sessionDir : string := "/test/sessions".
Definition sessionPath : string := "/test/sessions/s1.json".

Definition historyLines : list string := [lineKnown; ""; lineBroken; lineText].

Definition noSuchFile (path : string) : error :=
  PathError ("stat " +:+ path +:+ ": no such file or directory") true.

(** January 1, 2024, 00:00:00 UTC *)
Definition newYear2024 : time.Time := 63839664000 * time.Second.

Definition stat (path : string) : FileInfo.t + error :=
  if String.eqb path "/test" then inl (FileInfo.mk "test" 4096 true newYear2024)
  else if String.eqb path sessionDir
  then inl (FileInfo.mk "sessions" 4096 true newYear2024)
  else if String.eqb path historyPath
  then inl (FileInfo.mk "history.jsonl" 80 false newYear2024)
  else if String.eqb path sessionPath
  then inl (FileInfo.mk "s1.json" 40 false newYear2024)
  else inr (noSuchFile path).

Definition readFile (path : string) : string + error :=
  if String.eqb path historyPath
  then inl (strings.Join historyLines (String strings.newline ""))
  else if String.eqb path sessionPath then inl sessionText
  else inr (noSuchFile path).

Definition walk (root : string) : list WalkEntry.t :=
  if String.eqb root sessionDir
  then [ WalkEntry.mk sessionDir true None (FileInfo.mk "sessions" 4096 true newYear2024);
         WalkEntry.mk sessionPath false None (FileInfo.mk "s1.json" 40 false newYear2024) ]
  else [ WalkEntry.mk root false (Some (noSuchFile root))
           (FileInfo.mk "" 0 false time.zero) ].

Definition open (path : string) : Scanned.t + error :=
  if String.eqb path historyPath
  then inl (Scanned.mk historyLines (fun _ => None))
  else inr (noSuchFile path).

Definition unmarshalGemini (data : string) : GeminiSessionData.t + error :=
  if String.eqb data sessionText
  then inl (GeminiSessionData.mk "session-1" "Test Session" "" "" "" [] [] None)
  else inr syntaxError.

Definition unmarshalAmazonQ (data : string) : AmazonQSessionData.t + error :=
  if String.eqb data sessionText
  then inl (AmazonQSessionData.mk "session-1" "" "Test Session" "" "" "" "" "" [] []
                                  None [])
  else inr syntaxError.

(** the part of a path after its last slash *)
Fixpoint base (path : string) (acc : string) : string :=
  match path with
  | EmptyString => acc
  | String c rest => if Ascii.eqb c "/" then base rest "" else base rest (acc +:+ String c "")
  end.

Definition env : Env.t :=
  Env.mk (fun n => newYear2024 + Z.of_nat n) (fun _ => false) (fun _ => 0%nat) 4
         (inl "/home/user") stat readFile open walk
         (fun dir rest => dir +:+ rest) (fun path => base path "") (fun _ => "")
         String.eqb (fun s => s) (fun _ => None)
         parse parse unmarshalGemini unmarshalAmazonQ String.eqb (fun _ => "").

Definition fileReader : FileReader.t := FileReader.mk readFile stat walk.

Definition cliConfig : config.CLIToolConfig.t :=
  config.CLIToolConfig.mk sessionDir historyPath "/test" "" "" [] [].

(** a configuration whose directory does not exist *)
Definition missingConfig : config.CLIToolConfig.t :=
  config.CLIToolConfig.mk "" "" "/nonexistent" "" "" [] [].

Definition request : CollectionConfig.t :=
  CollectionConfig.mk [SourceGeminiCLI] false false None "" "".

(** the configuration directory alone: no history file, no session
    directory *)
Definition bareConfig : config.CLIToolConfig.t :=
  config.CLIToolConfig.mk "" "" "/test" "" "" [] [].

(** a request for what is dated up to January 1, 2000 *)
Definition oldRequest : CollectionConfig.t :=
  CollectionConfig.mk [SourceAmazonQ] false false
    (Some (DateRange.mk time.zero (63082281600 * time.Second))) "" "".

Definition gemini : Gemini.ImprovedGeminiCLICollector.t :=
  Gemini.ImprovedGeminiCLICollector.mk cliConfig fileReader.
Definition amazonQ : AmazonQ.AmazonQCollector.t :=
  AmazonQ.AmazonQCollector.mk cliConfig fileReader.
Definition claude : Claude.ClaudeCodeCollector.t :=
  Claude.ClaudeCodeCollector.mk cliConfig.

Definition geminiMissing : Gemini.ImprovedGeminiCLICollector.t :=
  Gemini.ImprovedGeminiCLICollector.mk missingConfig fileReader.
Definition amazonQMissing : AmazonQ.AmazonQCollector.t :=
  AmazonQ.AmazonQCollector.mk missingConfig fileReader.
Definition claudeMissing : Claude.ClaudeCodeCollector.t :=
  Claude.ClaudeCodeCollector.mk missingConfig.

Definition geminiBare : Gemini.ImprovedGeminiCLICollector.t :=
  Gemini.ImprovedGeminiCLICollector.mk bareConfig fileReader.
Definition amazonQBare : AmazonQ.AmazonQCollector.t :=
  AmazonQ.AmazonQCollector.mk bareConfig fileReader.
Definition claudeBare : Claude.ClaudeCodeCollector.t :=
  Claude.ClaudeCodeCollector.mk bareConfig.

(** the same files, reported 200MB large *)
Definition bigStat (path : string) : FileInfo.t + error :=
  if String.eqb path historyPath
  then inl (FileInfo.mk "history.jsonl" 209715200 false newYear2024)
  else if String.eqb path sessionPath
  then inl (FileInfo.mk "s1.json" 209715200 false newYear2024)
  else stat path.

Definition bigFileReader : FileReader.t := FileReader.mk readFile bigStat walk.

Definition geminiBig : Gemini.ImprovedGeminiCLICollector.t :=
  Gemini.ImprovedGeminiCLICollector.mk cliConfig bigFileReader.
Definition amazonQBig : AmazonQ.AmazonQCollector.t :=
  AmazonQ.AmazonQCollector.mk cliConfig bigFileReader.

(** four requested sources: one registered and configured, one with no
    configuration, one configured but not registered, one registered
    and configured *)
Definition mixedRequest : CollectionConfig.t :=
  CollectionConfig.mk [SourceGeminiCLI; "unknown"; SourceClaudeCode; SourceAmazonQ]
                      false false None "" "".

Definition configs : gmap CollectionSource Factory.ConfigValue :=
  <[SourceAmazonQ := Factory.CLITool cliConfig]>
    (<[SourceClaudeCode := Factory.CLITool cliConfig]>
       (<[SourceGeminiCLI := Factory.CLITool cliConfig]> ∅)).

(** a context cancelled before the call *)
Definition cancelled : Context := fun _ => Some Canceled.

(** a context cancelled after [n] looks *)
Definition cancelledAfter (n : nat) : Context :=
  fun k => if (k <? n)%nat then None else Some Canceled.

End Example.

(** ** Package config, continued: the configuration file (LoadConfig)

    This is the package of module ssamai, whose [Config] holds the
    collection settings and the output settings, and whose [LoadConfig]
    falls back on the default configuration. *)

Module OutputSettings.
Record t : Type := mk {
  TemplateDir : string;
  DefaultTemplate : string;
  IncludeMetadata : bool;
  IncludeTimestamps : bool;
  FormatCodeBlocks : bool;
  GenerateTOC : bool
}.
End OutputSettings.

Module CollectionSettings.
Record t : Type := mk {
  ClaudeCode : config.CLIToolConfig.t;
  GeminiCLI : config.CLIToolConfig.t;
  AmazonQ : config.CLIToolConfig.t
}.
End CollectionSettings.

Module Config.
Record t : Type := mk {
  CollectionSettings : CollectionSettings.t;
  OutputSettings : OutputSettings.t
}.
End Config.

(** The host of the command line: the host of the collectors, and the
    two library calls the command layer adds. *)
Module Host.
Record t : Type := mk {
  env : Env.t;
  (** [yaml.Unmarshal(data, &config)] on a zero [Config] *)
  yaml_Unmarshal : string -> Config.t + error;
  (** [time.Parse("2006-01-02", s)] *)
  time_ParseDate : string -> time.Time + error
}.
End Host.

Module configfile.

(** [func (c *Config) Validate() error] *)
Definition Validate (c : Config.t) : option error := None.

(** [func (c *Config) SetDefaults()], as the configuration it leaves *)
Definition SetDefaults (c : Config.t) : Config.t :=
  let o := Config.OutputSettings c in
  let templateDir :=
    if isEmpty (OutputSettings.TemplateDir o) then "./templates"
    else OutputSettings.TemplateDir o in
  let defaultTemplate :=
    if isEmpty (OutputSettings.DefaultTemplate o) then "comprehensive"
    else OutputSettings.DefaultTemplate o in
  Config.mk (Config.CollectionSettings c)
    (OutputSettings.mk templateDir defaultTemplate
       (OutputSettings.IncludeMetadata o) (OutputSettings.IncludeTimestamps o)
       (OutputSettings.FormatCodeBlocks o) (OutputSettings.GenerateTOC o)).

Definition createDefaultConfig : Config.t :=
  Config.mk
    (CollectionSettings.mk
       (config.CLIToolConfig.mk "~/.claude/sessions" "~/.claude/history.json" "~/.claude"
          "" "" ["*.json"; "*.md"; "*.log"] ["*.tmp"; "*.cache"])
       (config.CLIToolConfig.mk "" "~/.config/gemini/history.json" "~/.config/gemini"
          "~/.config/gemini/logs" "" ["*.json"; "*.log"; "*.yaml"] ["*.tmp"])
       (config.CLIToolConfig.mk "" "~/.aws/amazonq/history.json" "~/.aws/amazonq"
          "" "~/.aws/amazonq/cache" ["*.json"; "*.log"] ["*.tmp"]))
    (OutputSettings.mk "./templates" "comprehensive" true true true true).

Definition LoadConfig (H : Host.t) (configPath : string)
    : option Config.t * option error :=
  let E := Host.env H in
  if isEmpty configPath then (Some (SetDefaults createDefaultConfig), None)
  else
    let expanded : string + error :=
      match configPath with
      | EmptyString => inl configPath
      | String c rest =>
          if Ascii.eqb c "~"%char
          then match Env.UserHomeDir E with
               | inr err => inr (Errorf_w "홈 디렉토리를 찾을 수 없습니다: " err)
               | inl home => inl (Env.filepath_Join E home rest)
               end
          else inl configPath
      end in
    match expanded with
    | inr err => (None, Some err)
    | inl configPath =>
        match Env.os_ReadFile E configPath with
        | inr err =>
            if IsNotExist (Some err)
            then (Some (SetDefaults createDefaultConfig), None)
            else (None, Some (Errorf_w ("설정 파일을 읽을 수 없습니다 (" +:+ configPath
                                        +:+ "): ") err))
        | inl data =>
            match Host.yaml_Unmarshal H data with
            | inr err => (None, Some (Errorf_w "설정 파일 파싱 오류: " err))
            | inl config =>
                match Validate config with
                | Some err => (None, Some (Errorf_w "설정 검증 실패: " err))
                | None => (Some (SetDefaults config), None)
                end
            end
        end
    end.

End configfile.

(** what the runtime prints when a nil pointer is read *)
Definition nilDereference : string :=
  "runtime error: invalid memory address or nil pointer dereference".

(** ** Package service: CollectService

    Of the struct, [Execute] and what it calls read the field [config]
    alone; the processor, the exporter and their validators are left
    out with [ProcessAndExport] and [ValidateConfig]. *)

Module service.

Module CollectService.
Record t : Type := mk {
  config : option Config.t
}.
End CollectService.

Section Service.
Context (E : Env.t) (registry : Factory.Registry) (s : CollectService.t).

Definition getCollectorConfigs
    : gmap CollectionSource Factory.ConfigValue * option error :=
  match CollectService.config s with
  | None => (∅, Some (New "설정이 없습니다"))
  | Some cfg =>
      (<[SourceAmazonQ :=
           Factory.CLITool (CollectionSettings.AmazonQ (Config.CollectionSettings cfg))]>
         (<[SourceGeminiCLI :=
              Factory.CLITool (CollectionSettings.GeminiCLI (Config.CollectionSettings cfg))]>
            (<[SourceClaudeCode :=
                 Factory.CLITool
                   (CollectionSettings.ClaudeCode (Config.CollectionSettings cfg))]> ∅)),
       None)
  end.

Definition prepareCollectorConfigs
    : gmap CollectionSource Factory.ConfigValue * option error :=
  getCollectorConfigs.

(** [collectConfig.Sources] is read first: a nil request panics. *)
Definition initializeCollectionResult (collectConfig : option CollectionConfig.t)
    : M (Outcome CollectionResult.t) :=
  match collectConfig with
  | None => ret (Panicked nilDereference)
  | Some collectConfig =>
      collectedAt <- Now E ;;
      ret (Returned (CollectionResult.mk [] 0 (CollectionConfig.Sources collectConfig)
                       collectedAt 0 []))
  end.

Definition checkContextCancellation (ctx : Context) : M (option error) :=
  Done ctx.

Definition handleCollectionResult (source : CollectionSource)
    (sessions : list SessionData.t) (err : option error) (result : CollectionResult.t)
    : CollectionResult.t :=
  match err with
  | Some err =>
      Factory.addError result ("소스 '" +:+ source +:+ "' 수집 실패: " +:+ Error err)
  | None =>
      CollectionResult.mk (CollectionResult.Sessions result ++ sessions)
        (CollectionResult.TotalCount result) (CollectionResult.Sources result)
        (CollectionResult.CollectedAt result) (CollectionResult.Duration result)
        (CollectionResult.Errors result)
  end.

Definition collectFromSource (ctx : Context) (source : CollectionSource)
    (collectConfig : option CollectionConfig.t)
    (configs : gmap CollectionSource Factory.ConfigValue)
    : M (Outcome (list SessionData.t * option error)) :=
  match configs !! source with
  | None =>
      ret (Returned ([], Some (New ("소스 '" +:+ source +:+ "'에 대한 설정이 없습니다"))))
  | Some collectorConfig =>
      match Factory.GetCollector registry source collectorConfig with
      | (_, Some err) => ret (Returned ([], Some (Errorf_w "collector 생성 실패: " err)))
      | (None, None) => ret (Panicked nilDereference)
      | (Some c, None) =>
          r <- Factory.Collector.Collect c ctx collectConfig ;;
          match r with
          | Panicked msg => ret (Panicked msg)
          | Returned (_, Some err) =>
              ret (Returned ([], Some (Errorf_w "데이터 수집 실패: " err)))
          | Returned (sessions, None) => ret (Returned (sessions, None))
          end
      end
  end.

(** the loop [for _, source := range collectConfig.Sources] of
    [executeCollection]; the result is the struct the loop has filled
    when it is left *)
Fixpoint executeLoop (ctx : Context) (collectConfig : option CollectionConfig.t)
    (collectorConfigs : gmap CollectionSource Factory.ConfigValue)
    (sources : list CollectionSource) (result : CollectionResult.t)
    : M (Outcome (CollectionResult.t * option error)) :=
  match sources with
  | [] => ret (Returned (result, None))
  | source :: rest =>
      err <- checkContextCancellation ctx ;;
      match err with
      | Some err => ret (Returned (result, Some err))
      | None =>
          r <- collectFromSource ctx source collectConfig collectorConfigs ;;
          match r with
          | Panicked msg => ret (Panicked msg)
          | Returned (sessions, err) =>
              executeLoop ctx collectConfig collectorConfigs rest
                (handleCollectionResult source sessions err result)
          end
      end
  end.

Definition executeCollection (ctx : Context) (collectConfig : option CollectionConfig.t)
    (collectorConfigs : gmap CollectionSource Factory.ConfigValue)
    (result : CollectionResult.t) : M (Outcome (CollectionResult.t * option error)) :=
  match collectConfig with
  | None => ret (Panicked nilDereference)
  | Some cfg =>
      executeLoop ctx collectConfig collectorConfigs (CollectionConfig.Sources cfg) result
  end.

(** [time.Since(result.CollectedAt)] is a reading of the clock less
    [CollectedAt]. *)
Definition finalizeCollectionResult (result : CollectionResult.t)
    : M CollectionResult.t :=
  now <- Now E ;;
  ret (CollectionResult.mk (CollectionResult.Sessions result)
         (Z.of_nat (length (CollectionResult.Sessions result)))
         (CollectionResult.Sources result) (CollectionResult.CollectedAt result)
         (now - CollectionResult.CollectedAt result)
         (CollectionResult.Errors result)).

Definition Execute (ctx : Context) (collectConfig : option CollectionConfig.t)
    : M (Outcome (option CollectionResult.t * option error)) :=
  r <- initializeCollectionResult collectConfig ;;
  match r with
  | Panicked msg => ret (Panicked msg)
  | Returned result =>
      let '(collectorConfigs, err) := prepareCollectorConfigs in
      match err with
      | Some err => ret (Returned (None, Some (Errorf_w "설정 준비 실패: " err)))
      | None =>
          r <- executeCollection ctx collectConfig collectorConfigs result ;;
          match r with
          | Panicked msg => ret (Panicked msg)
          | Returned (_, Some err) =>
              ret (Returned (None, Some (Errorf_w "데이터 수집 실행 실패: " err)))
          | Returned (result, None) =>
              result <- finalizeCollectionResult result ;;
              ret (Returned (Some result, None))
          end
      end
  end.

Definition GetSupportedSources : list CollectionSource :=
  Factory.ListRegisteredSources registry.

End Service.

End service.

(** ** Package cmd: the collect command

    The package variables the flags set are gathered in [Flags].  The
    lines handed to [log.Printf] go to the standard error, not to the
    standard output the world records: [executeCollection] returns them
    beside its result. *)

Module cmd.

Module Flags.
Record t : Type := mk {
  collectSources : list string;
  collectAll : bool;
  collectDateFrom : string;
  collectDateTo : string;
  collectIncludeFiles : bool;
  collectIncludeCmds : bool;
  cfgFile : string;
  outputPath : string;
  verbose : bool
}.
End Flags.

(** the loop [for _, source := range collectSources] of
    [buildCollectionConfig] *)
Fixpoint sourcesLoop (collectSources : list string) (sources : list CollectionSource)
    : list CollectionSource + error :=
  match collectSources with
  | [] => inl sources
  | source :: rest =>
      if String.eqb source "claude_code" then sourcesLoop rest (sources ++ [SourceClaudeCode])
      else if String.eqb source "gemini_cli"
      then sourcesLoop rest (sources ++ [SourceGeminiCLI])
      else if String.eqb source "amazon_q" then sourcesLoop rest (sources ++ [SourceAmazonQ])
      else inr (New ("알 수 없는 데이터 소스: " +:+ source))
  end.

(** the record a [collect...Data] function returns when its collector
    fails; [t1] and [t2] are the two readings of the clock, [age] how
    far before them the timestamps lie *)
Definition fallbackSession (id : string) (source : CollectionSource)
    (age : time.Duration) (title msgID content : string) (t1 t2 : time.Time)
    (err : error) : SessionData.t :=
  SessionData.mk id source (time.Add t1 (- age)) title
    [Message.mk msgID "user" content (time.Add t2 (- age)) ∅]
    (<["reason" := Error err]> {["fallback" := "true"]})
    [] [].

(** [fmt.Sprintf("%v", sources)] *)
Definition showSources (sources : list CollectionSource) : string :=
  "[" +:+ strings.Join sources " " +:+ "]".

Section Command.
Context (H : Host.t) (F : Flags.t).

(** [cfg.OutputSettings.DefaultTemplate] is read first: a nil
    configuration panics. *)
Definition buildCollectionConfig (cfg : option Config.t)
    : Outcome (option CollectionConfig.t * option error) :=
  match cfg with
  | None => Panicked nilDereference
  | Some cfg =>
      let sources : list CollectionSource + error :=
        if Flags.collectAll F
        then inl [SourceClaudeCode; SourceGeminiCLI; SourceAmazonQ]
        else if Z.of_nat (length (Flags.collectSources F)) >? 0
        then sourcesLoop (Flags.collectSources F) []
        else inr (New "--all 또는 --sources 플래그를 지정해야 합니다") in
      let build (dateRange : option DateRange.t) (sources : list CollectionSource) :=
        CollectionConfig.mk sources (Flags.collectIncludeFiles F)
          (Flags.collectIncludeCmds F) dateRange (Flags.outputPath F)
          (OutputSettings.DefaultTemplate (Config.OutputSettings cfg)) in
      match sources with
      | inr err => Returned (None, Some err)
      | inl sources =>
          if negb (isEmpty (Flags.collectDateFrom F))
             || negb (isEmpty (Flags.collectDateTo F))
          then
            let start : time.Time + error :=
              if negb (isEmpty (Flags.collectDateFrom F))
              then match Host.time_ParseDate H (Flags.collectDateFrom F) with
                   | inr err => inr (Errorf_w "시작 날짜 형식 오류: " err)
                   | inl from => inl from
                   end
              else inl time.zero in
            match start with
            | inr err => Returned (None, Some err)
            | inl start =>
                let end_ : time.Time + error :=
                  if negb (isEmpty (Flags.collectDateTo F))
                  then match Host.time_ParseDate H (Flags.collectDateTo F) with
                       | inr err => inr (Errorf_w "종료 날짜 형식 오류: " err)
                       | inl to => inl (time.Add to (24 * time.Hour - time.Second))
                       end
                  else inl time.zero in
                match end_ with
                | inr err => Returned (None, Some err)
                | inl end_ =>
                    Returned (Some (build (Some (DateRange.mk start end_)) sources), None)
                end
            end
          else Returned (Some (build None sources), None)
      end
  end.

(** [if verbose { fmt.Println(msg) }] *)
Definition say (msg : string) : M unit :=
  if Flags.verbose F then log (Stdout msg) else ret tt.

Definition collectClaudeCodeData (cfg : option CollectionConfig.t)
    : M (Outcome (list SessionData.t * option error)) :=
  say "  Claude Code 데이터 수집기 호출" ;;;
  match configfile.LoadConfig H (Flags.cfgFile F) with
  | (_, Some err) => ret (Returned ([], Some (Errorf_w "설정 로드 실패: " err)))
  | (None, None) => ret (Panicked nilDereference)
  | (Some appConfig, None) =>
      let claudeCollector :=
        Claude.NewClaudeCodeCollector
          (CollectionSettings.ClaudeCode (Config.CollectionSettings appConfig)) in
      r <- Claude.Collect (Host.env H) claudeCollector Background cfg ;;
      match r with
      | Panicked msg => ret (Panicked msg)
      | Returned (_, Some err) =>
          say ("  실제 수집 실패, 더미 데이터 사용: " +:+ Error err) ;;;
          t1 <- Now (Host.env H) ;;
          t2 <- Now (Host.env H) ;;
          ret (Returned
                 ([fallbackSession "claude-session-fallback" SourceClaudeCode
                     (1 * time.Hour) "Claude Code 예시 세션 (실제 데이터 없음)" "msg-1"
                     "Claude Code가 설치되어 있지 않거나 설정 디렉토리를 찾을 수 없습니다."
                     t1 t2 err], None))
      | Returned (sessions, None) =>
          say ("  Claude Code에서 " +:+ strings.itoa (Z.of_nat (length sessions))
               +:+ "개 세션 수집 완료") ;;;
          ret (Returned (sessions, None))
      end
  end.

Definition collectGeminiCLIData (cfg : option CollectionConfig.t)
    : M (Outcome (list SessionData.t * option error)) :=
  say "  Gemini CLI 데이터 수집기 호출" ;;;
  match configfile.LoadConfig H (Flags.cfgFile F) with
  | (_, Some err) => ret (Returned ([], Some (Errorf_w "설정 로드 실패: " err)))
  | (None, None) => ret (Panicked nilDereference)
  | (Some appConfig, None) =>
      let geminiCollector :=
        Gemini.NewImprovedGeminiCLICollector
          (CollectionSettings.GeminiCLI (Config.CollectionSettings appConfig))
          (Factory.defaultFileReader (Host.env H)) in
      r <- Gemini.Collect (Host.env H) geminiCollector Background cfg ;;
      match r with
      | (_, Some err) =>
          say ("  실제 수집 실패, 더미 데이터 사용: " +:+ Error err) ;;;
          t1 <- Now (Host.env H) ;;
          t2 <- Now (Host.env H) ;;
          ret (Returned
                 ([fallbackSession "gemini-session-fallback" SourceGeminiCLI
                     (30 * time.Minute) "Gemini CLI 예시 세션 (실제 데이터 없음)" "msg-2"
                     "Gemini CLI가 설치되어 있지 않거나 설정 디렉토리를 찾을 수 없습니다."
                     t1 t2 err], None))
      | (sessions, None) =>
          say ("  개선된 Gemini CLI에서 " +:+ strings.itoa (Z.of_nat (length sessions))
               +:+ "개 세션 수집 완료") ;;;
          ret (Returned (sessions, None))
      end
  end.

Definition collectAmazonQData (cfg : option CollectionConfig.t)
    : M (Outcome (list SessionData.t * option error)) :=
  say "  Amazon Q CLI 데이터 수집기 호출" ;;;
  match configfile.LoadConfig H (Flags.cfgFile F) with
  | (_, Some err) => ret (Returned ([], Some (Errorf_w "설정 로드 실패: " err)))
  | (None, None) => ret (Panicked nilDereference)
  | (Some appConfig, None) =>
      let amazonQCollector :=
        AmazonQ.NewAmazonQCollector
          (CollectionSettings.AmazonQ (Config.CollectionSettings appConfig))
          (Factory.defaultFileReader (Host.env H)) in
      r <- AmazonQ.Collect (Host.env H) amazonQCollector Background cfg ;;
      match r with
      | (_, Some err) =>
          say ("  실제 수집 실패, 더미 데이터 사용: " +:+ Error err) ;;;
          t1 <- Now (Host.env H) ;;
          t2 <- Now (Host.env H) ;;
          ret (Returned
                 ([fallbackSession "amazonq-session-fallback" SourceAmazonQ
                     (15 * time.Minute) "Amazon Q CLI 예시 세션 (실제 데이터 없음)" "msg-3"
                     "Amazon Q CLI가 설치되어 있지 않거나 설정 디렉토리를 찾을 수 없습니다."
                     t1 t2 err], None))
      | (sessions, None) =>
          say ("  Amazon Q CLI에서 " +:+ strings.itoa (Z.of_nat (length sessions))
               +:+ "개 세션 수집 완료") ;;;
          ret (Returned (sessions, None))
      end
  end.

Definition collectFromSource (source : CollectionSource)
    (cfg : option CollectionConfig.t)
    : M (Outcome (list SessionData.t * option error)) :=
  if String.eqb source SourceClaudeCode then collectClaudeCodeData cfg
  else if String.eqb source SourceGeminiCLI then collectGeminiCLIData cfg
  else if String.eqb source SourceAmazonQ then collectAmazonQData cfg
  else ret (Returned ([], Some (New ("지원하지 않는 소스: " +:+ source)))).

(** the loop [for _, source := range cfg.Sources] of
    [executeCollection]; [stderr] holds the lines handed to
    [log.Printf] *)
Fixpoint collectLoop (cfg : option CollectionConfig.t) (sources : list CollectionSource)
    (result : CollectionResult.t) (stderr : list string)
    : M (Outcome CollectionResult.t * list string) :=
  match sources with
  | [] => ret (Returned result, stderr)
  | source :: rest =>
      say ("소스 '" +:+ source +:+ "'에서 데이터 수집 중...") ;;;
      r <- collectFromSource source cfg ;;
      match r with
      | Panicked msg => ret (Panicked msg, stderr)
      | Returned (_, Some err) =>
          let errMsg := "소스 '" +:+ source +:+ "' 수집 실패: " +:+ Error err in
          collectLoop cfg rest (Factory.addError result errMsg)
            (stderr ++ ["경고: " +:+ errMsg])
      | Returned (sessions, None) =>
          say ("소스 '" +:+ source +:+ "'에서 "
               +:+ strings.itoa (Z.of_nat (length sessions)) +:+ "개 세션 수집 완료") ;;;
          collectLoop cfg rest
            (CollectionResult.mk (CollectionResult.Sessions result ++ sessions)
               (CollectionResult.TotalCount result) (CollectionResult.Sources result)
               (CollectionResult.CollectedAt result) (CollectionResult.Duration result)
               (CollectionResult.Errors result))
            stderr
      end
  end.

Definition executeCollection (cfg : option CollectionConfig.t)
    : M (Outcome (option CollectionResult.t * option error) * list string) :=
  startTime <- Now (Host.env H) ;;
  match cfg with
  | None => ret (Panicked nilDereference, [])
  | Some collectConfig =>
      let result :=
        CollectionResult.mk [] 0 (CollectionConfig.Sources collectConfig) startTime 0 [] in
      say ("수집 대상 소스: " +:+ showSources (CollectionConfig.Sources collectConfig)) ;;;
      r <- collectLoop cfg (CollectionConfig.Sources collectConfig) result [] ;;
      match r with
      | (Panicked msg, stderr) => ret (Panicked msg, stderr)
      | (Returned result, stderr) =>
          now <- Now (Host.env H) ;;
          ret (Returned
                 (Some (CollectionResult.mk (CollectionResult.Sessions result)
                          (Z.of_nat (length (CollectionResult.Sessions result)))
                          (CollectionResult.Sources result)
                          (CollectionResult.CollectedAt result) (now - startTime)
                          (CollectionResult.Errors result)), None),
               stderr)
      end
  end.

End Command.

End cmd.

(** ** Predicates and reference functions for the further properties *)

Module Props.

(** a record of a source, with no file and no command attached *)
Definition recordOf (source : CollectionSource) (s : SessionData.t) : Prop :=
  SessionData.Source s = source
  /\ SessionData.Files s = [] /\ SessionData.Commands s = [].

(** a returned pair holds records or an error, not both *)
Definition allOrNothing (r : list SessionData.t * option error) : Prop :=
  r.2 = None \/ r.1 = [].

(** the entries a walk hands to its callback up to its first error, and
    that error *)
Fixpoint untilError (entries : list WalkEntry.t) : list WalkEntry.t * option error :=
  match entries with
  | [] => ([], None)
  | d :: rest =>
      match WalkEntry.err d with
      | Some err => ([], Some err)
      | None => (d :: (untilError rest).1, (untilError rest).2)
      end
  end.

(** a file, not a directory, whose path ends in [.json] *)
Definition isJSONFile (d : WalkEntry.t) : bool :=
  negb (WalkEntry.IsDir d) && strings.HasSuffix (WalkEntry.path d) ".json".

(** whether [parseSessionFileSafe] can take a file: [Stat] succeeds,
    the size is within the cap and the file can be read *)
Definition geminiReadable (g : Gemini.ImprovedGeminiCLICollector.t) (path : string)
    : bool :=
  match FileReader.Stat (Gemini.ImprovedGeminiCLICollector.fileReader g) path with
  | inr _ => false
  | inl info =>
      negb (FileInfo.Size info >? Gemini.maxFileSize)
      && match FileReader.ReadFile (Gemini.ImprovedGeminiCLICollector.fileReader g) path with
         | inl _ => true
         | inr _ => false
         end
  end.

Definition amazonQReadable (a : AmazonQ.AmazonQCollector.t) (path : string) : bool :=
  match FileReader.Stat (AmazonQ.AmazonQCollector.fileReader a) path with
  | inr _ => false
  | inl info =>
      negb (FileInfo.Size info >? AmazonQ.amazonQMaxFileSize)
      && match FileReader.ReadFile (AmazonQ.AmazonQCollector.fileReader a) path with
         | inl _ => true
         | inr _ => false
         end
  end.

(** whether the walk of the Claude Code collector parses an entry: a
    file, not a directory, that matches the include patterns and no
    exclude pattern *)
Definition claudeTakes (E : Env.t) (c : Claude.ClaudeCodeCollector.t)
    (entry : WalkEntry.t) : bool :=
  negb (WalkEntry.IsDir entry)
  && Claude.matchesIncludePattern E c (WalkEntry.path entry)
  && negb (Claude.matchesExcludePattern E c (WalkEntry.path entry)).

Definition claudeReadable (E : Env.t) (entry : WalkEntry.t) : bool :=
  match Env.os_ReadFile E (WalkEntry.path entry) with
  | inl _ => true
  | inr _ => false
  end.

(** the AWS file at a path of [collectFromAWSConfig]: its expanded path
    and its content, when the path expands, the file is not reported
    missing and it can be read *)
Definition awsFile (E : Env.t) (a : AmazonQ.AmazonQCollector.t) (awsPath : string)
    : option (string * string) :=
  match config.ExpandPath E awsPath with
  | (_, Some _) => None
  | (expandedPath, None) =>
      if IsNotExist (errOf (FileReader.Stat (AmazonQ.AmazonQCollector.fileReader a)
                              expandedPath))
      then None
      else match FileReader.ReadFile (AmazonQ.AmazonQCollector.fileReader a)
                   expandedPath with
           | inl data => Some (expandedPath, data)
           | inr _ => None
           end
  end.

(** of a record: the kind and the path it is marked with, and role and
    content of its messages *)
Definition configView (s : SessionData.t)
    : option string * option string * list (string * string) :=
  (SessionData.Metadata s !! "source_type", SessionData.Metadata s !! "config_path",
   Spec.rolesContents s).

(** the items of a JSON array that are objects *)
Definition objects (items : list JValue) : list (list (string * JValue)) :=
  omap (fun item => match item with
                    | JObject itemMap => Some itemMap
                    | _ => None
                    end) items.

(** the items of the arrays a Claude Code history file holds under the
    keys [parseHistoryData] reads, in the order it reads them *)
Definition historyItems (historyData : list (string * JValue)) : list JValue :=
  flat_map (fun key => default [] (asArray (json.get historyData key)))
           ["sessions"; "conversations"; "chats"; "history"; "data"].

(** a record made from a session object: it keeps the [id] of the
    object when that is a string *)
Definition madeFrom (s : SessionData.t) (sessionMap : list (string * JValue)) : Prop :=
  SessionData.Source s = SourceClaudeCode
  /\ forall id, asString (json.get sessionMap "id") = Some id -> SessionData.ID s = id.

(** every collector of the registry returns records of the source it is
    registered for *)
Definition Attributes (registry : Factory.Registry) (ctx : Context)
    (collectionConfig : CollectionConfig.t) : Prop :=
  forall source constructor config w res err w',
    registry !! source = Some constructor ->
    Factory.Collector.Collect (constructor config) ctx (Some collectionConfig) w
      = (Returned (res, err), w') ->
    Forall (recordOf source) res.

(** every record of a result comes from a source the result lists *)
Definition attributed (result : CollectionResult.t) : Prop :=
  Forall (fun s => SessionData.Source s ∈ CollectionResult.Sources result
                   /\ SessionData.Files s = [] /\ SessionData.Commands s = [])
         (CollectionResult.Sessions result).

(** one of the three names the command line knows *)
Definition knownSource (source : CollectionSource) : Prop :=
  source = SourceClaudeCode \/ source = SourceGeminiCLI \/ source = SourceAmazonQ.

(** what a request built from the flags holds *)
Definition builtFrom (H : Host.t) (F : cmd.Flags.t) (cfg : Config.t)
    (collectConfig : CollectionConfig.t) : Prop :=
  (1 <= length (CollectionConfig.Sources collectConfig))%nat
  /\ Forall knownSource (CollectionConfig.Sources collectConfig)
  /\ CollectionConfig.Sources collectConfig
     = (if cmd.Flags.collectAll F
        then [SourceClaudeCode; SourceGeminiCLI; SourceAmazonQ]
        else cmd.Flags.collectSources F)
  /\ CollectionConfig.Template collectConfig
     = OutputSettings.DefaultTemplate (Config.OutputSettings cfg)
  /\ (CollectionConfig.DateRange collectConfig = None
      <-> isEmpty (cmd.Flags.collectDateFrom F) = true
          /\ isEmpty (cmd.Flags.collectDateTo F) = true)
  /\ (forall dateRange,
         CollectionConfig.DateRange collectConfig = Some dateRange ->
         (if isEmpty (cmd.Flags.collectDateFrom F)
          then DateRange.Start dateRange = time.zero
          else Host.time_ParseDate H (cmd.Flags.collectDateFrom F)
               = inl (DateRange.Start dateRange))
         /\ (if isEmpty (cmd.Flags.collectDateTo F)
             then DateRange.End_ dateRange = time.zero
             else exists to,
                 Host.time_ParseDate H (cmd.Flags.collectDateTo F) = inl to
                 /\ DateRange.End_ dateRange = to + 86399 * time.Second)).

(** why no request is built from the flags *)
Definition refusedFor (H : Host.t) (F : cmd.Flags.t) (err : error) : Prop :=
  (cmd.Flags.collectAll F = false
   /\ ((cmd.Flags.collectSources F = []
        /\ err = New "--all 또는 --sources 플래그를 지정해야 합니다")
       \/ exists source,
            source ∈ cmd.Flags.collectSources F /\ ~ knownSource source
            /\ err = New ("알 수 없는 데이터 소스: " +:+ source)))
  \/ (exists e, Host.time_ParseDate H (cmd.Flags.collectDateFrom F) = inr e
                /\ err = Errorf_w "시작 날짜 형식 오류: " e)
  \/ (exists e, Host.time_ParseDate H (cmd.Flags.collectDateTo F) = inr e
                /\ err = Errorf_w "종료 날짜 형식 오류: " e).

(** a record the command layer makes up when a collector fails: it is
    marked as a fallback and carries the text of the error *)
Definition fallbackFor (err : error) (s : SessionData.t) : Prop :=
  SessionData.Metadata s !! "fallback" = Some "true"
  /\ SessionData.Metadata s !! "reason" = Some (Error err)
  /\ length (SessionData.Messages s) = 1%nat.

(** what [Execute] of the service returns: a result and no error, or no
    result and an error, which is the missing configuration or wraps
    the error of the context *)
Definition executed (s : service.CollectService.t) (ctx : Context)
    (collectConfig : CollectionConfig.t) (w : World.t) (E : Env.t)
    (r : option CollectionResult.t * option error) : Prop :=
  match r with
  | (Some result, None) =>
      is_Some (service.CollectService.config s)
      /\ CollectionResult.Sources result = CollectionConfig.Sources collectConfig
      /\ CollectionResult.TotalCount result
         = Z.of_nat (length (CollectionResult.Sessions result))
      /\ CollectionResult.CollectedAt result = Env.clock E (World.ticks w)
      /\ (length (CollectionResult.Errors result)
          <= length (CollectionConfig.Sources collectConfig))%nat
  | (None, Some err) =>
      (service.CollectService.config s = None
       /\ err = Errorf_w "설정 준비 실패: " (New "설정이 없습니다"))
      \/ (exists e n, ctx n = Some e /\ err = Errorf_w "데이터 수집 실행 실패: " e)
  | _ => False
  end.

End Props.

(** ** More of the small host *)

Module Sample.

(** a request for what is dated from January 1, 2024 on *)
Definition recentRequest : CollectionConfig.t :=
  CollectionConfig.mk [SourceGeminiCLI] false false
    (Some (DateRange.mk Example.newYear2024 time.zero)) "" "".

(** a request whose range ends before it starts: from January 1, 2024
    to January 1, 2000 *)
Definition invertedRequest : CollectionConfig.t :=
  CollectionConfig.mk [SourceGeminiCLI] false false
    (Some (DateRange.mk Example.newYear2024 (63082281600 * time.Second))) "" "".

Definition credentialsPath : string := "/home/user/.aws/credentials".
Definition credentials : string := "[default] aws_secret_access_key = EXAMPLE".

Definition awsStat (path : string) : FileInfo.t + error :=
  if String.eqb path credentialsPath
  then inl (FileInfo.mk "credentials" 42 false Example.newYear2024)
  else Example.stat path.

Definition awsReadFile (path : string) : string + error :=
  if String.eqb path credentialsPath then inl credentials else Example.readFile path.

(** the files of the example host, and a credentials file in the home
    directory *)
Definition awsCollector : AmazonQ.AmazonQCollector.t :=
  AmazonQ.AmazonQCollector.mk Example.bareConfig
    (FileReader.mk awsReadFile awsStat Example.walk).

(** the date [2024-01-01] is the one the example host can parse *)
Definition parseDate (s : string) : time.Time + error :=
  if String.eqb s "2024-01-01" then inl Example.newYear2024
  else inr (New "parsing time: cannot parse as 2006-01-02").

(** the example host, with no YAML file it can read *)
Definition host : Host.t :=
  Host.mk Example.env (fun _ => inr (New "yaml: unmarshal errors")) parseDate.

(** [collect --sources gemini_cli,amazon_q --from 2024-01-01 --to 2024-01-01],
    with no configuration file *)
Definition flags : cmd.Flags.t :=
  cmd.Flags.mk ["gemini_cli"; "amazon_q"] false "2024-01-01" "2024-01-01" false false
               "" "./output" false.

End Sample.

(** * Proofs *)

(** ** The string helpers on small inputs *)

Section StringExamples.

Example TrimSpace_example : strings.TrimSpace "  a b  " = "a b".
Proof. vm_compute. reflexivity. Qed.

(** a no-break space (U+00A0, bytes C2 A0) and an ideographic space
    (U+3000, bytes E3 80 80) are white space *)
Example TrimSpace_unicode_example :
  strings.TrimSpace (String "194" (String "160" " a b"
                     +:+ String "227" (String "128" (String "128" " "))))
  = "a b".
Proof. vm_compute. reflexivity. Qed.

(** a byte A0 on its own is not a rune, and stays *)
Example TrimSpace_invalid_example :
  strings.TrimSpace (" a" +:+ String "160" " ") = "a" +:+ String "160" "".
Proof. vm_compute. reflexivity. Qed.

Example DecodeRuneInString_example :
  utf8.DecodeRuneInString [ascii_of_nat 226; ascii_of_nat 130; ascii_of_nat 172; "a"%char]
  = (0x20AC, 3).
Proof. vm_compute. reflexivity. Qed.

Example DecodeLastRuneInString_example :
  utf8.DecodeLastRuneInString ["a"%char; ascii_of_nat 226; ascii_of_nat 130; ascii_of_nat 172]
  = (0x20AC, 3)
  /\ utf8.DecodeLastRuneInString ["a"%char; ascii_of_nat 130; ascii_of_nat 172]
     = (utf8.RuneError, 1).
Proof. vm_compute. done. Qed.

Example SplitLines_example :
  strings.SplitLines ("a" +:+ String strings.newline "b" +:+ String strings.newline "")
  = ["a"; "b"; ""].
Proof. reflexivity. Qed.

Example SplitLines_empty : strings.SplitLines "" = [""].
Proof. reflexivity. Qed.

Example HasSuffix_example :
  strings.HasSuffix "/x/s1.json" ".json" = true
  /\ strings.HasSuffix "json" ".json" = false
  /\ strings.HasPrefix "{a" "{" = true
  /\ strings.HasPrefix "" "{" = false.
Proof. repeat split. Qed.

Example Contains_example :
  strings.Contains "my-amazonq.txt" "amazonq" = true
  /\ strings.Contains "abc" "" = true
  /\ strings.Contains "" "a" = false.
Proof. repeat split. Qed.

Example TrimSuffix_example :
  strings.TrimSuffix "s1.json" ".json" = "s1" /\ strings.itoa 42 = "42".
Proof. split; reflexivity. Qed.

Example extractTitleFromPrompt_example :
  Gemini.extractTitleFromPrompt ("  Hello world " +:+ String strings.newline "second")
  = "Hello world"
  /\ Gemini.extractTitleFromPrompt "" = "Gemini CLI Session".
Proof. split; reflexivity. Qed.

Example min_example :
  Gemini.min [10; 3; 4] = 3 /\ Gemini.min [] = 0 /\ AmazonQ.minInts [10; 0; 4] = 0.
Proof. repeat split. Qed.

End StringExamples.

(** ** The date-range filter *)

Section DateRangeFilter.

Lemma isWithinDateRange_Retained timestamp dateRange :
  Gemini.isWithinDateRange timestamp dateRange = true
  <-> Spec.Retained timestamp dateRange.
Proof.
  unfold Gemini.isWithinDateRange, Spec.Retained, time.IsZero, time.Before,
    time.After, time.zero.
  destruct dateRange as [start end_]; simpl.
  destruct (Z.eqb_spec start 0), (Z.eqb_spec end_ 0); simpl;
    destruct (Z.ltb_spec timestamp start); simpl;
    try destruct (Z.gtb_spec timestamp end_); simpl;
    split; intros; try discriminate; try reflexivity; try lia.
Qed.

Lemma gemini_filterLoop_spec sessions dateRange filtered :
  Gemini.filterLoop sessions dateRange filtered
  = filtered ++ Spec.retainedSessions sessions dateRange.
Proof.
  revert filtered.
  induction sessions as [|s rest IH]; intros filtered; simpl.
  - by rewrite app_nil_r.
  - unfold Spec.retainedSessions. rewrite filter_cons.
    destruct (Gemini.isWithinDateRange (SessionData.Timestamp s) dateRange) eqn:Hw.
    + apply isWithinDateRange_Retained in Hw.
      rewrite decide_True by done.
      rewrite IH, <- app_assoc. reflexivity.
    + rewrite decide_False.
      * apply IH.
      * intros HR. apply isWithinDateRange_Retained in HR. congruence.
Qed.

Lemma amazonq_filterLoop_gemini sessions dateRange filtered :
  AmazonQ.filterLoop sessions dateRange filtered
  = Gemini.filterLoop sessions dateRange filtered.
Proof.
  revert filtered. induction sessions as [|s rest IH]; intros; simpl; [done|].
  change (AmazonQ.isWithinDateRange ?t ?d) with (Gemini.isWithinDateRange t d).
  by rewrite !IH.
Qed.

Lemma claude_filterLoop_gemini sessions dateRange filtered :
  Claude.filterLoop sessions dateRange filtered
  = Gemini.filterLoop sessions dateRange filtered.
Proof.
  revert filtered. induction sessions as [|s rest IH]; intros; simpl; [done|].
  unfold Gemini.isWithinDateRange.
  destruct (negb (time.IsZero (DateRange.Start dateRange))
            && time.Before (SessionData.Timestamp s) (DateRange.Start dateRange));
    [apply IH|].
  destruct (negb (time.IsZero (DateRange.End_ dateRange))
            && time.After (SessionData.Timestamp s) (DateRange.End_ dateRange));
    apply IH.
Qed.

Lemma retainedSessions_idemp sessions dateRange :
  Spec.retainedSessions (Spec.retainedSessions sessions dateRange) dateRange
  = Spec.retainedSessions sessions dateRange.
Proof.
  unfold Spec.retainedSessions.
  induction sessions as [|s rest IH]; [done|].
  rewrite filter_cons. case_decide as HR.
  - rewrite filter_cons, decide_True by done. by rewrite IH.
  - apply IH.
Qed.

Lemma retainedSessions_all_zero sessions :
  Spec.retainedSessions sessions (DateRange.mk time.zero time.zero) = sessions.
Proof.
  unfold Spec.retainedSessions.
  induction sessions as [|s rest IH]; [done|].
  rewrite filter_cons, decide_True; [by rewrite IH|].
  split; by left.
Qed.

(** C4.  In each of the three collectors, filtering by a date range
    keeps exactly the sessions the range retains: those whose timestamp
    has the start zero or not after it and the end zero or not before
    it, bounds included; order and repetitions are kept, so membership
    in the result is membership in the input together with retention;
    a range with both bounds zero returns the whole list. *)
Theorem C4_date_filter_retains_iff :
  forall (sessions : list SessionData.t) (dateRange : DateRange.t),
    Gemini.filterByDateRange sessions (Some dateRange)
      = Spec.retainedSessions sessions dateRange
    /\ AmazonQ.filterByDateRange sessions (Some dateRange)
      = Spec.retainedSessions sessions dateRange
    /\ Claude.filterByDateRange sessions (Some dateRange)
      = Spec.retainedSessions sessions dateRange
    /\ (forall s, s ∈ Gemini.filterByDateRange sessions (Some dateRange)
                  <-> s ∈ sessions
                      /\ Spec.Retained (SessionData.Timestamp s) dateRange)
    /\ (forall ts, Gemini.isWithinDateRange ts dateRange = true
                   <-> Spec.Retained ts dateRange)
    /\ Gemini.filterByDateRange sessions (Some (DateRange.mk time.zero time.zero))
      = sessions.
Proof.
  intros sessions dateRange.
  assert (HG : forall dr, Gemini.filterByDateRange sessions (Some dr)
                          = Spec.retainedSessions sessions dr).
  { intros dr. unfold Gemini.filterByDateRange.
    by rewrite gemini_filterLoop_spec. }
  split_and!.
  - apply HG.
  - unfold AmazonQ.filterByDateRange.
    rewrite amazonq_filterLoop_gemini. apply HG.
  - unfold Claude.filterByDateRange.
    rewrite claude_filterLoop_gemini. apply HG.
  - intros s. rewrite HG. unfold Spec.retainedSessions.
    rewrite list_elem_of_filter. tauto.
  - intros ts. apply isWithinDateRange_Retained.
  - rewrite HG. apply retainedSessions_all_zero.
Qed.

(** C10.  In the Gemini CLI, the Amazon Q and the Claude Code
    collectors, filtering twice by the same (possibly nil) date range
    gives the same list as filtering once, and a nil range returns the
    input list unchanged. *)
Theorem C10_filterByDateRange_idempotent :
  forall (sessions : list SessionData.t) (dateRange : option DateRange.t),
    Gemini.filterByDateRange (Gemini.filterByDateRange sessions dateRange) dateRange
      = Gemini.filterByDateRange sessions dateRange
    /\ AmazonQ.filterByDateRange (AmazonQ.filterByDateRange sessions dateRange) dateRange
      = AmazonQ.filterByDateRange sessions dateRange
    /\ Claude.filterByDateRange (Claude.filterByDateRange sessions dateRange) dateRange
      = Claude.filterByDateRange sessions dateRange
    /\ Gemini.filterByDateRange sessions None = sessions
    /\ AmazonQ.filterByDateRange sessions None = sessions
    /\ Claude.filterByDateRange sessions None = sessions.
Proof.
  intros sessions [dr|]; simpl; [|done].
  assert (HG : forall l, Gemini.filterLoop l dr [] = Spec.retainedSessions l dr).
  { intros l. by rewrite gemini_filterLoop_spec. }
  assert (HA : forall l, AmazonQ.filterLoop l dr [] = Spec.retainedSessions l dr).
  { intros l. by rewrite amazonq_filterLoop_gemini. }
  assert (HC : forall l, Claude.filterLoop l dr [] = Spec.retainedSessions l dr).
  { intros l. by rewrite claude_filterLoop_gemini. }
  split_and!; try done.
  - by rewrite !HG, retainedSessions_idemp.
  - by rewrite !HA, retainedSessions_idemp.
  - by rewrite !HC, retainedSessions_idemp.
Qed.

End DateRangeFilter.

(** ** The cap on the records of one history file *)

Section RecordCap.
Context (E : Env.t).

Lemma gemini_scanLoop_cap ctx scanErr lines :
  forall lineNum taken sessions w res err w',
    Z.of_nat (length sessions) < Gemini.maxMessagesPerFile ->
    Gemini.scanLoop E ctx scanErr lines lineNum taken sessions w = ((res, err), w') ->
    Z.of_nat (length res) <= Gemini.maxMessagesPerFile
    /\ (Z.of_nat (length res) = Gemini.maxMessagesPerFile ->
        last (World.logs w') = Some Spec.capWarning).
Proof.
  assert (Hmax : Gemini.maxMessagesPerFile = 10000) by reflexivity.
  induction lines as [|text rest IH]; intros lineNum taken sessions w res err w' Hlen Hrun.
  - simpl in Hrun. destruct (scanErr taken); inversion Hrun; subst; simpl; lia.
  - simpl in Hrun. unfold bind, Done in Hrun.
    destruct (ctx (World.polls w)) as [e|].
    { inversion Hrun; subst; simpl; lia. }
    destruct (isEmpty (strings.TrimSpace text)).
    { eapply IH; eauto. }
    destruct (Gemini.parseHistoryLine E _ _ _) as [[session perr] w1].
    destruct perr as [e|].
    { unfold log in Hrun. eapply IH; eauto. }
    set (sessions' := match session with
                      | Some s => sessions ++ [s]
                      | None => sessions
                      end) in *.
    assert (Hlen' : Z.of_nat (length sessions') <= Gemini.maxMessagesPerFile).
    { subst sessions'. destruct session; [rewrite length_app; simpl|]; lia. }
    destruct (Z.geb_spec (Z.of_nat (length sessions')) Gemini.maxMessagesPerFile)
      as [Hge|Hlt].
    + unfold log in Hrun.
      destruct (scanErr (S taken)); inversion Hrun; subst; simpl.
      * lia.
      * split; [done|]. intros _. by rewrite last_snoc.
    + eapply IH; eauto.
Qed.

Lemma amazonq_linesLoop_cap ctx lines :
  forall lineNum sessions w res err w',
    Z.of_nat (length sessions) < AmazonQ.amazonQMaxMessagesPerFile ->
    AmazonQ.linesLoop E ctx lines lineNum sessions w = ((res, err), w') ->
    Z.of_nat (length res) <= AmazonQ.amazonQMaxMessagesPerFile
    /\ (Z.of_nat (length res) = AmazonQ.amazonQMaxMessagesPerFile ->
        last (World.logs w') = Some Spec.capWarning).
Proof.
  assert (Hmax : AmazonQ.amazonQMaxMessagesPerFile = 10000) by reflexivity.
  induction lines as [|text rest IH]; intros lineNum sessions w res err w' Hlen Hrun.
  - simpl in Hrun. inversion Hrun; subst; simpl; lia.
  - simpl in Hrun. unfold bind, Done in Hrun.
    destruct (ctx (World.polls w)) as [e|].
    { inversion Hrun; subst; simpl; lia. }
    destruct (isEmpty (strings.TrimSpace text)).
    { eapply IH; eauto. }
    destruct (AmazonQ.parseHistoryLine E _ _ _) as [[session perr] w1].
    destruct perr as [e|].
    { unfold log in Hrun. eapply IH; eauto. }
    set (sessions' := match session with
                      | Some s => sessions ++ [s]
                      | None => sessions
                      end) in *.
    assert (Hlen' : Z.of_nat (length sessions') <= AmazonQ.amazonQMaxMessagesPerFile).
    { subst sessions'. destruct session; [rewrite length_app; simpl|]; lia. }
    destruct (Z.geb_spec (Z.of_nat (length sessions')) AmazonQ.amazonQMaxMessagesPerFile)
      as [Hge|Hlt].
    + unfold log, ret in Hrun. inversion Hrun; subst; simpl.
      split; [done|]. intros _. by rewrite last_snoc.
    + eapply IH; eauto.
Qed.

(** C7.  Whatever the history file holds, the streaming line parser of
    the Gemini CLI collector and that of the Amazon Q collector return
    at most 10,000 records; when they return exactly 10,000, the loop
    was left at the cap and the last thing logged is the warning that
    the limit was reached. *)
Theorem C7_history_records_capped :
  forall (a : AmazonQ.AmazonQCollector.t)
         (ctx : Context) (filePath : string) (collectConfig : CollectionConfig.t)
         (w : World.t),
    (Z.of_nat (length (Gemini.parseHistoryFileStreaming E ctx filePath collectConfig w).1.1)
       <= 10000
     /\ (Z.of_nat (length (Gemini.parseHistoryFileStreaming E ctx filePath collectConfig w).1.1)
           = 10000 ->
         last (World.logs (Gemini.parseHistoryFileStreaming E ctx filePath collectConfig w).2)
           = Some Spec.capWarning))
    /\ (Z.of_nat (length (AmazonQ.parseHistoryFileStreaming E a ctx filePath collectConfig w).1.1)
          <= 10000
        /\ (Z.of_nat (length (AmazonQ.parseHistoryFileStreaming E a ctx filePath collectConfig w).1.1)
              = 10000 ->
            last (World.logs (AmazonQ.parseHistoryFileStreaming E a ctx filePath collectConfig w).2)
              = Some Spec.capWarning)).
Proof.
  intros a ctx filePath collectConfig w. split.
  - unfold Gemini.parseHistoryFileStreaming.
    destruct (Env.os_Open E filePath) as [file|e]; [|simpl; lia].
    destruct (Gemini.scanLoop _ _ _ _ _ _ _ _) as [[res err] w'] eqn:Hrun.
    simpl. eapply gemini_scanLoop_cap; [|exact Hrun]. simpl. reflexivity.
  - unfold AmazonQ.parseHistoryFileStreaming.
    destruct (FileReader.ReadFile _ _) as [content|e]; [|simpl; lia].
    destruct (AmazonQ.linesLoop _ _ _ _ _ _) as [[res err] w'] eqn:Hrun.
    simpl. eapply amazonq_linesLoop_cap; [|exact Hrun]. simpl. reflexivity.
Qed.

End RecordCap.

(** ** The streaming line parser *)

Section Strings.




Lemma slice_to s i : slice s 0 i = take (Z.to_nat i) s.
Proof. unfold slice. by rewrite Z.sub_0_r. Qed.

Lemma slice_from s i :
  0 <= i -> slice s i (Z.of_nat (length s)) = drop (Z.to_nat i) s.
Proof.
  intros Hi. unfold slice. apply take_ge. rewrite length_drop. lia.
Qed.

(** the decoder *)

Lemma first_ascii b : b < 0x80 -> utf8.first b = utf8.as_.
Proof. intros Hb. unfold utf8.first. case_match; [done|lia]. Qed.

Lemma first_xx_decode s :
  s <> [] -> utf8.first (byteAt s 0) = utf8.xx ->
  utf8.DecodeRuneInString s = (utf8.RuneError, 1).
Proof.
  intros Hs Hx. unfold utf8.DecodeRuneInString.
  destruct s as [|a s]; [done|].
  assert (Hn : (Z.of_nat (length (a :: s)) <? 1) = false)
    by (apply Z.ltb_ge; cbn [length]; lia).
  rewrite Hn. cbv zeta. rewrite Hx.
  change (utf8.xx >=? utf8.as_) with true. cbv iota.
  change (Z.shiftr (utf8.int32 (Z.shiftl utf8.xx 31)) 31) with (-1).
  change (Z.lnot (-1)) with 0. rewrite Z.land_0_r, Z.land_m1_r. done.
Qed.

(** what the table announces for a byte that opens a longer sequence *)
Lemma first_multi b :
  utf8.first b <> utf8.as_ -> utf8.first b <> utf8.xx ->
  (utf8.first b >=? utf8.as_) = false
  /\ 2 <= Z.land (utf8.first b) 7 <= 4
  /\ 0x80 <= (utf8.acceptRanges (Z.shiftr (utf8.first b) 4)).1
  /\ (utf8.acceptRanges (Z.shiftr (utf8.first b) 4)).2 <= 0xBF
  /\ 0xC2 <= b.
Proof.
  unfold utf8.first. intros Has Hxx.
  repeat case_match; try done; split_and!; first [lia | by vm_compute].
Qed.

Lemma first_as_decode s :
  s <> [] -> utf8.first (byteAt s 0) = utf8.as_ ->
  utf8.DecodeRuneInString s = (byteAt s 0, 1).
Proof.
  intros Hs Hx. unfold utf8.DecodeRuneInString.
  destruct s as [|a s]; [done|].
  assert (Hn : (Z.of_nat (length (a :: s)) <? 1) = false)
    by (apply Z.ltb_ge; cbn [length]; lia).
  rewrite Hn. cbv zeta. rewrite Hx.
  change (utf8.as_ >=? utf8.as_) with true. cbv iota.
  change (Z.shiftr (utf8.int32 (Z.shiftl utf8.as_ 31)) 31) with 0.
  change (Z.lnot 0) with (-1). rewrite Z.land_m1_r.
  rewrite Z.land_0_r, Z.lor_0_r. done.
Qed.

Lemma Decode_ascii s :
  s <> [] -> byteAt s 0 < 0x80 ->
  utf8.DecodeRuneInString s = (byteAt s 0, 1).
Proof.
  intros Hs Hb. apply first_as_decode; [done|by apply first_ascii].
Qed.


(** the three ways [DecodeRuneInString] goes on a string that is not
    empty, by its first byte *)
Ltac decode_first s Hs :=
  let Has := fresh "Has" in
  let Hxx := fresh "Hxx" in
  let Hge := fresh "Hge" in
  let Hsz := fresh "Hsz" in
  let Hlo := fresh "Hlo" in
  let Hhi := fresh "Hhi" in
  let Hlead := fresh "Hlead" in
  let Hn := fresh "Hn" in
  destruct (decide (utf8.first (byteAt s 0) = utf8.as_)) as [Has|Has];
  [ pose proof (first_as_decode s Hs Has)
  | destruct (decide (utf8.first (byteAt s 0) = utf8.xx)) as [Hxx|Hxx];
    [ pose proof (first_xx_decode s Hs Hxx)
    | destruct (first_multi _ Has Hxx) as (Hge & Hsz & Hlo & Hhi & Hlead);
      assert (Hn : (Z.of_nat (length s) <? 1) = false)
        by (apply Z.ltb_ge; destruct s; [done|cbn [length]; lia]);
      unfold utf8.DecodeRuneInString; rewrite ?Hn; cbv zeta; rewrite ?Hge;
      unfold utf8.locb, utf8.hicb in *;
      generalize dependent (Z.land (utf8.first (byteAt s 0)) 7);
      generalize dependent (utf8.acceptRanges (Z.shiftr (utf8.first (byteAt s 0)) 4))
    ]
  ].

Lemma Decode_size s :
  s <> [] ->
  1 <= (utf8.DecodeRuneInString s).2 <= Z.of_nat (length s).
Proof.
  intros Hs.
  assert (1 <= Z.of_nat (length s)) by (destruct s; [done|cbn [length]; lia]).
  decode_first s Hs.
  - rewrite H0. cbn [snd]. lia.
  - rewrite H0. cbn [snd]. lia.
  - intros acc Hlo Hhi sz Hsz.
    repeat case_match; cbn [snd]; lia.
Qed.





Lemma byteAt_drop s k i :
  0 <= i -> byteAt (drop k s) i = byteAt s (Z.of_nat k + i).
Proof.
  intros Hi. unfold byteAt. f_equal. rewrite !nth_lookup, lookup_drop.
  do 2 f_equal. lia.
Qed.



Lemma nonempty_length (s : list ascii) : s <> [] -> 1 <= Z.of_nat (length s).
Proof. destruct s; [done|cbn [length]; lia]. Qed.

Lemma backToRuneStart_range s lim k :
  lim - 1 <= utf8.backToRuneStart s lim k <= lim + Z.of_nat k - 1.
Proof.
  induction k as [|k IH]; cbn [utf8.backToRuneStart]; [lia|].
  case_match; lia.
Qed.


(** the rune a string ends with: either the decoder gave up, or the last
    [size] bytes decode to it *)
Lemma DecodeLast_cases s :
  s <> [] ->
  exists r size,
    utf8.DecodeLastRuneInString s = (r, size)
    /\ 1 <= size <= Z.of_nat (length s)
    /\ ((r, size) = (utf8.RuneError, 1)
        \/ utf8.DecodeRuneInString (drop (Z.to_nat (Z.of_nat (length s) - size)) s)
           = (r, size)).
Proof.
  intros Hs. pose proof (nonempty_length s Hs) as Hlen.
  unfold utf8.DecodeLastRuneInString.
  assert (Hz : (Z.of_nat (length s) =? 0) = false) by (apply Z.eqb_neq; lia).
  rewrite Hz. cbv zeta.
  destruct (byteAt s (Z.of_nat (length s) - 1) <? utf8.RuneSelf) eqn:Hascii.
  - apply Z.ltb_lt in Hascii. eexists _, _. split; [done|]. split; [lia|]. right.
    assert (Hd : drop (Z.to_nat (Z.of_nat (length s) - 1)) s <> []).
    { intros Hnil. apply (f_equal length) in Hnil. rewrite length_drop in Hnil.
      cbn [length] in Hnil. lia. }
    rewrite Decode_ascii; [|done|].
    + rewrite byteAt_drop by lia. do 2 f_equal. lia.
    + rewrite byteAt_drop by lia.
      replace (Z.of_nat (Z.to_nat (Z.of_nat (length s) - 1)) + 0)
        with (Z.of_nat (length s) - 1) by lia.
      done.
  - set (lim := if Z.of_nat (length s) - utf8.UTFMax <? 0 then 0
                else Z.of_nat (length s) - utf8.UTFMax).
    assert (Hlim : 0 <= lim <= Z.of_nat (length s) - 1).
    { unfold lim, utf8.UTFMax. case_match eqn:Hc; [lia|].
      apply Z.ltb_ge in Hc. unfold utf8.UTFMax in Hc. lia. }
    pose proof (backToRuneStart_range s lim
                  (Z.to_nat (Z.of_nat (length s) - 1 - lim))) as Hb.
    set (b := utf8.backToRuneStart s lim (Z.to_nat (Z.of_nat (length s) - 1 - lim)))
      in *.
    set (start := if b <? 0 then 0 else b).
    assert (Hstart : 0 <= start <= Z.of_nat (length s) - 1).
    { unfold start. case_match eqn:Hc; [lia|]. apply Z.ltb_ge in Hc. lia. }
    rewrite slice_from by lia.
    assert (Hd : drop (Z.to_nat start) s <> []).
    { intros Hnil. apply (f_equal length) in Hnil. rewrite length_drop in Hnil.
      cbn [length] in Hnil. lia. }
    pose proof (Decode_size _ Hd) as Hsize. rewrite length_drop in Hsize.
    destruct (utf8.DecodeRuneInString (drop (Z.to_nat start) s)) as [r size] eqn:Hdec.
    cbn [snd] in Hsize.
    destruct (start + size =? Z.of_nat (length s)) eqn:Hend; cbn [negb].
    + apply Z.eqb_eq in Hend. eexists _, _. split; [done|]. split; [lia|]. right.
      replace (Z.of_nat (length s) - size) with start by lia. done.
    + eexists _, _. split; [done|]. split; [lia|]. by left.
Qed.

(** white space *)



(** [indexFunc] and [TrimLeftFunc] *)







(** [lastIndexFunc] and [TrimRightFunc] *)

Lemma lastIndexFuncLoop_fuel (f : Z -> bool) (truth : bool) fuel1 fuel2 s :
  (length s <= fuel1)%nat -> (length s <= fuel2)%nat ->
  strings.lastIndexFuncLoop fuel1 s f truth = strings.lastIndexFuncLoop fuel2 s f truth.
Proof.
  revert fuel2 s. induction fuel1 as [|fuel1 IH]; intros fuel2 s H1 H2.
  - destruct s; [|cbn [length] in H1; lia]. by destruct fuel2.
  - destruct fuel2 as [|fuel2].
    + destruct s; [done|cbn [length] in H2; lia].
    + cbn [strings.lastIndexFuncLoop]. destruct s as [|a s]; [done|].
      destruct (DecodeLast_cases (a :: s) ltac:(done)) as (r & size & -> & Hsize & _).
      destruct (Bool.eqb (f r) truth); [done|].
      rewrite slice_to.
      rewrite (IH fuel2); [done| |]; rewrite length_take; lia.
Qed.










(** [TrimSpace] *)







End Strings.

Section LineParser.
Context (E : Env.t).













End LineParser.



(** a line that holds one no-break space is blank: both parsers skip
    it, in the loop and in [parseTextHistoryEntry] *)
Example blank_unicode_line_example :
  let nbsp := String "194" (String "160" "") in
  strings.TrimSpace nbsp = ""
  /\ (Gemini.parseHistoryLine Example.env nbsp 1 World.init).1 = (None, None)
  /\ (AmazonQ.parseHistoryLine Example.env nbsp 1 World.init).1 = (None, None)
  /\ length (Gemini.scanLoop Example.env Background (fun _ => None)
               ["first"; nbsp; "third"] 0 0%nat [] World.init).1.1 = 2%nat
  /\ length (AmazonQ.linesLoop Example.env Background
               ["first"; nbsp; "third"] 0 [] World.init).1.1 = 2%nat.
Proof. vm_compute. done. Qed.

(** C5.  The line [{"id":"a","extra":"x"}] is not empty and begins with a
    brace, and its key [extra] names no field of the entry.  The Gemini
    CLI parser, whose decoder is strict, refuses it with the error of
    the unknown field, and its loop logs the warning and keeps no
    record.  The Amazon Q parser, whose decoder is not made strict,
    returns a record for the same line, and its loop keeps that record
    and logs nothing. *)
Theorem C5_amazonq_accepts_unknown_field :
  isEmpty (strings.TrimSpace Example.lineExtra) = false
  /\ strings.HasPrefix Example.lineExtra "{" = true
  /\ Env.json_Decode Example.env Example.lineExtra
     = inl (JObject [("id", JString "a"); ("extra", JString "x")])
  /\ findField (Env.json_fieldEq Example.env) AmazonQ.historyFields "extra" = None
  /\ (AmazonQ.parseHistoryLine Example.env Example.lineExtra 1 World.init).1.2 = None
  /\ option_map SessionData.ID
       (AmazonQ.parseHistoryLine Example.env Example.lineExtra 1 World.init).1.1
     = Some "a"
  /\ (Gemini.parseHistoryLine Example.env Example.lineExtra 1 World.init).1
     = (None, Some (Errorf_w "failed to parse JSON: "
                      (New ("json: unknown field " +:+ json.quoted "extra"))))
  /\ (let run := AmazonQ.linesLoop Example.env Background [Example.lineExtra] 0 []
                    World.init in
      (map SessionData.ID run.1.1, run.1.2, World.logs run.2) = (["a"], None, []))
  /\ (let run := Gemini.scanLoop Example.env Background (fun _ => None)
                    [Example.lineExtra] 0 0%nat [] World.init in
      (run.1, World.logs run.2)
      = (([], None),
         [Warnf ("Failed to parse history line 1: failed to parse JSON: "
                 +:+ "json: unknown field " +:+ json.quoted "extra")])).
Proof. vm_compute. repeat split. Qed.

(** ** Collect: the request, the configuration directory, cancellation *)

Section CollectOutcome.
Context (E : Env.t).

(** Once the request is not nil and the configuration directory is
    accepted, [Collect] of the Gemini CLI collector returns a nil
    error, whatever the branches returned. *)
Lemma gemini_Collect_nil_error g ctx collectConfig w :
  Gemini.validateConfigDirectory E g = None ->
  (Gemini.Collect E g ctx (Some collectConfig) w).1.2 = None.
Proof.
  intros Hv. unfold Gemini.Collect. rewrite Hv. unfold bind.
  destruct (schedule E (Gemini.branches g) w) as [order w1].
  destruct (Gemini.runBranches E g _ collectConfig order ([], []) w1)
    as [[allSessions errs] w2].
  destruct (Gemini.logErrors _ errs w2) as [[] w3].
  reflexivity.
Qed.

(** [Collect] of the Amazon Q collector returns a nil error for every
    request that is not nil. *)
Lemma amazonq_Collect_nil_error a ctx collectConfig w :
  (AmazonQ.Collect E a ctx (Some collectConfig) w).1.2 = None.
Proof.
  unfold AmazonQ.Collect.
  destruct (AmazonQ.validateConfigDirectory E a) as [err|]; unfold bind.
  - destruct (log _ w) as [[] w1].
    destruct (AmazonQ.generateDummyData E w1) as [dummy w2]. reflexivity.
  - destruct (schedule E (AmazonQ.branches a) w) as [order w1].
    destruct (AmazonQ.runBranches E a _ collectConfig order ([], []) w1)
      as [[allSessions errs] w2].
    destruct (AmazonQ.logErrors _ errs w2) as [[] w3].
    destruct (Z.of_nat (length allSessions) =? 0).
    + destruct (log _ w3) as [[] w4].
      destruct (AmazonQ.generateDummyData E w4) as [dummy w5]. reflexivity.
    + reflexivity.
Qed.

Lemma dummyData_synthetic now :
  length (AmazonQ.dummyData now) = 3%nat
  /\ Forall (fun s => SessionData.Metadata s !! "source_type" = Some "amazon_q_dummy")
            (AmazonQ.dummyData now).
Proof.
  split; [reflexivity|].
  unfold AmazonQ.dummyData. repeat constructor.
Qed.

End CollectOutcome.

(** C1.  The code at a context cancelled before the call, as in
    TestContextCancellation: [Collect] of the Gemini CLI collector
    returns a nil error, not [context.Canceled]; with a context
    cancelled after four looks it returns the two records of the
    history file, a part of the result, with a nil error; the Amazon Q
    collector returns its dummy records with a nil error. *)
Theorem C1_cancelled_collect_returns_nil_error :
  (Gemini.Collect Example.env Example.gemini Example.cancelled
     (Some Example.request) World.init).1 = ([], None)
  /\ (let r := Gemini.Collect Example.env Example.gemini (Example.cancelledAfter 4)
                 (Some Example.request) World.init in
      map SessionData.ID r.1.1 = ["test-1"; "gemini-cli-text-4"]
      /\ r.1.2 = None
      /\ last (World.logs r.2)
         = Some (Warnf "Collection warning: session directory collection failed: context canceled"))
  /\ (let r := AmazonQ.Collect Example.env Example.amazonQ Example.cancelled
                 (Some Example.request) World.init in
      map SessionData.ID r.1.1 = ["amazonq-dummy-1"; "amazonq-dummy-2"; "amazonq-dummy-3"]
      /\ r.1.2 = None).
Proof. vm_compute. repeat split. Qed.

(** C8.  The code at a nil request: the Gemini CLI and the Amazon Q
    collectors return the error "collection config is nil" and no
    record, for every host, context and world; the Claude Code
    collector, with a live context and its configuration directory in
    place, does not return: it panics on [collectConfig.DateRange]. *)
Theorem C8_nil_request :
  (forall E g ctx w,
      Gemini.Collect E g ctx None w = (([], Some (New "collection config is nil")), w))
  /\ (forall E a ctx w,
         AmazonQ.Collect E a ctx None w = (([], Some (New "collection config is nil")), w))
  /\ (Claude.Collect Example.env Example.claude Background None World.init).1
     = Panicked "runtime error: invalid memory address or nil pointer dereference".
Proof. split_and!; [done|done|]. vm_compute. reflexivity. Qed.

(** C2 as first stated fails: with the configuration directory
    [/nonexistent] missing, [Collect] of the Gemini CLI collector and of
    the Claude Code collector return an error and no record. *)
Lemma C2_missing_directory_is_an_error :
  (Gemini.Collect Example.env Example.geminiMissing Background
     (Some Example.request) World.init).1
    = ([], Some (Errorf_w "config directory validation failed: "
                   (New "gemini CLI config directory does not exist: /nonexistent")))
  /\ (Claude.Collect Example.env Example.claudeMissing Background
        (Some Example.request) World.init).1
     = Returned ([], Some (New "Claude Code 설정 디렉토리가 존재하지 않습니다: /nonexistent")).
Proof. vm_compute. split; reflexivity. Qed.

(** C2, amended.  When the configuration directory does not exist
    (its path expands and [Stat] on it answers "not exist"), [Collect]
    of the Amazon Q collector, for a request that is not nil, returns no
    error: it logs one warning and returns the three records of the
    fallback generator, each marked [source_type = amazon_q_dummy].
    The Gemini CLI collector returns an error and no record, and so
    does the Claude Code collector when its context is not done. *)
Theorem C2_missing_config_directory :
  forall (E : Env.t) (cfg : config.CLIToolConfig.t) (fr : FileReader.t)
         (configDir : string) (ctx : Context) (collectConfig : CollectionConfig.t)
         (w : World.t),
    config.ExpandPath E (config.CLIToolConfig.ConfigDir cfg) = (configDir, None) ->
    IsNotExist (errOf (FileReader.Stat fr configDir)) = true ->
    (exists warning,
        AmazonQ.Collect E (AmazonQ.AmazonQCollector.mk cfg fr) ctx (Some collectConfig) w
        = ((AmazonQ.dummyData (Env.clock E (World.ticks w)), None),
           World.mk (S (World.ticks w)) (World.polls w) (World.steps w)
                    (World.logs w ++ [Warnf warning]))
        /\ length (AmazonQ.dummyData (Env.clock E (World.ticks w))) = 3%nat
        /\ Forall (fun s => SessionData.Metadata s !! "source_type"
                            = Some "amazon_q_dummy")
                  (AmazonQ.dummyData (Env.clock E (World.ticks w))))
    /\ (exists err,
           Gemini.Collect E (Gemini.ImprovedGeminiCLICollector.mk cfg fr) ctx
             (Some collectConfig) w = (([], Some err), w))
    /\ (IsNotExist (errOf (Env.os_Stat E configDir)) = true ->
        ctx (World.polls w) = None ->
        exists err w',
          Claude.Collect E (Claude.ClaudeCodeCollector.mk cfg) ctx (Some collectConfig) w
          = (Returned ([], Some err), w')).
Proof.
  intros E cfg fr configDir ctx collectConfig w Hexp Hstat. split_and!.
  - unfold AmazonQ.Collect, AmazonQ.validateConfigDirectory. simpl.
    rewrite Hexp, Hstat. eexists. split; [reflexivity|]. apply dummyData_synthetic.
  - unfold Gemini.Collect, Gemini.validateConfigDirectory. simpl.
    rewrite Hexp, Hstat. eexists. reflexivity.
  - intros Hos Hctx. unfold Claude.Collect, bind, Done. simpl.
    rewrite Hctx, Hexp, Hos. eexists _, _. reflexivity.
Qed.

(** C2 at the configuration directory [/nonexistent] of the example
    host: the Amazon Q collector returns the three dummy records. *)
Lemma C2_missing_config_directory_witness :
  exists warning,
    AmazonQ.Collect Example.env Example.amazonQMissing Background
      (Some Example.request) World.init
    = ((AmazonQ.dummyData Example.newYear2024, None),
       World.mk 1 0 0 [Warnf warning]).
Proof.
  destruct (C2_missing_config_directory Example.env Example.missingConfig
              Example.fileReader "/nonexistent" Background Example.request World.init
              eq_refl eq_refl) as ((warning & H & _) & _).
  exists warning. exact H.
Defined.

(** C3 as first stated fails: with the configuration directory in
    place and nothing to collect, the Gemini CLI and the Claude Code
    collectors return the empty list; and the Amazon Q collector, asked
    for what is dated up to the year 2000, filters its dummy records
    away and returns the empty list as well. *)
Lemma C3_empty_result_without_fallback :
  (Gemini.Collect Example.env Example.geminiBare Background
     (Some Example.request) World.init).1 = ([], None)
  /\ (Claude.Collect Example.env Example.claudeBare Background
        (Some Example.request) World.init).1 = Returned ([], None)
  /\ (AmazonQ.Collect Example.env Example.amazonQBare Background
        (Some Example.oldRequest) World.init).1 = ([], None).
Proof. vm_compute. repeat split. Qed.

(** C3, amended.  In the Amazon Q collector, when the branches have
    run and the merged list is empty, [Collect] calls the fallback
    generator: what it returns is the dummy records filtered by the
    date range of the request, so the three of them when the request
    has no date range; each of the three is marked
    [source_type = amazon_q_dummy].  The Gemini CLI collector has no
    fallback: with an empty merged list it returns the empty list. *)
Theorem C3_fallback_on_empty_result :
  forall (E : Env.t) (a : AmazonQ.AmazonQCollector.t)
         (g : Gemini.ImprovedGeminiCLICollector.t) (ctx : Context)
         (collectConfig : CollectionConfig.t) (w : World.t),
    (forall order w1 errs w2,
        AmazonQ.validateConfigDirectory E a = None ->
        schedule E (AmazonQ.branches a) w = (order, w1) ->
        AmazonQ.runBranches E a (WithTimeout E ctx) collectConfig order ([], []) w1
          = (([], errs), w2) ->
        exists now w3,
          AmazonQ.Collect E a ctx (Some collectConfig) w
          = ((AmazonQ.filterByDateRange (AmazonQ.dummyData now)
                (CollectionConfig.DateRange collectConfig), None), w3)
          /\ (CollectionConfig.DateRange collectConfig = None ->
              (AmazonQ.Collect E a ctx (Some collectConfig) w).1.1 = AmazonQ.dummyData now)
          /\ length (AmazonQ.dummyData now) = 3%nat
          /\ Forall (fun s => SessionData.Metadata s !! "source_type"
                              = Some "amazon_q_dummy")
                    (AmazonQ.dummyData now))
    /\ (forall order w1 errs w2,
           Gemini.validateConfigDirectory E g = None ->
           schedule E (Gemini.branches g) w = (order, w1) ->
           Gemini.runBranches E g (WithTimeout E ctx) collectConfig order ([], []) w1
             = (([], errs), w2) ->
           (Gemini.Collect E g ctx (Some collectConfig) w).1 = ([], None)).
Proof.
  intros E a g ctx collectConfig w. split.
  - intros order w1 errs w2 Hv Hs Hr.
    unfold AmazonQ.Collect. rewrite Hv. unfold bind. rewrite Hs, Hr.
    destruct (AmazonQ.logErrors _ errs w2) as [[] w3]. simpl.
    unfold AmazonQ.generateDummyData, bind, log, Now, ret. simpl.
    eexists _, _. split_and!.
    + destruct (CollectionConfig.DateRange collectConfig); reflexivity.
    + intros ->. reflexivity.
    + reflexivity.
    + apply dummyData_synthetic.
  - intros order w1 errs w2 Hv Hs Hr.
    unfold Gemini.Collect. rewrite Hv. unfold bind. rewrite Hs, Hr.
    destruct (Gemini.logErrors _ errs w2) as [[] w3]. simpl.
    destruct (CollectionConfig.DateRange collectConfig); reflexivity.
Qed.

(** C3 at the bare configuration of the example host: nothing is
    collected and the Amazon Q collector returns its dummy records. *)
Lemma C3_fallback_on_empty_result_witness :
  exists now w3,
    AmazonQ.Collect Example.env Example.amazonQBare Background
      (Some Example.request) World.init
    = ((AmazonQ.dummyData now, None), w3).
Proof.
  destruct (C3_fallback_on_empty_result Example.env Example.amazonQBare
              Example.geminiBare Background Example.request World.init) as (HA & _).
  destruct (HA [AmazonQ.AWSConfig] (World.mk 0 0 1 []) [] (World.mk 0 4 1 [])
               eq_refl eq_refl eq_refl) as (now & w3 & H & _).
  exists now, w3. exact H.
Defined.

(** ** The size cap *)

Section Scheduler.
Context (E : Env.t) {A : Type}.

Lemma interleave_Permutation fuel :
  forall (work : list A) w order w',
    length work = fuel ->
    interleave E fuel work w = (order, w') ->
    order ≡ₚ work.
Proof.
  induction fuel as [|fuel IH]; intros work w order w' Hlen Hrun.
  - destruct work; [|done]. simpl in Hrun. inversion Hrun. done.
  - destruct work as [|x rest]; [done|].
    cbn [interleave] in Hrun. unfold bind, choose in Hrun.
    set (i := (Env.sched E (World.steps w) `mod` length (x :: rest))%nat) in *.
    assert (Hi : (i < length (x :: rest))%nat).
    { subst i. apply Nat.mod_upper_bound. simpl. lia. }
    destruct (lookup_lt_is_Some_2 (x :: rest) i Hi) as [y Hy].
    rewrite Hy in Hrun.
    destruct (interleave E fuel (delete i (x :: rest)) _) as [r w1] eqn:Hr.
    unfold ret in Hrun. inversion Hrun; subst order w'.
    apply IH in Hr.
    + rewrite Hr. symmetry. by apply delete_Permutation.
    + rewrite length_delete by eauto. simpl in *. lia.
Qed.

Lemma schedule_Permutation (work : list A) w order w' :
  schedule E work w = (order, w') -> order ≡ₚ work.
Proof. unfold schedule. by apply interleave_Permutation. Qed.

End Scheduler.

Section SizeCap.
Context (E : Env.t).

Lemma gemini_history_too_large g ctx collectConfig w historyPath info :
  config.ExpandPath E (config.CLIToolConfig.HistoryFile
                         (Gemini.ImprovedGeminiCLICollector.config g))
    = (historyPath, None) ->
  FileReader.Stat (Gemini.ImprovedGeminiCLICollector.fileReader g) historyPath
    = inl info ->
  FileInfo.Size info > Gemini.maxFileSize ->
  exists err,
    Gemini.collectFromHistoryWithRetry E g ctx collectConfig w = (([], Some err), w)
    /\ forall allSessions errs,
         exists errs',
           Gemini.runBranch E g ctx collectConfig Gemini.History (allSessions, errs) w
           = ((allSessions, errs'), w).
Proof.
  intros Hexp Hstat Hsize.
  assert (Hgt : (FileInfo.Size info >? Gemini.maxFileSize) = true)
    by (apply Z.gtb_lt; lia).
  assert (Hrun : exists err,
             Gemini.collectFromHistoryWithRetry E g ctx collectConfig w
             = (([], Some err), w)).
  { unfold Gemini.collectFromHistoryWithRetry. rewrite Hexp, Hstat, Hgt.
    eexists. reflexivity. }
  destruct Hrun as [err Hrun]. exists err. split; [exact Hrun|].
  intros allSessions errs. unfold Gemini.runBranch, bind. rewrite Hrun.
  eexists. reflexivity.
Qed.

Lemma gemini_session_too_large g path collectConfig w info :
  FileReader.Stat (Gemini.ImprovedGeminiCLICollector.fileReader g) path = inl info ->
  FileInfo.Size info > Gemini.maxFileSize ->
  exists err, Gemini.parseSessionFileSafe E g path collectConfig w = ((None, Some err), w).
Proof.
  intros Hstat Hsize.
  unfold Gemini.parseSessionFileSafe. rewrite Hstat.
  assert (Hgt : (FileInfo.Size info >? Gemini.maxFileSize) = true)
    by (apply Z.gtb_lt; lia).
  rewrite Hgt. eexists. reflexivity.
Qed.

Lemma gemini_session_parsed_small g path collectConfig w s w' :
  Gemini.parseSessionFileSafe E g path collectConfig w = ((Some s, None), w') ->
  exists info,
    FileReader.Stat (Gemini.ImprovedGeminiCLICollector.fileReader g) path = inl info
    /\ FileInfo.Size info <= Gemini.maxFileSize.
Proof.
  unfold Gemini.parseSessionFileSafe.
  destruct (FileReader.Stat _ path) as [info|e]; [|discriminate].
  destruct (Z.gtb_spec (FileInfo.Size info) Gemini.maxFileSize); [discriminate|].
  intros _. exists info. split; [done|lia].
Qed.

Lemma gemini_closeLoop_result ctx n sessions errors w res err w' :
  Gemini.closeLoop ctx n sessions errors w = ((res, err), w') ->
  res = [] \/ res = sessions.
Proof.
  revert w. induction n as [|n IH]; intros w; simpl; unfold bind.
  - destruct (Gemini.logErrors _ errors w) as [[] w1]. unfold ret.
    inversion 1; auto.
  - unfold Done. destruct (ctx (World.polls w)); [inversion 1; auto|].
    apply IH.
Qed.

(** Every record the collecting loop returns was already collected or
    was parsed from an arrived file whose size is within the cap. *)
Lemma gemini_collectLoop_provenance g ctx collectConfig arrivals :
  forall sessions errors w res err w',
    Gemini.collectLoop E g ctx collectConfig arrivals sessions errors w
      = ((res, err), w') ->
    forall s, s ∈ res ->
      s ∈ sessions
      \/ exists path info w0 w1,
           path ∈ arrivals
           /\ FileReader.Stat (Gemini.ImprovedGeminiCLICollector.fileReader g) path
              = inl info
           /\ FileInfo.Size info <= Gemini.maxFileSize
           /\ Gemini.parseSessionFileSafe E g path collectConfig w0 = ((Some s, None), w1).
Proof.
  induction arrivals as [|path rest IH]; intros sessions errors w res err w' Hrun s Hs.
  - change (Gemini.closeLoop ctx 2 sessions errors w = (res, err, w')) in Hrun.
    apply gemini_closeLoop_result in Hrun as [-> | ->].
    + by apply elem_of_nil in Hs.
    + by left.
  - simpl in Hrun. unfold bind at 1 in Hrun. unfold Done in Hrun.
    destruct (ctx (World.polls w)).
    { inversion Hrun; subst. by apply elem_of_nil in Hs. }
    unfold bind in Hrun.
    destruct (Gemini.parseSessionFileSafe E g path collectConfig _)
      as [[session perr] w1] eqn:Hparse.
    destruct perr as [e|]; [|destruct session as [session|]].
    + assert (Hrun' : Gemini.collectLoop E g ctx collectConfig rest sessions
                        (errors ++ [Errorf_w ("failed to parse session file "
                                              +:+ path +:+ ": ") e]) w1
                      = (res, err, w')) by (destruct session; exact Hrun).
      destruct (IH _ _ _ _ _ _ Hrun' s Hs) as [?|(p & i & w0 & w2 & Hin & H)]; [by left|].
      right. exists p, i, w0, w2. split; [by right|exact H].
    + destruct (IH _ _ _ _ _ _ Hrun s Hs) as [Hin|(p & i & w0 & w2 & Hin & H)].
      * apply elem_of_app in Hin as [Hin|Hin]; [by left|].
        apply list_elem_of_singleton in Hin as ->.
        destruct (gemini_session_parsed_small _ _ _ _ _ _ Hparse) as (info & Hst & Hsz).
        right. eexists path, info, _, _. split_and!; [by left|done|done|exact Hparse].
      * right. exists p, i, w0, w2. split; [by right|exact H].
    + destruct (IH _ _ _ _ _ _ Hrun s Hs) as [?|(p & i & w0 & w2 & Hin & H)]; [by left|].
      right. exists p, i, w0, w2. split; [by right|exact H].
Qed.

Lemma gemini_session_dir_provenance g ctx collectConfig w res err w' :
  Gemini.collectFromSessionDirConcurrent E g ctx collectConfig w = ((res, err), w') ->
  forall s, s ∈ res ->
    exists path info w0 w1,
      FileReader.Stat (Gemini.ImprovedGeminiCLICollector.fileReader g) path = inl info
      /\ FileInfo.Size info <= Gemini.maxFileSize
      /\ Gemini.parseSessionFileSafe E g path collectConfig w0 = ((Some s, None), w1).
Proof.
  unfold Gemini.collectFromSessionDirConcurrent.
  destruct (config.ExpandPath E _) as [sessionDirPath [e|]].
  { inversion 1; subst. intros s Hs. by apply elem_of_nil in Hs. }
  destruct (Gemini.walkLoop _ []) as [filePaths [e|]].
  { inversion 1; subst. intros s Hs. by apply elem_of_nil in Hs. }
  destruct (Gemini.min _ =? 0).
  { inversion 1; subst. intros s Hs. by apply elem_of_nil in Hs. }
  unfold bind. destruct (schedule E filePaths w) as [arrivals w1].
  intros Hrun s Hs.
  destruct (gemini_collectLoop_provenance _ _ _ _ _ _ _ _ _ _ Hrun s Hs)
    as [Hin|(p & i & w0 & w2 & _ & H)].
  - by apply elem_of_nil in Hin.
  - exists p, i, w0, w2. exact H.
Qed.

Lemma amazonq_history_too_large a ctx collectConfig w historyPath info :
  config.ExpandPath E (config.CLIToolConfig.HistoryFile
                         (AmazonQ.AmazonQCollector.config a))
    = (historyPath, None) ->
  FileReader.Stat (AmazonQ.AmazonQCollector.fileReader a) historyPath = inl info ->
  FileInfo.Size info > AmazonQ.amazonQMaxFileSize ->
  exists err,
    AmazonQ.collectFromHistoryWithRetry E a ctx collectConfig w = (([], Some err), w)
    /\ forall allSessions errs,
         exists errs',
           AmazonQ.runBranch E a ctx collectConfig AmazonQ.History (allSessions, errs) w
           = ((allSessions, errs'), w).
Proof.
  intros Hexp Hstat Hsize.
  assert (Hgt : (FileInfo.Size info >? AmazonQ.amazonQMaxFileSize) = true)
    by (apply Z.gtb_lt; lia).
  assert (Hrun : exists err,
             AmazonQ.collectFromHistoryWithRetry E a ctx collectConfig w
             = (([], Some err), w)).
  { unfold AmazonQ.collectFromHistoryWithRetry. rewrite Hexp, Hstat, Hgt.
    eexists. reflexivity. }
  destruct Hrun as [err Hrun]. exists err. split; [exact Hrun|].
  intros allSessions errs. unfold AmazonQ.runBranch, bind. rewrite Hrun.
  eexists. reflexivity.
Qed.

Lemma amazonq_session_too_large a path collectConfig w info :
  FileReader.Stat (AmazonQ.AmazonQCollector.fileReader a) path = inl info ->
  FileInfo.Size info > AmazonQ.amazonQMaxFileSize ->
  exists err, AmazonQ.parseSessionFileSafe E a path collectConfig w = ((None, Some err), w).
Proof.
  intros Hstat Hsize.
  unfold AmazonQ.parseSessionFileSafe. rewrite Hstat.
  assert (Hgt : (FileInfo.Size info >? AmazonQ.amazonQMaxFileSize) = true)
    by (apply Z.gtb_lt; lia).
  rewrite Hgt. eexists. reflexivity.
Qed.

Lemma amazonq_session_parsed_small a path collectConfig w s w' :
  AmazonQ.parseSessionFileSafe E a path collectConfig w = ((Some s, None), w') ->
  exists info,
    FileReader.Stat (AmazonQ.AmazonQCollector.fileReader a) path = inl info
    /\ FileInfo.Size info <= AmazonQ.amazonQMaxFileSize.
Proof.
  unfold AmazonQ.parseSessionFileSafe.
  destruct (FileReader.Stat _ path) as [info|e]; [|discriminate].
  destruct (Z.gtb_spec (FileInfo.Size info) AmazonQ.amazonQMaxFileSize); [discriminate|].
  intros _. exists info. split; [done|lia].
Qed.

Lemma amazonq_closeLoop_result ctx n sessions errors w res err w' :
  AmazonQ.closeLoop ctx n sessions errors w = ((res, err), w') ->
  res = [] \/ res = sessions.
Proof.
  revert w. induction n as [|n IH]; intros w; simpl; unfold bind.
  - destruct (AmazonQ.logErrors _ errors w) as [[] w1]. unfold ret.
    inversion 1; auto.
  - unfold Done. destruct (ctx (World.polls w)); [inversion 1; auto|].
    apply IH.
Qed.

Lemma amazonq_collectLoop_provenance a ctx collectConfig arrivals :
  forall sessions errors w res err w',
    AmazonQ.collectLoop E a ctx collectConfig arrivals sessions errors w
      = ((res, err), w') ->
    forall s, s ∈ res ->
      s ∈ sessions
      \/ exists path info w0 w1,
           path ∈ arrivals
           /\ FileReader.Stat (AmazonQ.AmazonQCollector.fileReader a) path = inl info
           /\ FileInfo.Size info <= AmazonQ.amazonQMaxFileSize
           /\ AmazonQ.parseSessionFileSafe E a path collectConfig w0 = ((Some s, None), w1).
Proof.
  induction arrivals as [|path rest IH]; intros sessions errors w res err w' Hrun s Hs.
  - change (AmazonQ.closeLoop ctx 2 sessions errors w = (res, err, w')) in Hrun.
    apply amazonq_closeLoop_result in Hrun as [-> | ->].
    + by apply elem_of_nil in Hs.
    + by left.
  - simpl in Hrun. unfold bind at 1 in Hrun. unfold Done in Hrun.
    destruct (ctx (World.polls w)).
    { inversion Hrun; subst. by apply elem_of_nil in Hs. }
    unfold bind in Hrun.
    destruct (AmazonQ.parseSessionFileSafe E a path collectConfig _)
      as [[session perr] w1] eqn:Hparse.
    destruct perr as [e|]; [|destruct session as [session|]].
    + assert (Hrun' : AmazonQ.collectLoop E a ctx collectConfig rest sessions
                        (errors ++ [Errorf_w ("failed to parse Amazon Q session file "
                                              +:+ path +:+ ": ") e]) w1
                      = (res, err, w')) by (destruct session; exact Hrun).
      destruct (IH _ _ _ _ _ _ Hrun' s Hs) as [?|(p & i & w0 & w2 & Hin & H)]; [by left|].
      right. exists p, i, w0, w2. split; [by right|exact H].
    + destruct (IH _ _ _ _ _ _ Hrun s Hs) as [Hin|(p & i & w0 & w2 & Hin & H)].
      * apply elem_of_app in Hin as [Hin|Hin]; [by left|].
        apply list_elem_of_singleton in Hin as ->.
        destruct (amazonq_session_parsed_small _ _ _ _ _ _ Hparse) as (info & Hst & Hsz).
        right. eexists path, info, _, _. split_and!; [by left|done|done|exact Hparse].
      * right. exists p, i, w0, w2. split; [by right|exact H].
    + destruct (IH _ _ _ _ _ _ Hrun s Hs) as [?|(p & i & w0 & w2 & Hin & H)]; [by left|].
      right. exists p, i, w0, w2. split; [by right|exact H].
Qed.

Lemma amazonq_session_dir_provenance a ctx collectConfig w res err w' :
  AmazonQ.collectFromSessionDirConcurrent E a ctx collectConfig w = ((res, err), w') ->
  forall s, s ∈ res ->
    exists path info w0 w1,
      FileReader.Stat (AmazonQ.AmazonQCollector.fileReader a) path = inl info
      /\ FileInfo.Size info <= AmazonQ.amazonQMaxFileSize
      /\ AmazonQ.parseSessionFileSafe E a path collectConfig w0 = ((Some s, None), w1).
Proof.
  unfold AmazonQ.collectFromSessionDirConcurrent.
  destruct (config.ExpandPath E _) as [sessionDirPath [e|]].
  { inversion 1; subst. intros s Hs. by apply elem_of_nil in Hs. }
  destruct (IsNotExist _).
  { unfold bind, log, ret. inversion 1; subst. intros s Hs. by apply elem_of_nil in Hs. }
  destruct (AmazonQ.walkLoop _ _ []) as [filePaths [e|]].
  { inversion 1; subst. intros s Hs. by apply elem_of_nil in Hs. }
  destruct (AmazonQ.minInts _ =? 0).
  { inversion 1; subst. intros s Hs. by apply elem_of_nil in Hs. }
  unfold bind. destruct (schedule E filePaths w) as [arrivals w1].
  intros Hrun s Hs.
  destruct (amazonq_collectLoop_provenance _ _ _ _ _ _ _ _ _ _ Hrun s Hs)
    as [Hin|(p & i & w0 & w2 & _ & H)].
  - by apply elem_of_nil in Hin.
  - exists p, i, w0, w2. exact H.
Qed.

End SizeCap.

(** C6.  In the Gemini CLI and the Amazon Q collectors a file larger
    than 100MB is refused with an error before any of its content is
    read, and it adds no record to the result.  For the history file:
    the history branch returns the error and no record, and the
    goroutine of [Collect] leaves the merged list as it was.  For a
    file of the session directory: [parseSessionFileSafe] returns the
    error and no record, and every record the session pipeline returns
    was parsed from a file whose size is within the cap. *)
Theorem C6_oversized_file_rejected :
  forall (E : Env.t) (g : Gemini.ImprovedGeminiCLICollector.t)
         (a : AmazonQ.AmazonQCollector.t) (ctx : Context)
         (collectConfig : CollectionConfig.t) (w : World.t),
    Gemini.maxFileSize = 100 * 1024 * 1024
    /\ AmazonQ.amazonQMaxFileSize = 100 * 1024 * 1024
    /\ (forall historyPath info,
           config.ExpandPath E (config.CLIToolConfig.HistoryFile
                                  (Gemini.ImprovedGeminiCLICollector.config g))
             = (historyPath, None) ->
           FileReader.Stat (Gemini.ImprovedGeminiCLICollector.fileReader g) historyPath
             = inl info ->
           FileInfo.Size info > Gemini.maxFileSize ->
           exists err,
             Gemini.collectFromHistoryWithRetry E g ctx collectConfig w
               = (([], Some err), w)
             /\ forall allSessions errs,
                  exists errs',
                    Gemini.runBranch E g ctx collectConfig Gemini.History
                      (allSessions, errs) w = ((allSessions, errs'), w))
    /\ (forall path info,
           FileReader.Stat (Gemini.ImprovedGeminiCLICollector.fileReader g) path
             = inl info ->
           FileInfo.Size info > Gemini.maxFileSize ->
           exists err,
             Gemini.parseSessionFileSafe E g path collectConfig w = ((None, Some err), w))
    /\ (forall res err w',
           Gemini.collectFromSessionDirConcurrent E g ctx collectConfig w
             = ((res, err), w') ->
           forall s, s ∈ res ->
             exists path info w0 w1,
               FileReader.Stat (Gemini.ImprovedGeminiCLICollector.fileReader g) path
                 = inl info
               /\ FileInfo.Size info <= Gemini.maxFileSize
               /\ Gemini.parseSessionFileSafe E g path collectConfig w0
                  = ((Some s, None), w1))
    /\ (forall historyPath info,
           config.ExpandPath E (config.CLIToolConfig.HistoryFile
                                  (AmazonQ.AmazonQCollector.config a))
             = (historyPath, None) ->
           FileReader.Stat (AmazonQ.AmazonQCollector.fileReader a) historyPath
             = inl info ->
           FileInfo.Size info > AmazonQ.amazonQMaxFileSize ->
           exists err,
             AmazonQ.collectFromHistoryWithRetry E a ctx collectConfig w
               = (([], Some err), w)
             /\ forall allSessions errs,
                  exists errs',
                    AmazonQ.runBranch E a ctx collectConfig AmazonQ.History
                      (allSessions, errs) w = ((allSessions, errs'), w))
    /\ (forall path info,
           FileReader.Stat (AmazonQ.AmazonQCollector.fileReader a) path = inl info ->
           FileInfo.Size info > AmazonQ.amazonQMaxFileSize ->
           exists err,
             AmazonQ.parseSessionFileSafe E a path collectConfig w = ((None, Some err), w))
    /\ (forall res err w',
           AmazonQ.collectFromSessionDirConcurrent E a ctx collectConfig w
             = ((res, err), w') ->
           forall s, s ∈ res ->
             exists path info w0 w1,
               FileReader.Stat (AmazonQ.AmazonQCollector.fileReader a) path = inl info
               /\ FileInfo.Size info <= AmazonQ.amazonQMaxFileSize
               /\ AmazonQ.parseSessionFileSafe E a path collectConfig w0
                  = ((Some s, None), w1)).
Proof.
  intros E g a ctx collectConfig w. split_and!; [reflexivity|reflexivity|..].
  - intros historyPath info. apply gemini_history_too_large.
  - intros path info. apply gemini_session_too_large.
  - intros res err w'. apply gemini_session_dir_provenance.
  - intros historyPath info. apply amazonq_history_too_large.
  - intros path info. apply amazonq_session_too_large.
  - intros res err w'. apply amazonq_session_dir_provenance.
Qed.

(** C6 at the example host with its two files reported 200MB large:
    the history branch of the Gemini CLI collector and the parse of
    the session file both return an error and no record, and [Collect]
    returns nothing. *)
Lemma C6_oversized_file_witness :
  (exists err,
      Gemini.collectFromHistoryWithRetry Example.env Example.geminiBig Background
        Example.request World.init = (([], Some err), World.init))
  /\ (exists err,
         Gemini.parseSessionFileSafe Example.env Example.geminiBig Example.sessionPath
           Example.request World.init = ((None, Some err), World.init))
  /\ (Gemini.Collect Example.env Example.geminiBig Background
        (Some Example.request) World.init).1 = ([], None).
Proof.
  destruct (C6_oversized_file_rejected Example.env Example.geminiBig Example.amazonQBig
              Background Example.request World.init)
    as (_ & _ & Hhist & Hsess & _).
  split_and!.
  - destruct (Hhist Example.historyPath
                (FileInfo.mk "history.jsonl" 209715200 false Example.newYear2024)
                eq_refl eq_refl eq_refl) as (err & H & _).
    exists err. exact H.
  - apply (Hsess Example.sessionPath
             (FileInfo.mk "s1.json" 209715200 false Example.newYear2024)
             eq_refl eq_refl).
  - vm_compute. reflexivity.
Defined.

(** ** The top-level orchestrator *)

Section Orchestrator.
Context (registry : Factory.Registry) (ctx : Context)
        (collectionConfig : CollectionConfig.t)
        (configs : gmap CollectionSource Factory.ConfigValue).

Lemma collectSource_fails source result w :
  Spec.SourceFails registry ctx collectionConfig configs source w ->
  exists msg w',
    Factory.collectSource registry ctx collectionConfig configs source result w
    = (Returned (Factory.addError result msg), w').
Proof.
  unfold Factory.collectSource, Factory.GetCollector.
  intros [Hc|[Hr|(config & constructor & sessions & err & w' & Hc & Hr & Hrun)]].
  - rewrite Hc. eexists _, _. reflexivity.
  - destruct (configs !! source); rewrite ?Hr; eexists _, _; reflexivity.
  - rewrite Hc, Hr. unfold bind. rewrite Hrun. eexists _, _. reflexivity.
Qed.

Lemma collectSource_cases source result w :
  Spec.CollectorsReturn registry ctx collectionConfig ->
  exists w',
    (exists msg,
        Factory.collectSource registry ctx collectionConfig configs source result w
        = (Returned (Factory.addError result msg), w'))
    \/ (exists sessions,
           is_Some (configs !! source) /\ is_Some (registry !! source)
           /\ Factory.collectSource registry ctx collectionConfig configs source result w
              = (Returned (Factory.addSessions result source sessions), w')).
Proof.
  intros Hret. unfold Factory.collectSource, Factory.GetCollector.
  destruct (configs !! source) as [config|] eqn:Hc.
  2: { eexists. left. eexists. reflexivity. }
  destruct (registry !! source) as [constructor|] eqn:Hr.
  2: { eexists. left. eexists. reflexivity. }
  destruct (Hret source constructor config w Hr) as ([sessions err] & w' & Hrun).
  unfold bind. rewrite Hrun. exists w'.
  destruct err as [err|].
  - left. eexists. reflexivity.
  - right. exists sessions. split_and!; eauto.
Qed.

Lemma sourcesLoop_returns sources :
  Spec.CollectorsReturn registry ctx collectionConfig ->
  forall result w,
    exists result' w' added,
      Factory.sourcesLoop registry ctx collectionConfig configs sources result w
        = (Returned result', w')
      /\ (length (CollectionResult.Errors result')
          + length (CollectionResult.Sources result')
          = length (CollectionResult.Errors result)
            + length (CollectionResult.Sources result) + length sources)%nat
      /\ CollectionResult.Sources result' = CollectionResult.Sources result ++ added
      /\ added `sublist_of` sources
      /\ Forall (fun source => is_Some (configs !! source)
                               /\ is_Some (registry !! source)) added
      /\ CollectionResult.Errors result `prefix_of` CollectionResult.Errors result'
      /\ CollectionResult.Sessions result `prefix_of` CollectionResult.Sessions result'.
Proof.
  intros Hret.
  induction sources as [|source rest IH]; intros result w.
  - exists result, w, []. simpl. split_and!; try done; try lia.
    by rewrite app_nil_r.
  - simpl. unfold bind.
    destruct (collectSource_cases source result w Hret)
      as (w1 & [(msg & Hstep)|(sessions & Hc & Hr & Hstep)]); rewrite Hstep.
    + destruct (IH (Factory.addError result msg) w1)
        as (result' & w' & added & Hrun & Hcount & Hsrc & Hsub & Hall & Hpe & Hps).
      exists result', w', added. simpl in *. split_and!; try done.
      * rewrite Hcount, length_app. simpl. lia.
      * by apply sublist_cons.
      * etrans; [|exact Hpe]. by apply prefix_app_r.
    + destruct (IH (Factory.addSessions result source sessions) w1)
        as (result' & w' & added & Hrun & Hcount & Hsrc & Hsub & Hall & Hpe & Hps).
      exists result', w', (source :: added). simpl in *. split_and!; try done.
      * rewrite Hcount, length_app. simpl. lia.
      * rewrite Hsrc, <- app_assoc. reflexivity.
      * by apply sublist_skip.
      * by constructor.
      * etrans; [|exact Hps]. by apply prefix_app_r.
Qed.

End Orchestrator.

Lemma bind_run {A B} (m : M A) (k : A -> M B) (w : World.t) :
  bind m k w = k (m w).1 (m w).2.
Proof. unfold bind. destruct (m w). reflexivity. Qed.

(** [Collect] of the Claude Code collector returns for every request
    that is not nil. *)
Lemma claude_Collect_returns E c ctx collectionConfig w :
  exists r w',
    Claude.Collect E c ctx (Some collectionConfig) w = (Returned r, w').
Proof.
  unfold Claude.Collect.
  rewrite bind_run. unfold Done. cbn [fst snd].
  destruct (ctx (World.polls w)); [eexists _, _; reflexivity|].
  destruct (config.ExpandPath E _) as [configDir [e|]]; [eexists _, _; reflexivity|].
  destruct (IsNotExist _); [eexists _, _; reflexivity|].
  rewrite bind_run.
  match goal with
  | |- context [(?m ?w0).1] => generalize (m w0); intros [sessions w1]
  end.
  cbn [fst snd]. rewrite bind_run. cbn [fst snd].
  destruct (ctx (World.polls w1)); [eexists _, _; reflexivity|].
  rewrite bind_run.
  match goal with
  | |- context [(?m ?w0).1] => generalize (m w0); intros [sessions' w2]
  end.
  cbn [fst snd].
  destruct (CollectionConfig.DateRange collectionConfig);
    eexists _, _; reflexivity.
Qed.

Lemma initRegistry_returns E ctx collectionConfig :
  Spec.CollectorsReturn (Factory.initRegistry E) ctx collectionConfig.
Proof.
  intros source constructor config w Hlook.
  unfold Factory.initRegistry, Factory.Register in Hlook.
  apply lookup_insert_Some in Hlook as [[_ <-]|[_ Hlook]].
  - unfold Factory.amazonQCollector. cbn [Factory.Collector.Collect]. unfold bind.
    match goal with
    | |- context [AmazonQ.Collect ?e ?a ?c ?r ?w0] =>
        destruct (AmazonQ.Collect e a c r w0) as [r0 w']
    end.
    eexists _, _. reflexivity.
  - apply lookup_insert_Some in Hlook as [[_ <-]|[_ Hlook]].
    + unfold Factory.geminiCollector. cbn [Factory.Collector.Collect]. unfold bind.
      match goal with
      | |- context [Gemini.Collect ?e ?a ?c ?r ?w0] =>
          destruct (Gemini.Collect e a c r w0) as [r0 w']
      end.
      eexists _, _. reflexivity.
    + by rewrite lookup_empty in Hlook.
Qed.

(** C9.  Provided no collector of the registry panics, the orchestrator
    returns a result that is not nil, with a nil error, for every list
    of requested sources.  [TotalCount] is the number of merged
    records.  Each requested source adds one error string or one entry
    to the collected sources, never both and never none, so the two
    lists together are as long as the request; the collected sources
    are requested sources, in the order of the request, each with a
    configuration and a registered constructor.  And at a source that
    fails (no configuration, no registered constructor, or an error
    from its collector) the loop appends one error string, leaves
    records and sources as they were, and goes on with the sources that
    remain. *)
Theorem C9_orchestrator_isolates_failures :
  forall (E : Env.t) (registry : Factory.Registry) (ctx : Context)
         (collectionConfig : CollectionConfig.t)
         (configs : gmap CollectionSource Factory.ConfigValue) (w : World.t),
    Spec.CollectorsReturn registry ctx collectionConfig ->
    (exists result w',
        Factory.CollectAllSources E registry ctx (Some collectionConfig) configs w
          = (Returned (Some result, None), w')
        /\ CollectionResult.TotalCount result
           = Z.of_nat (length (CollectionResult.Sessions result))
        /\ (length (CollectionResult.Errors result)
            + length (CollectionResult.Sources result)
            = length (CollectionConfig.Sources collectionConfig))%nat
        /\ CollectionResult.Sources result
             `sublist_of` CollectionConfig.Sources collectionConfig
        /\ Forall (fun source => is_Some (configs !! source)
                                 /\ is_Some (registry !! source))
                  (CollectionResult.Sources result))
    /\ (forall source rest result w0,
           Spec.SourceFails registry ctx collectionConfig configs source w0 ->
           exists msg w1,
             Factory.sourcesLoop registry ctx collectionConfig configs
               (source :: rest) result w0
             = Factory.sourcesLoop registry ctx collectionConfig configs rest
                 (Factory.addError result msg) w1
             /\ CollectionResult.Errors (Factory.addError result msg)
                = CollectionResult.Errors result ++ [msg]
             /\ CollectionResult.Sessions (Factory.addError result msg)
                = CollectionResult.Sessions result
             /\ CollectionResult.Sources (Factory.addError result msg)
                = CollectionResult.Sources result).
Proof.
  intros E registry ctx collectionConfig configs w Hret. split.
  - unfold Factory.CollectAllSources, bind, Now.
    destruct (sourcesLoop_returns registry ctx collectionConfig configs
                (CollectionConfig.Sources collectionConfig) Hret
                (CollectionResult.mk [] 0 [] (Env.clock E (World.ticks w)) 0 [])
                (World.mk (S (World.ticks w)) (World.polls w) (World.steps w)
                          (World.logs w)))
      as (result' & w' & added & Hrun & Hcount & Hsrc & Hsub & Hall & _ & _).
    rewrite Hrun. eexists _, _. split; [reflexivity|].
    simpl in *. subst. split_and!; try done.
  - intros source rest result w0 Hfail.
    destruct (collectSource_fails registry ctx collectionConfig configs
                source result w0 Hfail) as (msg & w1 & Hstep).
    exists msg, w1. simpl. unfold bind. rewrite Hstep.
    split_and!; reflexivity.
Qed.

(** C9 at the example host, for a request of four sources of which
    one has no configuration and one is not registered: the
    orchestrator returns a result with two error strings and two
    collected sources. *)
Lemma C9_orchestrator_witness :
  exists result w',
    Factory.CollectAllSources Example.env (Factory.initRegistry Example.env)
      Background (Some Example.mixedRequest) Example.configs World.init
    = (Returned (Some result, None), w')
    /\ CollectionResult.TotalCount result
       = Z.of_nat (length (CollectionResult.Sessions result))
    /\ (length (CollectionResult.Errors result)
        + length (CollectionResult.Sources result) = 4)%nat.
Proof.
  destruct (C9_orchestrator_isolates_failures Example.env
              (Factory.initRegistry Example.env) Background Example.mixedRequest
              Example.configs World.init
              (initRegistry_returns Example.env Background Example.mixedRequest))
    as ((result & w' & Hrun & Hcount & Hlen & _) & _).
  exists result, w'. split_and!; [exact Hrun|exact Hcount|exact Hlen].
Defined.

(** The same run, computed: the sources collected and the two error
    strings. *)
Lemma orchestrator_example_run :
  let r := (Factory.CollectAllSources Example.env (Factory.initRegistry Example.env)
              Background (Some Example.mixedRequest) Example.configs World.init).1 in
  match r with
  | Returned (Some result, None) =>
      CollectionResult.Sources result = [SourceGeminiCLI; SourceAmazonQ]
      /\ CollectionResult.Errors result
         = ["소스 'unknown'에 대한 설정이 없습니다";
            "소스 'claude_code'의 collector 생성 실패: no collector registered for source: claude_code"]
      /\ CollectionResult.TotalCount result = 6
  | _ => False
  end.
Proof. vm_compute. repeat split. Qed.

(** * Further properties of the code *)

(** ** The records of a collector *)

Section GeminiRecords.
Context (E : Env.t).

Lemma gemini_parseHistoryLine_record line lineNum w o err w' :
  Gemini.parseHistoryLine E line lineNum w = ((o, err), w') ->
  forall s, o = Some s -> Props.recordOf SourceGeminiCLI s.
Proof.
  unfold Gemini.parseHistoryLine, Gemini.parseJSONHistoryEntry,
    Gemini.parseTextHistoryEntry, Gemini.convertHistoryEntryToSession, bind, ret, Now.
  destruct (strings.HasPrefix line "{").
  - destruct (decodeStruct _ _ _ _ _) as [entry [e|]]; intros Hrun s ->;
      inversion Hrun; subst; repeat split.
  - destruct (strings.len (strings.TrimSpace line) =? 0); intros Hrun s ->;
      inversion Hrun; subst; repeat split.
Qed.

Lemma gemini_scanLoop_records_of ctx scanErr lines :
  forall lineNum taken sessions w res err w',
    Forall (Props.recordOf SourceGeminiCLI) sessions ->
    Gemini.scanLoop E ctx scanErr lines lineNum taken sessions w = ((res, err), w') ->
    Forall (Props.recordOf SourceGeminiCLI) res.
Proof.
  induction lines as [|text rest IH]; intros lineNum taken sessions w res err w' Hall Hrun.
  - simpl in Hrun. destruct (scanErr taken); inversion Hrun; subst; auto.
  - simpl in Hrun. unfold bind, Done in Hrun.
    destruct (ctx (World.polls w)) as [e|].
    { inversion Hrun; subst; auto. }
    destruct (isEmpty (strings.TrimSpace text)).
    { eapply IH; eauto. }
    destruct (Gemini.parseHistoryLine E _ _ _) as [[session perr] w1] eqn:Hparse.
    destruct perr as [e|].
    { unfold log in Hrun. eapply IH; eauto. }
    assert (Hall' : Forall (Props.recordOf SourceGeminiCLI)
                      (match session with
                       | Some s => sessions ++ [s]
                       | None => sessions
                       end)).
    { destruct session as [s|]; [|done].
      apply Forall_app. split; [done|]. constructor; [|done].
      eapply gemini_parseHistoryLine_record; eauto. }
    destruct (_ >=? _).
    + unfold log in Hrun.
      destruct (scanErr (S taken)); inversion Hrun; subst; auto.
    + eapply IH; eauto.
Qed.


Lemma gemini_history_records_of g ctx collectConfig w res err w' :
  Gemini.collectFromHistoryWithRetry E g ctx collectConfig w = ((res, err), w') ->
  Forall (Props.recordOf SourceGeminiCLI) res.
Proof.
  unfold Gemini.collectFromHistoryWithRetry, Gemini.parseHistoryFileStreaming.
  destruct (config.ExpandPath E _) as [historyPath [e|]].
  { inversion 1; subst; auto. }
  destruct (FileReader.Stat _ _) as [info|e].
  2: { inversion 1; subst; auto. }
  destruct (_ >? _).
  { inversion 1; subst; auto. }
  destruct (Env.os_Open E historyPath) as [file|e].
  2: { inversion 1; subst; auto. }
  apply gemini_scanLoop_records_of. constructor.
Qed.

Lemma gemini_parseSessionFileSafe_record g path collectConfig w s err w' :
  Gemini.parseSessionFileSafe E g path collectConfig w = ((Some s, err), w') ->
  Props.recordOf SourceGeminiCLI s.
Proof.
  unfold Gemini.parseSessionFileSafe, Gemini.parseTextSession,
    Gemini.convertGeminiSessionToModel, bind, ret, Now.
  destruct (FileReader.Stat _ _) as [info|e]; [|inversion 1].
  destruct (_ >? _); [inversion 1|].
  destruct (FileReader.ReadFile _ _) as [data|e]; [|inversion 1].
  destruct (Env.json_Unmarshal_Gemini E data); inversion 1; subst; repeat split.
Qed.

Lemma gemini_session_dir_records_of g ctx collectConfig w res err w' :
  Gemini.collectFromSessionDirConcurrent E g ctx collectConfig w = ((res, err), w') ->
  Forall (Props.recordOf SourceGeminiCLI) res.
Proof.
  intros Hrun. apply Forall_forall. intros s Hs.
  destruct (gemini_session_dir_provenance E g ctx collectConfig w res err w' Hrun s Hs)
    as (path & info & w0 & w1 & _ & _ & Hparse).
  eapply gemini_parseSessionFileSafe_record; eauto.
Qed.

Lemma gemini_runBranch_records_of g ctx collectConfig b allSessions errs w all' errs' w' :
  Forall (Props.recordOf SourceGeminiCLI) allSessions ->
  Gemini.runBranch E g ctx collectConfig b (allSessions, errs) w = ((all', errs'), w') ->
  Forall (Props.recordOf SourceGeminiCLI) all'.
Proof.
  intros Hall. unfold Gemini.runBranch, bind. destruct b.
  - destruct (Gemini.collectFromHistoryWithRetry E g ctx collectConfig w)
      as [[sessions [e|]] w1] eqn:Hrun; inversion 1; subst; [done|].
    apply Forall_app. split; [done|]. eapply gemini_history_records_of; eauto.
  - destruct (Gemini.collectFromSessionDirConcurrent E g ctx collectConfig w)
      as [[sessions [e|]] w1] eqn:Hrun; inversion 1; subst; [done|].
    apply Forall_app. split; [done|]. eapply gemini_session_dir_records_of; eauto.
Qed.

Lemma gemini_runBranches_records_of g ctx collectConfig order :
  forall allSessions errs w all' errs' w',
    Forall (Props.recordOf SourceGeminiCLI) allSessions ->
    Gemini.runBranches E g ctx collectConfig order (allSessions, errs) w
      = ((all', errs'), w') ->
    Forall (Props.recordOf SourceGeminiCLI) all'.
Proof.
  induction order as [|b rest IH]; intros allSessions errs w all' errs' w' Hall.
  - inversion 1; subst; done.
  - cbn [Gemini.runBranches]. rewrite bind_run.
    destruct (Gemini.runBranch E g ctx collectConfig b (allSessions, errs) w)
      as [[all1 errs1] w1] eqn:Hb.
    cbn [fst snd]. intros Hrest. eapply IH; [|exact Hrest].
    eapply gemini_runBranch_records_of; eauto.
Qed.

Lemma retainedSessions_Forall (P : SessionData.t -> Prop) sessions dateRange :
  Forall P sessions -> Forall P (Spec.retainedSessions sessions dateRange).
Proof.
  unfold Spec.retainedSessions. intros Hall.
  apply Forall_forall. intros s Hs. apply list_elem_of_filter in Hs as [_ Hs].
  rewrite Forall_forall in Hall. auto.
Qed.

Lemma gemini_Collect_records_of g ctx collectConfig w :
  Forall (Props.recordOf SourceGeminiCLI) (Gemini.Collect E g ctx collectConfig w).1.1.
Proof.
  unfold Gemini.Collect. destruct collectConfig as [collectConfig|]; [|constructor].
  destruct (Gemini.validateConfigDirectory E g); [constructor|].
  unfold bind.
  destruct (schedule E (Gemini.branches g) w) as [order w1].
  destruct (Gemini.runBranches E g _ collectConfig order ([], []) w1)
    as [[allSessions errs] w2] eqn:Hrun.
  destruct (Gemini.logErrors _ errs w2) as [[] w3]. simpl.
  apply gemini_runBranches_records_of in Hrun; [|constructor].
  destruct (CollectionConfig.DateRange collectConfig) as [dr|]; [|done].
  simpl. rewrite gemini_filterLoop_spec. simpl.
  by apply retainedSessions_Forall.
Qed.

End GeminiRecords.

Section AmazonQRecords.
Context (E : Env.t).

Lemma amazonq_parseHistoryLine_record line lineNum w o err w' :
  AmazonQ.parseHistoryLine E line lineNum w = ((o, err), w') ->
  forall s, o = Some s -> Props.recordOf SourceAmazonQ s.
Proof.
  unfold AmazonQ.parseHistoryLine, AmazonQ.parseJSONHistoryEntry,
    AmazonQ.parseTextHistoryEntry, AmazonQ.convertHistoryEntryToSession, bind, ret, Now.
  destruct (strings.HasPrefix line "{").
  - destruct (decodeStruct _ _ _ _ _) as [entry [e|]]; intros Hrun s ->;
      inversion Hrun; subst; repeat split.
  - destruct (strings.len (strings.TrimSpace line) =? 0); intros Hrun s ->;
      inversion Hrun; subst; repeat split.
Qed.

Lemma amazonq_linesLoop_records_of ctx lines :
  forall lineNum sessions w res err w',
    Forall (Props.recordOf SourceAmazonQ) sessions ->
    AmazonQ.linesLoop E ctx lines lineNum sessions w = ((res, err), w') ->
    Forall (Props.recordOf SourceAmazonQ) res.
Proof.
  induction lines as [|text rest IH]; intros lineNum sessions w res err w' Hall Hrun.
  - simpl in Hrun. inversion Hrun; subst; auto.
  - simpl in Hrun. unfold bind, Done in Hrun.
    destruct (ctx (World.polls w)) as [e|].
    { inversion Hrun; subst; auto. }
    destruct (isEmpty (strings.TrimSpace text)).
    { eapply IH; eauto. }
    destruct (AmazonQ.parseHistoryLine E _ _ _) as [[session perr] w1] eqn:Hparse.
    destruct perr as [e|].
    { unfold log in Hrun. eapply IH; eauto. }
    assert (Hall' : Forall (Props.recordOf SourceAmazonQ)
                      (match session with
                       | Some s => sessions ++ [s]
                       | None => sessions
                       end)).
    { destruct session as [s|]; [|done].
      apply Forall_app. split; [done|]. constructor; [|done].
      eapply amazonq_parseHistoryLine_record; eauto. }
    destruct (_ >=? _).
    + unfold log, ret in Hrun. inversion Hrun; subst; auto.
    + eapply IH; eauto.
Qed.

Lemma amazonq_history_records_of a ctx collectConfig w res err w' :
  AmazonQ.collectFromHistoryWithRetry E a ctx collectConfig w = ((res, err), w') ->
  Forall (Props.recordOf SourceAmazonQ) res.
Proof.
  unfold AmazonQ.collectFromHistoryWithRetry, AmazonQ.parseHistoryFileStreaming.
  destruct (config.ExpandPath E _) as [historyPath [e|]].
  { inversion 1; subst; auto. }
  destruct (FileReader.Stat _ _) as [info|e].
  2: { destruct (IsNotExist _); unfold bind, log, ret; inversion 1; subst; auto. }
  destruct (_ >? _).
  { inversion 1; subst; auto. }
  destruct (FileReader.ReadFile _ _) as [content|e].
  2: { inversion 1; subst; auto. }
  apply amazonq_linesLoop_records_of. constructor.
Qed.

Lemma amazonq_parseSessionFileSafe_record a path collectConfig w s err w' :
  AmazonQ.parseSessionFileSafe E a path collectConfig w = ((Some s, err), w') ->
  Props.recordOf SourceAmazonQ s.
Proof.
  unfold AmazonQ.parseSessionFileSafe, AmazonQ.parseTextSession,
    AmazonQ.convertAmazonQSessionToModel, bind, ret, Now.
  destruct (FileReader.Stat _ _) as [info|e]; [|inversion 1].
  destruct (_ >? _); [inversion 1|].
  destruct (FileReader.ReadFile _ _) as [data|e]; [|inversion 1].
  destruct (Env.json_Unmarshal_AmazonQ E data); inversion 1; subst; repeat split.
Qed.

Lemma amazonq_session_dir_records_of a ctx collectConfig w res err w' :
  AmazonQ.collectFromSessionDirConcurrent E a ctx collectConfig w = ((res, err), w') ->
  Forall (Props.recordOf SourceAmazonQ) res.
Proof.
  intros Hrun. apply Forall_forall. intros s Hs.
  destruct (amazonq_session_dir_provenance E a ctx collectConfig w res err w' Hrun s Hs)
    as (path & info & w0 & w1 & _ & _ & Hparse).
  eapply amazonq_parseSessionFileSafe_record; eauto.
Qed.

Lemma amazonq_awsLoop_records_of a ctx awsPaths :
  forall sessions w res err w',
    Forall (Props.recordOf SourceAmazonQ) sessions ->
    AmazonQ.awsLoop E a ctx awsPaths sessions w = ((res, err), w') ->
    Forall (Props.recordOf SourceAmazonQ) res.
Proof.
  induction awsPaths as [|awsPath rest IH]; intros sessions w res err w' Hall Hrun.
  - inversion Hrun; subst; done.
  - simpl in Hrun. unfold bind, Done in Hrun.
    destruct (ctx (World.polls w)) as [e|].
    { inversion Hrun; subst; auto. }
    destruct (config.ExpandPath E awsPath) as [expandedPath [e|]].
    { eapply IH; eauto. }
    destruct (IsNotExist _).
    { eapply IH; eauto. }
    destruct (FileReader.ReadFile _ _) as [data|e].
    2: { eapply IH; eauto. }
    unfold Now in Hrun. eapply IH; [|exact Hrun].
    apply Forall_app. split; [done|]. constructor; [|done]. repeat split.
Qed.

Lemma amazonq_runBranch_records_of a ctx collectConfig b allSessions errs w all' errs' w' :
  Forall (Props.recordOf SourceAmazonQ) allSessions ->
  AmazonQ.runBranch E a ctx collectConfig b (allSessions, errs) w = ((all', errs'), w') ->
  Forall (Props.recordOf SourceAmazonQ) all'.
Proof.
  intros Hall. unfold AmazonQ.runBranch, bind. destruct b.
  - destruct (AmazonQ.collectFromHistoryWithRetry E a ctx collectConfig w)
      as [[sessions [e|]] w1] eqn:Hrun; inversion 1; subst; [done|].
    apply Forall_app. split; [done|]. eapply amazonq_history_records_of; eauto.
  - destruct (AmazonQ.collectFromSessionDirConcurrent E a ctx collectConfig w)
      as [[sessions [e|]] w1] eqn:Hrun; inversion 1; subst; [done|].
    apply Forall_app. split; [done|]. eapply amazonq_session_dir_records_of; eauto.
  - destruct (AmazonQ.collectFromAWSConfig E a ctx collectConfig w)
      as [[sessions [e|]] w1] eqn:Hrun; inversion 1; subst; [done|].
    apply Forall_app. split; [done|].
    eapply amazonq_awsLoop_records_of; [|exact Hrun]. constructor.
Qed.

Lemma amazonq_runBranches_records_of a ctx collectConfig order :
  forall allSessions errs w all' errs' w',
    Forall (Props.recordOf SourceAmazonQ) allSessions ->
    AmazonQ.runBranches E a ctx collectConfig order (allSessions, errs) w
      = ((all', errs'), w') ->
    Forall (Props.recordOf SourceAmazonQ) all'.
Proof.
  induction order as [|b rest IH]; intros allSessions errs w all' errs' w' Hall.
  - inversion 1; subst; done.
  - cbn [AmazonQ.runBranches]. rewrite bind_run.
    destruct (AmazonQ.runBranch E a ctx collectConfig b (allSessions, errs) w)
      as [[all1 errs1] w1] eqn:Hb.
    cbn [fst snd]. intros Hrest. eapply IH; [|exact Hrest].
    eapply amazonq_runBranch_records_of; eauto.
Qed.

Lemma dummyData_records_of now :
  Forall (Props.recordOf SourceAmazonQ) (AmazonQ.dummyData now).
Proof. unfold AmazonQ.dummyData. repeat constructor. Qed.

Lemma amazonq_Collect_records_of a ctx collectConfig w :
  Forall (Props.recordOf SourceAmazonQ) (AmazonQ.Collect E a ctx collectConfig w).1.1.
Proof.
  unfold AmazonQ.Collect. destruct collectConfig as [collectConfig|]; [|constructor].
  destruct (AmazonQ.validateConfigDirectory E a).
  { unfold bind, log, AmazonQ.generateDummyData, bind, Now, ret. simpl.
    apply dummyData_records_of. }
  unfold bind.
  destruct (schedule E (AmazonQ.branches a) w) as [order w1].
  destruct (AmazonQ.runBranches E a _ collectConfig order ([], []) w1)
    as [[allSessions errs] w2] eqn:Hrun.
  destruct (AmazonQ.logErrors _ errs w2) as [[] w3].
  apply amazonq_runBranches_records_of in Hrun; [|constructor].
  assert (Hall : forall l, Forall (Props.recordOf SourceAmazonQ) l ->
            Forall (Props.recordOf SourceAmazonQ)
              match CollectionConfig.DateRange collectConfig with
              | Some dr => AmazonQ.filterByDateRange l (Some dr)
              | None => l
              end).
  { intros l Hl. destruct (CollectionConfig.DateRange collectConfig) as [dr|]; [|done].
    simpl. rewrite amazonq_filterLoop_gemini, gemini_filterLoop_spec. simpl.
    by apply retainedSessions_Forall. }
  destruct (Z.of_nat (length allSessions) =? 0).
  - unfold log, AmazonQ.generateDummyData, bind, Now, ret. cbn [fst snd].
    apply Hall, dummyData_records_of.
  - unfold ret. cbn [fst snd]. by apply Hall.
Qed.

End AmazonQRecords.

Section ClaudeRecords.
Context (E : Env.t) (c : Claude.ClaudeCodeCollector.t).

Lemma claude_parseSessionMap_record sessionMap w :
  exists s w',
    Claude.parseSessionMap E sessionMap w = (Some s, w')
    /\ Props.recordOf SourceClaudeCode s.
Proof.
  unfold Claude.parseSessionMap.
  rewrite bind_run.
  match goal with
  | |- context [(?m ?w0).1] => generalize (m w0); intros [id w1]
  end.
  cbn [fst snd]. rewrite bind_run.
  match goal with
  | |- context [(?m ?w0).1] => generalize (m w0); intros [timestamp w2]
  end.
  cbn [fst snd]. rewrite bind_run.
  match goal with
  | |- context [(?m ?w0).1] => generalize (m w0); intros [messages w3]
  end.
  cbn [fst snd]. unfold ret. eexists _, _. split; [reflexivity|]. repeat split.
Qed.

Lemma claude_itemsLoop_records_of items :
  forall sessions w,
    Forall (Props.recordOf SourceClaudeCode) sessions ->
    Forall (Props.recordOf SourceClaudeCode) (Claude.itemsLoop E items sessions w).1.
Proof.
  induction items as [|item rest IH]; intros sessions w Hall; [done|].
  cbn [Claude.itemsLoop].
  destruct item; try (by apply IH).
  rewrite bind_run.
  destruct (claude_parseSessionMap_record members w) as (s & w' & -> & Hs).
  cbn [fst snd]. apply IH. apply Forall_app. split; [done|]. by constructor.
Qed.

Lemma claude_keysLoop_records_of historyData keys :
  forall sessions w,
    Forall (Props.recordOf SourceClaudeCode) sessions ->
    Forall (Props.recordOf SourceClaudeCode)
           (Claude.keysLoop E historyData keys sessions w).1.
Proof.
  induction keys as [|key rest IH]; intros sessions w Hall; [done|].
  cbn [Claude.keysLoop].
  destruct (asArray (json.get historyData key)) as [data|]; [|by apply IH].
  rewrite bind_run. apply IH. by apply claude_itemsLoop_records_of.
Qed.

Lemma claude_parseHistoryData_records_of historyData w :
  Forall (Props.recordOf SourceClaudeCode) (Claude.parseHistoryData E historyData w).1.
Proof.
  unfold Claude.parseHistoryData. rewrite bind_run.
  apply claude_keysLoop_records_of.
  destruct (asArray (json.get historyData "sessions")); [|constructor].
  apply claude_itemsLoop_records_of. constructor.
Qed.

Lemma claude_collectFromHistory_records_of ctx collectConfig w :
  Forall (Props.recordOf SourceClaudeCode)
         (Claude.collectFromHistory E c ctx collectConfig w).1.1.
Proof.
  unfold Claude.collectFromHistory. rewrite bind_run. unfold Done. cbn [fst snd].
  destruct (ctx (World.polls w)); [constructor|].
  destruct (config.ExpandPath E _) as [historyPath [e|]]; [constructor|].
  destruct (IsNotExist _); [constructor|].
  destruct (Env.os_ReadFile E historyPath); [|constructor].
  rewrite bind_run. cbn [fst snd].
  destruct (ctx _); [constructor|].
  destruct (Claude.unmarshalMap E _) as [historyData [e|]]; [constructor|].
  rewrite bind_run. unfold ret. cbn [fst snd].
  apply claude_parseHistoryData_records_of.
Qed.

Lemma claude_parseSessionFile_record filePath w s err w' :
  Claude.parseSessionFile E filePath w = ((Some s, err), w') ->
  Props.recordOf SourceClaudeCode s.
Proof.
  unfold Claude.parseSessionFile.
  destruct (Env.os_ReadFile E filePath) as [data|e]; [|inversion 1].
  destruct (Claude.unmarshalMap E data) as [sessionData [e|]].
  - unfold Claude.parseTextSession, bind, Now, ret. inversion 1; subst. repeat split.
  - rewrite bind_run.
    destruct (claude_parseSessionMap_record sessionData w) as (s0 & w0 & -> & Hs).
    unfold ret. cbn [fst snd]. inversion 1; subst. exact Hs.
Qed.

Lemma claude_walkLoop_records_of ctx entries :
  forall sessions w,
    Forall (Props.recordOf SourceClaudeCode) sessions ->
    Forall (Props.recordOf SourceClaudeCode)
           (Claude.walkLoop E c ctx entries sessions w).1.1.
Proof.
  induction entries as [|entry rest IH]; intros sessions w Hall; [done|].
  cbn [Claude.walkLoop].
  destruct (WalkEntry.err entry); [done|].
  rewrite bind_run. unfold Done. cbn [fst snd].
  destruct (ctx (World.polls w)); [done|].
  destruct (WalkEntry.IsDir entry); [by apply IH|].
  destruct (negb _); [by apply IH|].
  destruct (Claude.matchesExcludePattern _ _ _); [by apply IH|].
  rewrite bind_run.
  destruct (Claude.parseSessionFile E (WalkEntry.path entry) _)
    as [[session perr] w1] eqn:Hparse.
  cbn [fst snd].
  destruct perr as [e|]; [|destruct session as [s|]].
  - destruct session; rewrite bind_run; by apply IH.
  - apply IH. apply Forall_app. split; [done|]. constructor; [|done].
    eapply claude_parseSessionFile_record; eauto.
  - by apply IH.
Qed.

Lemma claude_collectFromSessionDir_records_of ctx collectConfig w :
  Forall (Props.recordOf SourceClaudeCode)
         (Claude.collectFromSessionDir E c ctx collectConfig w).1.1.
Proof.
  unfold Claude.collectFromSessionDir.
  destruct (config.ExpandPath E _) as [sessionDir [e|]]; [constructor|].
  destruct (IsNotExist _); [constructor|].
  rewrite bind_run.
  pose proof (claude_walkLoop_records_of ctx (Env.filepath_Walk E sessionDir) [] w
                (Forall_nil_2 _)) as Hwalk.
  destruct (Claude.walkLoop E c ctx _ [] w) as [[sessions [e|]] w1];
    cbn [fst snd] in *; [constructor|exact Hwalk].
Qed.

Lemma claude_Collect_records_of ctx collectConfig w res err w' :
  Claude.Collect E c ctx collectConfig w = (Returned (res, err), w') ->
  Forall (Props.recordOf SourceClaudeCode) res.
Proof.
  unfold Claude.Collect.
  rewrite bind_run. unfold Done. cbn [fst snd].
  destruct (ctx (World.polls w)); [inversion 1; constructor|].
  destruct (config.ExpandPath E _) as [configDir [e|]]; [inversion 1; constructor|].
  destruct (IsNotExist _); [inversion 1; constructor|].
  rewrite bind_run.
  match goal with
  | |- context [(?m ?w0).1] =>
      assert (H1 : Forall (Props.recordOf SourceClaudeCode) (m w0).1);
      [|revert H1; generalize (m w0); intros [sessions w1] H1]
  end.
  { destruct (negb _); [|constructor].
    rewrite bind_run.
    pose proof (claude_collectFromHistory_records_of ctx collectConfig
                  (World.mk (World.ticks w) (S (World.polls w)) (World.steps w)
                            (World.logs w))) as Hh.
    destruct (Claude.collectFromHistory E c ctx collectConfig _)
      as [[historySessions [e|]] w1]; cbn [fst snd] in *; [constructor|exact Hh]. }
  cbn [fst snd] in *. rewrite bind_run. cbn [fst snd].
  destruct (ctx (World.polls w1)); [inversion 1; constructor|].
  rewrite bind_run.
  match goal with
  | |- context [(?m ?w0).1] =>
      assert (H2 : Forall (Props.recordOf SourceClaudeCode) (m w0).1);
      [|revert H2; generalize (m w0); intros [sessions' w2] H2]
  end.
  { destruct (negb _); [|exact H1].
    rewrite bind_run.
    match goal with
    | |- context [Claude.collectFromSessionDir E c ctx collectConfig ?w0] =>
        pose proof (claude_collectFromSessionDir_records_of ctx collectConfig w0) as Hs;
        destruct (Claude.collectFromSessionDir E c ctx collectConfig w0)
          as [[sessionSessions [e|]] w2]
    end; cbn [fst snd] in *; [exact H1|].
    apply Forall_app. by split. }
  cbn [fst snd] in *.
  destruct collectConfig as [collectConfig|]; [|inversion 1].
  destruct (CollectionConfig.DateRange collectConfig) as [dr|]; inversion 1; subst; [|done].
  simpl. rewrite claude_filterLoop_gemini, gemini_filterLoop_spec. simpl.
  by apply retainedSessions_Forall.
Qed.

End ClaudeRecords.

(** X1.  Every record [Collect] returns carries the source of its
    collector (gemini_cli, amazon_q, claude_code), whatever file,
    branch or fallback it comes from, and has no file reference and no
    command attached. *)
Theorem Collect_records_attributed :
  forall (E : Env.t) (g : Gemini.ImprovedGeminiCLICollector.t)
         (a : AmazonQ.AmazonQCollector.t) (c : Claude.ClaudeCodeCollector.t)
         (ctx : Context) (collectConfig : option CollectionConfig.t) (w : World.t),
    Forall (Props.recordOf SourceGeminiCLI) (Gemini.Collect E g ctx collectConfig w).1.1
    /\ Forall (Props.recordOf SourceAmazonQ) (AmazonQ.Collect E a ctx collectConfig w).1.1
    /\ (forall res err w',
           Claude.Collect E c ctx collectConfig w = (Returned (res, err), w') ->
           Forall (Props.recordOf SourceClaudeCode) res).
Proof.
  intros E g a c ctx collectConfig w. split_and!.
  - apply gemini_Collect_records_of.
  - apply amazonq_Collect_records_of.
  - intros res err w'. apply claude_Collect_records_of.
Qed.

(** ** The date range of a request *)

Lemma retainedSessions_Retained sessions dateRange :
  Forall (fun s => Spec.Retained (SessionData.Timestamp s) dateRange)
         (Spec.retainedSessions sessions dateRange).
Proof.
  apply Forall_forall. intros s Hs.
  unfold Spec.retainedSessions in Hs. by apply list_elem_of_filter in Hs as [Hs _].
Qed.

Lemma Collect_date_range :
  forall (E : Env.t) (g : Gemini.ImprovedGeminiCLICollector.t)
         (a : AmazonQ.AmazonQCollector.t) (c : Claude.ClaudeCodeCollector.t)
         (ctx : Context) (collectConfig : CollectionConfig.t) (dateRange : DateRange.t)
         (w : World.t),
    CollectionConfig.DateRange collectConfig = Some dateRange ->
    Forall (fun s => Spec.Retained (SessionData.Timestamp s) dateRange)
           (Gemini.Collect E g ctx (Some collectConfig) w).1.1
    /\ (AmazonQ.validateConfigDirectory E a = None ->
        Forall (fun s => Spec.Retained (SessionData.Timestamp s) dateRange)
               (AmazonQ.Collect E a ctx (Some collectConfig) w).1.1)
    /\ (AmazonQ.validateConfigDirectory E a <> None ->
        (AmazonQ.Collect E a ctx (Some collectConfig) w).1.1
        = AmazonQ.dummyData (Env.clock E (World.ticks w)))
    /\ (forall res err w',
           Claude.Collect E c ctx (Some collectConfig) w = (Returned (res, err), w') ->
           Forall (fun s => Spec.Retained (SessionData.Timestamp s) dateRange) res).
Proof.
  intros E g a c ctx collectConfig dateRange w Hdr. split_and!.
  - unfold Gemini.Collect.
    destruct (Gemini.validateConfigDirectory E g); [constructor|].
    unfold bind.
    destruct (schedule E (Gemini.branches g) w) as [order w1].
    destruct (Gemini.runBranches E g _ collectConfig order ([], []) w1)
      as [[allSessions errs] w2].
    destruct (Gemini.logErrors _ errs w2) as [[] w3].
    rewrite Hdr. simpl. rewrite gemini_filterLoop_spec. simpl.
    apply retainedSessions_Retained.
  - intros Hv. unfold AmazonQ.Collect. rewrite Hv. unfold bind.
    destruct (schedule E (AmazonQ.branches a) w) as [order w1].
    destruct (AmazonQ.runBranches E a _ collectConfig order ([], []) w1)
      as [[allSessions errs] w2].
    destruct (AmazonQ.logErrors _ errs w2) as [[] w3].
    rewrite Hdr.
    destruct (Z.of_nat (length allSessions) =? 0);
      unfold log, AmazonQ.generateDummyData, bind, Now, ret; cbn [fst snd];
      unfold AmazonQ.filterByDateRange;
      rewrite amazonq_filterLoop_gemini, gemini_filterLoop_spec; cbn [app];
      apply retainedSessions_Retained.
  - intros Hv. unfold AmazonQ.Collect.
    destruct (AmazonQ.validateConfigDirectory E a); [|done].
    reflexivity.
  - intros res err w'. unfold Claude.Collect.
    rewrite bind_run. unfold Done. cbn [fst snd].
    destruct (ctx (World.polls w)); [inversion 1; constructor|].
    destruct (config.ExpandPath E _) as [configDir [e|]]; [inversion 1; constructor|].
    destruct (IsNotExist _); [inversion 1; constructor|].
    rewrite bind_run.
    match goal with
    | |- context [(?m ?w0).1] => generalize (m w0); intros [sessions w1]
    end.
    cbn [fst snd]. rewrite bind_run. cbn [fst snd].
    destruct (ctx (World.polls w1)); [inversion 1; constructor|].
    rewrite bind_run.
    match goal with
    | |- context [(?m ?w0).1] => generalize (m w0); intros [sessions' w2]
    end.
    cbn [fst snd]. rewrite Hdr. inversion 1; subst.
    unfold Claude.filterByDateRange.
    rewrite claude_filterLoop_gemini, gemini_filterLoop_spec. cbn [app].
    apply retainedSessions_Retained.
Qed.

(** X2.  When the request has a date range, every record [Collect] of
    the Gemini CLI and of the Claude Code collector returns lies within
    it.  So does every record of the Amazon Q collector once the
    configuration directory has passed validation; when validation
    fails, the Amazon Q collector returns its dummy records as they
    are, unfiltered. *)
Theorem Collect_respects_date_range :
  forall (E : Env.t) (g : Gemini.ImprovedGeminiCLICollector.t)
         (a : AmazonQ.AmazonQCollector.t) (c : Claude.ClaudeCodeCollector.t)
         (ctx : Context) (collectConfig : CollectionConfig.t) (dateRange : DateRange.t)
         (w : World.t),
    CollectionConfig.DateRange collectConfig = Some dateRange ->
    Forall (fun s => Spec.Retained (SessionData.Timestamp s) dateRange)
           (Gemini.Collect E g ctx (Some collectConfig) w).1.1
    /\ (AmazonQ.validateConfigDirectory E a = None ->
        Forall (fun s => Spec.Retained (SessionData.Timestamp s) dateRange)
               (AmazonQ.Collect E a ctx (Some collectConfig) w).1.1)
    /\ (AmazonQ.validateConfigDirectory E a <> None ->
        (AmazonQ.Collect E a ctx (Some collectConfig) w).1.1
        = AmazonQ.dummyData (Env.clock E (World.ticks w)))
    /\ (forall res err w',
           Claude.Collect E c ctx (Some collectConfig) w = (Returned (res, err), w') ->
           Forall (fun s => Spec.Retained (SessionData.Timestamp s) dateRange) res).
Proof. exact Collect_date_range. Qed.

(** X2 at the example host, for what is dated from January 1, 2024 on:
    the three records of the Gemini CLI collector are kept. *)
Lemma Collect_respects_date_range_witness :
  Forall (fun s => Spec.Retained (SessionData.Timestamp s)
                     (DateRange.mk Example.newYear2024 time.zero))
         (Gemini.Collect Example.env Example.gemini Background
            (Some Sample.recentRequest) World.init).1.1
  /\ length (Gemini.Collect Example.env Example.gemini Background
               (Some Sample.recentRequest) World.init).1.1 = 3%nat.
Proof.
  split.
  - destruct (Collect_respects_date_range Example.env Example.gemini Example.amazonQ
                Example.claude Background Sample.recentRequest
                (DateRange.mk Example.newYear2024 time.zero) World.init eq_refl)
      as (H & _).
    exact H.
  - vm_compute. reflexivity.
Defined.

Lemma retainedSessions_inverted sessions dateRange :
  DateRange.Start dateRange <> time.zero ->
  DateRange.End_ dateRange < DateRange.Start dateRange ->
  DateRange.End_ dateRange <> time.zero ->
  Spec.retainedSessions sessions dateRange = [].
Proof.
  intros Hs Hlt He. unfold Spec.retainedSessions.
  induction sessions as [|s rest IH]; [done|].
  rewrite filter_cons, decide_False; [exact IH|].
  unfold Spec.Retained. intros [[?|?] [?|?]]; try done. lia.
Qed.

(** X3.  A date range with both bounds set and the end before the
    start retains nothing: the three filters return the empty list,
    and [Collect] returns no record.  For the Amazon Q collector, once
    its directory is validated, the dummy records are filtered away
    too and the error is nil. *)
Theorem inverted_date_range_collects_nothing :
  forall (E : Env.t) (g : Gemini.ImprovedGeminiCLICollector.t)
         (a : AmazonQ.AmazonQCollector.t) (c : Claude.ClaudeCodeCollector.t)
         (ctx : Context) (collectConfig : CollectionConfig.t) (dateRange : DateRange.t)
         (w : World.t),
    CollectionConfig.DateRange collectConfig = Some dateRange ->
    DateRange.Start dateRange <> time.zero ->
    DateRange.End_ dateRange <> time.zero ->
    DateRange.End_ dateRange < DateRange.Start dateRange ->
    (forall sessions,
        Gemini.filterByDateRange sessions (Some dateRange) = []
        /\ AmazonQ.filterByDateRange sessions (Some dateRange) = []
        /\ Claude.filterByDateRange sessions (Some dateRange) = [])
    /\ (Gemini.Collect E g ctx (Some collectConfig) w).1.1 = []
    /\ (AmazonQ.validateConfigDirectory E a = None ->
        (AmazonQ.Collect E a ctx (Some collectConfig) w).1 = ([], None))
    /\ (forall res err w',
           Claude.Collect E c ctx (Some collectConfig) w = (Returned (res, err), w') ->
           res = []).
Proof.
  intros E g a c ctx collectConfig dateRange w Hdr Hs He Hlt.
  assert (Hnone : forall l,
            Forall (fun s => Spec.Retained (SessionData.Timestamp s) dateRange) l ->
            l = []).
  { intros [|s l] Hall; [done|]. exfalso.
    apply Forall_cons in Hall as [[[?|?] [?|?]] _]; try done. lia. }
  split_and!.
  - intros sessions.
    assert (HG : Gemini.filterLoop sessions dateRange [] = []).
    { rewrite gemini_filterLoop_spec. simpl. by apply retainedSessions_inverted. }
    split_and!.
    + exact HG.
    + unfold AmazonQ.filterByDateRange. by rewrite amazonq_filterLoop_gemini.
    + unfold Claude.filterByDateRange. by rewrite claude_filterLoop_gemini.
  - apply Hnone. by apply (Collect_date_range E g a c ctx collectConfig dateRange w).
  - intros Hv. rewrite (surjective_pairing (AmazonQ.Collect _ _ _ _ _).1). f_equal.
    + apply Hnone.
      by apply (Collect_date_range E g a c ctx collectConfig dateRange w).
    + apply amazonq_Collect_nil_error.
  - intros res err w' Hrun. apply Hnone.
    by eapply (Collect_date_range E g a c ctx collectConfig dateRange w).
Qed.

Lemma inverted_date_range_collects_nothing_witness :
  (Gemini.Collect Example.env Example.gemini Background
     (Some Sample.invertedRequest) World.init).1.1 = []
  /\ (AmazonQ.Collect Example.env Example.amazonQBare Background
        (Some Sample.invertedRequest) World.init).1 = ([], None).
Proof.
  destruct (inverted_date_range_collects_nothing Example.env Example.gemini
              Example.amazonQBare Example.claude Background Sample.invertedRequest
              (DateRange.mk Example.newYear2024 (63082281600 * time.Second)) World.init)
    as (_ & HG & HA & _).
  - reflexivity.
  - vm_compute. lia.
  - vm_compute. lia.
  - vm_compute. reflexivity.
  - split; [exact HG|]. apply HA. reflexivity.
Defined.

(** ** Fallback and errors of Collect *)

(** X4.  For a request without date range, [Collect] of the Amazon Q
    collector returns at least one record and a nil error, whatever
    the context, the files and the scheduler. *)
Theorem amazonq_Collect_never_empty :
  forall (E : Env.t) (a : AmazonQ.AmazonQCollector.t) (ctx : Context)
         (collectConfig : CollectionConfig.t) (w : World.t),
    CollectionConfig.DateRange collectConfig = None ->
    (1 <= length (AmazonQ.Collect E a ctx (Some collectConfig) w).1.1)%nat
    /\ (AmazonQ.Collect E a ctx (Some collectConfig) w).1.2 = None.
Proof.
  intros E a ctx collectConfig w Hdr. split; [|apply amazonq_Collect_nil_error].
  unfold AmazonQ.Collect.
  destruct (AmazonQ.validateConfigDirectory E a).
  { unfold bind, log, AmazonQ.generateDummyData, bind, Now, ret. simpl. lia. }
  unfold bind.
  destruct (schedule E (AmazonQ.branches a) w) as [order w1].
  destruct (AmazonQ.runBranches E a _ collectConfig order ([], []) w1)
    as [[allSessions errs] w2].
  destruct (AmazonQ.logErrors _ errs w2) as [[] w3].
  rewrite Hdr.
  destruct (Z.eqb_spec (Z.of_nat (length allSessions)) 0) as [Hz|Hnz].
  - unfold log, AmazonQ.generateDummyData, bind, Now, ret. simpl. lia.
  - unfold ret. cbn [fst snd]. lia.
Qed.

(** X4 at the example host, with nothing to collect and the context
    cancelled. *)
Lemma amazonq_Collect_never_empty_witness :
  (1 <= length (AmazonQ.Collect Example.env Example.amazonQBare Example.cancelled
                  (Some Example.request) World.init).1.1)%nat
  /\ (AmazonQ.Collect Example.env Example.amazonQBare Example.cancelled
        (Some Example.request) World.init).1.2 = None.
Proof.
  apply (amazonq_Collect_never_empty Example.env Example.amazonQBare Example.cancelled
           Example.request World.init).
  reflexivity.
Defined.

(** X5.  The error [Collect] returns is fixed by the request and the
    configuration directory alone.  Gemini CLI: the nil-request error,
    or the error of [Validate] wrapped, or nil.  Amazon Q: the
    nil-request error or nil.  No error of a branch, of the context or
    of the timeout reaches the caller; and with an error the list is
    empty. *)
Theorem Collect_error_is_configuration_only :
  forall (E : Env.t) (g : Gemini.ImprovedGeminiCLICollector.t)
         (a : AmazonQ.AmazonQCollector.t) (ctx : Context)
         (collectConfig : option CollectionConfig.t) (w : World.t),
    (Gemini.Collect E g ctx collectConfig w).1.2
      = match collectConfig with
        | None => Some (New "collection config is nil")
        | Some _ =>
            match Gemini.Validate E g with
            | Some err => Some (Errorf_w "config directory validation failed: " err)
            | None => None
            end
        end
    /\ (AmazonQ.Collect E a ctx collectConfig w).1.2
       = match collectConfig with
         | None => Some (New "collection config is nil")
         | Some _ => None
         end
    /\ ((Gemini.Collect E g ctx collectConfig w).1.2 <> None ->
        (Gemini.Collect E g ctx collectConfig w).1.1 = [])
    /\ ((AmazonQ.Collect E a ctx collectConfig w).1.2 <> None ->
        (AmazonQ.Collect E a ctx collectConfig w).1.1 = []).
Proof.
  intros E g a ctx collectConfig w.
  assert (HG : (Gemini.Collect E g ctx collectConfig w).1.2
               = match collectConfig with
                 | None => Some (New "collection config is nil")
                 | Some _ =>
                     match Gemini.Validate E g with
                     | Some err =>
                         Some (Errorf_w "config directory validation failed: " err)
                     | None => None
                     end
                 end).
  { destruct collectConfig as [collectConfig|]; [|reflexivity].
    unfold Gemini.Validate.
    destruct (Gemini.validateConfigDirectory E g) as [err|] eqn:Hv.
    - unfold Gemini.Collect. rewrite Hv. reflexivity.
    - by apply gemini_Collect_nil_error. }
  assert (HA : (AmazonQ.Collect E a ctx collectConfig w).1.2
               = match collectConfig with
                 | None => Some (New "collection config is nil")
                 | Some _ => None
                 end).
  { destruct collectConfig as [collectConfig|]; [|reflexivity].
    apply amazonq_Collect_nil_error. }
  split_and!; [exact HG|exact HA|..].
  - destruct collectConfig as [collectConfig|]; [|reflexivity].
    unfold Gemini.Validate in HG. intros Hne.
    unfold Gemini.Collect in *.
    destruct (Gemini.validateConfigDirectory E g); [reflexivity|].
    by rewrite HG in Hne.
  - destruct collectConfig as [collectConfig|]; [|reflexivity].
    intros Hne. by rewrite HA in Hne.
Qed.

(** X6.  When [Collect] of the Claude Code collector returns an error,
    the list is empty, and the error is the error of the context at
    one of the looks at it, or [Validate] refuses the configuration
    too. *)
Theorem claude_Collect_error_causes :
  forall (E : Env.t) (c : Claude.ClaudeCodeCollector.t) (ctx : Context)
         (collectConfig : option CollectionConfig.t) (w : World.t)
         (res : list SessionData.t) (err : error) (w' : World.t),
    Claude.Collect E c ctx collectConfig w = (Returned (res, Some err), w') ->
    res = []
    /\ ((exists n, ctx n = Some err) \/ is_Some (Claude.Validate E c)).
Proof.
  intros E c ctx collectConfig w res err w'.
  unfold Claude.Collect.
  rewrite bind_run. unfold Done. cbn [fst snd].
  destruct (ctx (World.polls w)) as [e|] eqn:Hc1.
  { inversion 1; subst. split; [done|]. left. eauto. }
  destruct (config.ExpandPath E _) as [configDir [e|]] eqn:Hexp.
  { inversion 1; subst. split; [done|]. right.
    unfold Claude.Validate. destruct (isEmpty _); [eauto|]. rewrite Hexp. eauto. }
  destruct (IsNotExist _) eqn:Hne.
  { inversion 1; subst. split; [done|]. right.
    unfold Claude.Validate. destruct (isEmpty _); [eauto|]. rewrite Hexp, Hne. eauto. }
  rewrite bind_run.
  match goal with
  | |- context [(?m ?w0).1] => generalize (m w0); intros [sessions w1]
  end.
  cbn [fst snd]. rewrite bind_run. cbn [fst snd].
  destruct (ctx (World.polls w1)) as [e|] eqn:Hc2.
  { inversion 1; subst. split; [done|]. left. eauto. }
  rewrite bind_run.
  match goal with
  | |- context [(?m ?w0).1] => generalize (m w0); intros [sessions' w2]
  end.
  cbn [fst snd].
  destruct collectConfig as [collectConfig|]; [|inversion 1].
  destruct (CollectionConfig.DateRange collectConfig); inversion 1.
Qed.

(** X6 at the configuration directory [/nonexistent]. *)
Lemma claude_Collect_error_causes_witness :
  (Claude.Collect Example.env Example.claudeMissing Background
     (Some Example.request) World.init).1
    = Returned ([], Some (New "Claude Code 설정 디렉토리가 존재하지 않습니다: /nonexistent"))
  /\ ((exists n, Background n
                 = Some (New "Claude Code 설정 디렉토리가 존재하지 않습니다: /nonexistent"))
      \/ is_Some (Claude.Validate Example.env Example.claudeMissing)).
Proof.
  split; [reflexivity|].
  apply (claude_Collect_error_causes Example.env Example.claudeMissing Background
           (Some Example.request) World.init []
           (New "Claude Code 설정 디렉토리가 존재하지 않습니다: /nonexistent")
           (World.mk 0 1 0 [])).
  reflexivity.
Defined.

(** X7.  What [Validate] accepts.  Gemini CLI: the path of the
    configuration directory expands and [Stat] does not answer "not
    exist".  Claude Code: the same, and the path is not empty.  Amazon
    Q: the path is not empty and expands; a directory that does not
    exist is accepted with a logged warning, while the validation
    inside [Collect] refuses it. *)
Theorem Validate_checks_the_configuration_directory :
  forall (E : Env.t) (g : Gemini.ImprovedGeminiCLICollector.t)
         (a : AmazonQ.AmazonQCollector.t) (c : Claude.ClaudeCodeCollector.t)
         (w : World.t),
    (Gemini.Validate E g = None
     <-> exists configDir,
           config.ExpandPath E (config.CLIToolConfig.ConfigDir
                                  (Gemini.ImprovedGeminiCLICollector.config g))
             = (configDir, None)
           /\ IsNotExist (errOf (FileReader.Stat
                                   (Gemini.ImprovedGeminiCLICollector.fileReader g)
                                   configDir)) = false)
    /\ (Claude.Validate E c = None
        <-> isEmpty (config.CLIToolConfig.ConfigDir
                       (Claude.ClaudeCodeCollector.config c)) = false
            /\ exists configDir,
                 config.ExpandPath E (config.CLIToolConfig.ConfigDir
                                        (Claude.ClaudeCodeCollector.config c))
                   = (configDir, None)
                 /\ IsNotExist (errOf (Env.os_Stat E configDir)) = false)
    /\ ((AmazonQ.Validate E a w).1 = None
        <-> isEmpty (config.CLIToolConfig.ConfigDir
                       (AmazonQ.AmazonQCollector.config a)) = false
            /\ exists configDir,
                 config.ExpandPath E (config.CLIToolConfig.ConfigDir
                                        (AmazonQ.AmazonQCollector.config a))
                   = (configDir, None))
    /\ (forall configDir,
           isEmpty (config.CLIToolConfig.ConfigDir
                      (AmazonQ.AmazonQCollector.config a)) = false ->
           config.ExpandPath E (config.CLIToolConfig.ConfigDir
                                  (AmazonQ.AmazonQCollector.config a))
             = (configDir, None) ->
           IsNotExist (errOf (FileReader.Stat (AmazonQ.AmazonQCollector.fileReader a)
                                configDir)) = true ->
           AmazonQ.Validate E a w
           = (None,
              World.mk (World.ticks w) (World.polls w) (World.steps w)
                (World.logs w
                 ++ [Warnf ("Amazon Q CLI config directory does not exist: "
                            +:+ configDir)]))
           /\ AmazonQ.validateConfigDirectory E a
              = Some (New ("Amazon Q CLI config directory does not exist: "
                           +:+ configDir))).
Proof.
  intros E g a c w. split_and!.
  - unfold Gemini.Validate, Gemini.validateConfigDirectory.
    destruct (config.ExpandPath E _) as [configDir [e|]].
    { split; [done|]. intros (d & [= _ ?] & _). }
    destruct (IsNotExist _) eqn:Hne.
    + split; [done|]. intros (d & [= <-] & Hd). congruence.
    + split; [|done]. intros _. eauto.
  - unfold Claude.Validate.
    destruct (isEmpty _); [split; [done|intros [? _]; done]|].
    destruct (config.ExpandPath E _) as [configDir [e|]].
    { split; [done|]. intros (_ & d & [= _ ?] & _). }
    destruct (IsNotExist _) eqn:Hne.
    + split; [done|]. intros (_ & d & [= <-] & Hd). congruence.
    + split; [|done]. intros _. eauto.
  - unfold AmazonQ.Validate.
    destruct (isEmpty _); [split; [done|intros [? _]; done]|].
    destruct (config.ExpandPath E _) as [configDir [e|]].
    { split; [done|]. intros (_ & d & [= _ ?]). }
    destruct (IsNotExist _); (split; [|done]); intros _; eauto.
  - intros configDir He Hexp Hne.
    unfold AmazonQ.Validate, AmazonQ.validateConfigDirectory.
    rewrite He, Hexp, Hne. split; reflexivity.
Qed.

Section AllOrNothing.
Context (E : Env.t).

Lemma gemini_scanLoop_allOrNothing ctx scanErr lines :
  forall lineNum taken sessions w,
    Props.allOrNothing (Gemini.scanLoop E ctx scanErr lines lineNum taken sessions w).1.
Proof.
  unfold Props.allOrNothing.
  induction lines as [|text rest IH]; intros lineNum taken sessions w.
  - simpl. destruct (scanErr taken); simpl; auto.
  - cbn [Gemini.scanLoop]. rewrite bind_run. unfold Done. cbn [fst snd].
    destruct (ctx (World.polls w)); [simpl; auto|].
    destruct (isEmpty (strings.TrimSpace text)); [apply IH|].
    rewrite bind_run.
    destruct (Gemini.parseHistoryLine E _ _ _) as [[session perr] w1].
    cbn [fst snd]. destruct perr as [e|].
    { rewrite bind_run. apply IH. }
    destruct (_ >=? _); [|apply IH].
    rewrite bind_run. unfold log. cbn [fst snd].
    destruct (scanErr (S taken)); simpl; auto.
Qed.

Lemma gemini_history_allOrNothing g ctx collectConfig w :
  Props.allOrNothing (Gemini.collectFromHistoryWithRetry E g ctx collectConfig w).1.
Proof.
  unfold Gemini.collectFromHistoryWithRetry, Gemini.parseHistoryFileStreaming.
  destruct (config.ExpandPath E _) as [historyPath [e|]]; [by right|].
  destruct (FileReader.Stat _ _) as [info|e]; [|by right].
  destruct (_ >? _); [by right|].
  destruct (Env.os_Open E historyPath) as [file|e]; [|by right].
  apply gemini_scanLoop_allOrNothing.
Qed.

Lemma gemini_closeLoop_allOrNothing ctx n sessions errors :
  forall w, Props.allOrNothing (Gemini.closeLoop ctx n sessions errors w).1.
Proof.
  induction n as [|n IH]; intros w; cbn [Gemini.closeLoop]; rewrite bind_run.
  - by left.
  - unfold Done. cbn [fst snd]. destruct (ctx (World.polls w)); [by right|]. apply IH.
Qed.

Lemma gemini_collectLoop_allOrNothing g ctx collectConfig arrivals :
  forall sessions errors w,
    Props.allOrNothing
      (Gemini.collectLoop E g ctx collectConfig arrivals sessions errors w).1.
Proof.
  induction arrivals as [|path rest IH]; intros sessions errors w.
  - apply gemini_closeLoop_allOrNothing.
  - cbn [Gemini.collectLoop]. rewrite bind_run. unfold Done. cbn [fst snd].
    destruct (ctx (World.polls w)); [by right|].
    rewrite bind_run.
    destruct (Gemini.parseSessionFileSafe E g path collectConfig _)
      as [[session perr] w1].
    cbn [fst snd]. destruct perr as [e|]; [destruct session|destruct session]; apply IH.
Qed.

Lemma gemini_session_dir_allOrNothing g ctx collectConfig w :
  Props.allOrNothing (Gemini.collectFromSessionDirConcurrent E g ctx collectConfig w).1.
Proof.
  unfold Gemini.collectFromSessionDirConcurrent.
  destruct (config.ExpandPath E _) as [sessionDirPath [e|]]; [by right|].
  destruct (Gemini.walkLoop _ []) as [filePaths [e|]]; [by right|].
  destruct (_ =? 0); [by left|].
  rewrite bind_run. apply gemini_collectLoop_allOrNothing.
Qed.

Lemma amazonq_linesLoop_allOrNothing ctx lines :
  forall lineNum sessions w,
    Props.allOrNothing (AmazonQ.linesLoop E ctx lines lineNum sessions w).1.
Proof.
  unfold Props.allOrNothing.
  induction lines as [|text rest IH]; intros lineNum sessions w.
  - simpl. auto.
  - cbn [AmazonQ.linesLoop]. rewrite bind_run. unfold Done. cbn [fst snd].
    destruct (ctx (World.polls w)); [simpl; auto|].
    destruct (isEmpty (strings.TrimSpace text)); [apply IH|].
    rewrite bind_run.
    destruct (AmazonQ.parseHistoryLine E _ _ _) as [[session perr] w1].
    cbn [fst snd]. destruct perr as [e|].
    { rewrite bind_run. apply IH. }
    destruct (_ >=? _); [|apply IH].
    rewrite bind_run. simpl. auto.
Qed.

Lemma amazonq_history_allOrNothing a ctx collectConfig w :
  Props.allOrNothing (AmazonQ.collectFromHistoryWithRetry E a ctx collectConfig w).1.
Proof.
  unfold AmazonQ.collectFromHistoryWithRetry, AmazonQ.parseHistoryFileStreaming.
  destruct (config.ExpandPath E _) as [historyPath [e|]]; [by right|].
  destruct (FileReader.Stat _ _) as [info|e].
  2: { destruct (IsNotExist _); by right. }
  destruct (_ >? _); [by right|].
  destruct (FileReader.ReadFile _ _) as [content|e]; [|by right].
  apply amazonq_linesLoop_allOrNothing.
Qed.

Lemma amazonq_closeLoop_allOrNothing ctx n sessions errors :
  forall w, Props.allOrNothing (AmazonQ.closeLoop ctx n sessions errors w).1.
Proof.
  induction n as [|n IH]; intros w; cbn [AmazonQ.closeLoop]; rewrite bind_run.
  - by left.
  - unfold Done. cbn [fst snd]. destruct (ctx (World.polls w)); [by right|]. apply IH.
Qed.

Lemma amazonq_collectLoop_allOrNothing a ctx collectConfig arrivals :
  forall sessions errors w,
    Props.allOrNothing
      (AmazonQ.collectLoop E a ctx collectConfig arrivals sessions errors w).1.
Proof.
  induction arrivals as [|path rest IH]; intros sessions errors w.
  - apply amazonq_closeLoop_allOrNothing.
  - cbn [AmazonQ.collectLoop]. rewrite bind_run. unfold Done. cbn [fst snd].
    destruct (ctx (World.polls w)); [by right|].
    rewrite bind_run.
    destruct (AmazonQ.parseSessionFileSafe E a path collectConfig _)
      as [[session perr] w1].
    cbn [fst snd]. destruct perr as [e|]; [destruct session|destruct session]; apply IH.
Qed.

Lemma amazonq_session_dir_allOrNothing a ctx collectConfig w :
  Props.allOrNothing (AmazonQ.collectFromSessionDirConcurrent E a ctx collectConfig w).1.
Proof.
  unfold AmazonQ.collectFromSessionDirConcurrent.
  destruct (config.ExpandPath E _) as [sessionDirPath [e|]]; [by right|].
  destruct (IsNotExist _); [by right|].
  destruct (AmazonQ.walkLoop _ _ []) as [filePaths [e|]]; [by right|].
  destruct (_ =? 0); [by left|].
  rewrite bind_run. apply amazonq_collectLoop_allOrNothing.
Qed.

Lemma amazonq_awsLoop_allOrNothing a ctx awsPaths :
  forall sessions w,
    Props.allOrNothing (AmazonQ.awsLoop E a ctx awsPaths sessions w).1.
Proof.
  induction awsPaths as [|awsPath rest IH]; intros sessions w.
  - by left.
  - cbn [AmazonQ.awsLoop]. rewrite bind_run. unfold Done. cbn [fst snd].
    destruct (ctx (World.polls w)); [by right|].
    destruct (config.ExpandPath E awsPath) as [expandedPath [e|]]; [apply IH|].
    destruct (IsNotExist _); [apply IH|].
    destruct (FileReader.ReadFile _ expandedPath) as [data|e]; [|apply IH].
    rewrite !bind_run. apply IH.
Qed.

Lemma claude_collectFromHistory_allOrNothing c ctx collectConfig w :
  Props.allOrNothing (Claude.collectFromHistory E c ctx collectConfig w).1.
Proof.
  unfold Claude.collectFromHistory. rewrite bind_run. unfold Done. cbn [fst snd].
  destruct (ctx (World.polls w)); [by right|].
  destruct (config.ExpandPath E _) as [historyPath [e|]]; [by right|].
  destruct (IsNotExist _); [by right|].
  destruct (Env.os_ReadFile E historyPath); [|by right].
  rewrite bind_run. cbn [fst snd].
  destruct (ctx _); [by right|].
  destruct (Claude.unmarshalMap E _) as [historyData [e|]]; [by right|].
  rewrite bind_run. by left.
Qed.

Lemma claude_collectFromSessionDir_allOrNothing c ctx collectConfig w :
  Props.allOrNothing (Claude.collectFromSessionDir E c ctx collectConfig w).1.
Proof.
  unfold Claude.collectFromSessionDir.
  destruct (config.ExpandPath E _) as [sessionDir [e|]]; [by right|].
  destruct (IsNotExist _); [by right|].
  rewrite bind_run.
  destruct (Claude.walkLoop E c ctx _ [] w) as [[sessions [e|]] w1];
    cbn [fst snd]; [by right|by left].
Qed.

End AllOrNothing.

(** X8.  Each function that collects one branch (the history file, the
    session directory, the AWS files, in the three collectors) returns
    records or an error, never both: with an error, the records parsed
    so far are dropped. *)
Theorem branches_return_records_or_an_error :
  forall (E : Env.t) (g : Gemini.ImprovedGeminiCLICollector.t)
         (a : AmazonQ.AmazonQCollector.t) (c : Claude.ClaudeCodeCollector.t)
         (ctx : Context) (collectConfig : CollectionConfig.t) (w : World.t),
    Props.allOrNothing (Gemini.collectFromHistoryWithRetry E g ctx collectConfig w).1
    /\ Props.allOrNothing
         (Gemini.collectFromSessionDirConcurrent E g ctx collectConfig w).1
    /\ Props.allOrNothing (AmazonQ.collectFromHistoryWithRetry E a ctx collectConfig w).1
    /\ Props.allOrNothing
         (AmazonQ.collectFromSessionDirConcurrent E a ctx collectConfig w).1
    /\ Props.allOrNothing (AmazonQ.collectFromAWSConfig E a ctx collectConfig w).1
    /\ Props.allOrNothing
         (Claude.collectFromHistory E c ctx (Some collectConfig) w).1
    /\ Props.allOrNothing
         (Claude.collectFromSessionDir E c ctx (Some collectConfig) w).1.
Proof.
  intros E g a c ctx collectConfig w. split_and!.
  - apply gemini_history_allOrNothing.
  - apply gemini_session_dir_allOrNothing.
  - apply amazonq_history_allOrNothing.
  - apply amazonq_session_dir_allOrNothing.
  - apply amazonq_awsLoop_allOrNothing.
  - apply claude_collectFromHistory_allOrNothing.
  - apply claude_collectFromSessionDir_allOrNothing.
Qed.

(** ** The walk and the session pipeline *)

Section WalkLoops.

Lemma gemini_walkLoop_untilError entries :
  forall filePaths,
    Gemini.walkLoop entries filePaths
    = (filePaths ++ map WalkEntry.path
                      (List.filter Props.isJSONFile (Props.untilError entries).1),
       (Props.untilError entries).2).
Proof.
  induction entries as [|d rest IH]; intros filePaths; simpl.
  - by rewrite app_nil_r.
  - destruct (WalkEntry.err d); simpl; [by rewrite app_nil_r|].
    unfold Props.isJSONFile at 1.
    destruct (WalkEntry.IsDir d); simpl; [apply IH|].
    destruct (strings.HasSuffix (WalkEntry.path d) ".json"); simpl; [|apply IH].
    rewrite IH, <- app_assoc. reflexivity.
Qed.

Lemma amazonq_walkLoop_untilError E entries :
  forall filePaths,
    AmazonQ.walkLoop E entries filePaths
    = (filePaths ++ map WalkEntry.path
                      (List.filter (fun d => negb (WalkEntry.IsDir d)
                                             && AmazonQ.isAmazonQFile E (WalkEntry.path d))
                                   (Props.untilError entries).1),
       (Props.untilError entries).2).
Proof.
  induction entries as [|d rest IH]; intros filePaths; simpl.
  - by rewrite app_nil_r.
  - destruct (WalkEntry.err d); simpl; [by rewrite app_nil_r|].
    destruct (WalkEntry.IsDir d); simpl; [apply IH|].
    destruct (AmazonQ.isAmazonQFile E (WalkEntry.path d)); simpl; [|apply IH].
    rewrite IH, <- app_assoc. reflexivity.
Qed.

End WalkLoops.

Section Pipeline.
Context (E : Env.t).

Lemma gemini_logErrors_logs prefix errors w :
  exists w',
    Gemini.logErrors prefix errors w = (tt, w')
    /\ length (World.logs w') = (length (World.logs w) + length errors)%nat.
Proof.
  revert w. induction errors as [|err rest IH]; intros w; simpl.
  - exists w. split; [reflexivity|lia].
  - unfold bind, log.
    destruct (IH (World.mk (World.ticks w) (World.polls w) (World.steps w)
                    (World.logs w ++ [Warnf (prefix +:+ Error err)])))
      as (w' & Hrun & Hlen).
    exists w'. split; [exact Hrun|].
    rewrite Hlen. simpl. rewrite length_app. simpl. lia.
Qed.

Lemma gemini_parse_readable g path collectConfig w :
  Props.geminiReadable g path = true ->
  exists s w',
    Gemini.parseSessionFileSafe E g path collectConfig w = ((Some s, None), w')
    /\ World.logs w' = World.logs w.
Proof.
  unfold Props.geminiReadable, Gemini.parseSessionFileSafe.
  destruct (FileReader.Stat _ path) as [info|e]; [|done].
  destruct (FileInfo.Size info >? Gemini.maxFileSize); [done|]. simpl.
  destruct (FileReader.ReadFile _ path) as [data|e]; [|done].
  intros _.
  destruct (Env.json_Unmarshal_Gemini E data);
    unfold Gemini.parseTextSession, Gemini.convertGeminiSessionToModel, bind, Now, ret;
    eexists _, _; split; reflexivity.
Qed.

Lemma gemini_parse_unreadable g path collectConfig w :
  Props.geminiReadable g path = false ->
  exists err, Gemini.parseSessionFileSafe E g path collectConfig w = ((None, Some err), w).
Proof.
  unfold Props.geminiReadable, Gemini.parseSessionFileSafe.
  destruct (FileReader.Stat _ path) as [info|e]; [|eexists; reflexivity].
  destruct (FileInfo.Size info >? Gemini.maxFileSize); [eexists; reflexivity|]. simpl.
  destruct (FileReader.ReadFile _ path) as [data|e]; [done|].
  eexists; reflexivity.
Qed.

Lemma gemini_collectLoop_count g ctx collectConfig arrivals :
  (forall n, ctx n = None) ->
  forall sessions errors w,
    exists res w',
      Gemini.collectLoop E g ctx collectConfig arrivals sessions errors w
        = ((res, None), w')
      /\ length res
         = (length sessions
            + length (filter (fun p => Props.geminiReadable g p = true) arrivals))%nat
      /\ length (World.logs w')
         = (length (World.logs w) + length errors
            + length (filter (fun p => Props.geminiReadable g p <> true) arrivals))%nat.
Proof.
  intros Hctx.
  induction arrivals as [|path rest IH]; intros sessions errors w.
  - cbn [Gemini.collectLoop Gemini.closeLoop]. unfold bind, Done. rewrite !Hctx.
    cbn [World.ticks World.polls World.steps World.logs].
    destruct (gemini_logErrors_logs "Session file processing error: " errors
                (World.mk (World.ticks w) (S (S (World.polls w))) (World.steps w)
                          (World.logs w))) as (w' & Hrun & Hlen).
    rewrite Hrun. unfold ret. exists sessions, w'. split; [reflexivity|].
    simpl in *. split; lia.
  - cbn [Gemini.collectLoop]. unfold bind at 1. unfold Done. rewrite Hctx.
    rewrite !filter_cons.
    destruct (Props.geminiReadable g path) eqn:Hr.
    + destruct (gemini_parse_readable g path collectConfig
                  (World.mk (World.ticks w) (S (World.polls w)) (World.steps w)
                            (World.logs w)) Hr) as (s & w1 & Hparse & Hlogs).
      unfold bind. rewrite Hparse.
      destruct (IH (sessions ++ [s]) errors w1) as (res & w' & Hrun & Hlen & Hlog).
      exists res, w'. split; [exact Hrun|].
      rewrite decide_True by done. rewrite decide_False by (intros Hne; by apply Hne).
      rewrite Hlen, Hlog, Hlogs, length_app. simpl. split; lia.
    + destruct (gemini_parse_unreadable g path collectConfig
                  (World.mk (World.ticks w) (S (World.polls w)) (World.steps w)
                            (World.logs w)) Hr) as (err & Hparse).
      unfold bind. rewrite Hparse.
      destruct (IH sessions
                  (errors ++ [Errorf_w ("failed to parse session file " +:+ path
                                        +:+ ": ") err])
                  (World.mk (World.ticks w) (S (World.polls w)) (World.steps w)
                            (World.logs w)))
        as (res & w' & Hrun & Hlen & Hlog).
      exists res, w'. split; [exact Hrun|].
      rewrite decide_False by done. rewrite decide_True by done.
      rewrite Hlen, Hlog, length_app. simpl. split; lia.
Qed.

Lemma gemini_min_workers n cpu :
  1 <= cpu ->
  (Gemini.min [Gemini.maxWorkers; Z.of_nat n; cpu] =? 0) = (Z.of_nat n =? 0).
Proof.
  intros Hcpu. unfold Gemini.min, Gemini.minLoop, Gemini.maxWorkers.
  repeat match goal with
         | |- context [?x <? ?y] => destruct (Z.ltb_spec x y)
         end;
    repeat match goal with
           | |- context [?x =? ?y] => destruct (Z.eqb_spec x y)
           end; try reflexivity; lia.
Qed.

Lemma schedule_logs {A} (work : list A) w order w' :
  schedule E work w = (order, w') -> World.logs w' = World.logs w.
Proof.
  unfold schedule. generalize (length work) as fuel. intros fuel.
  revert work w order w'.
  induction fuel as [|fuel IH]; intros work w order w'; simpl.
  - inversion 1; done.
  - destruct work as [|x rest]; [inversion 1; done|].
    unfold bind, choose.
    destruct ((x :: rest) !! _) as [y|]; [|inversion 1; done].
    destruct (interleave E fuel _ _) as [r w1] eqn:Hr.
    inversion 1; subst. apply IH in Hr. exact Hr.
Qed.

Lemma gemini_pipeline_count g ctx collectConfig w sessionDirPath filePaths :
  (forall n, ctx n = None) ->
  1 <= Env.NumCPU E ->
  config.ExpandPath E (config.CLIToolConfig.SessionDir
                         (Gemini.ImprovedGeminiCLICollector.config g))
    = (sessionDirPath, None) ->
  Gemini.walkLoop (FileReader.WalkDir (Gemini.ImprovedGeminiCLICollector.fileReader g)
                     sessionDirPath) []
    = (filePaths, None) ->
  exists res w',
    Gemini.collectFromSessionDirConcurrent E g ctx collectConfig w = ((res, None), w')
    /\ length res
       = length (filter (fun p => Props.geminiReadable g p = true) filePaths)
    /\ length (World.logs w')
       = (length (World.logs w)
          + length (filter (fun p => Props.geminiReadable g p <> true) filePaths))%nat.
Proof.
  intros Hctx Hcpu Hexp Hwalk.
  unfold Gemini.collectFromSessionDirConcurrent. rewrite Hexp, Hwalk.
  rewrite gemini_min_workers by exact Hcpu.
  destruct (Z.eqb_spec (Z.of_nat (length filePaths)) 0) as [Hz|Hnz].
  - destruct filePaths; [|simpl in Hz; lia].
    exists [], w. split; [reflexivity|]. simpl. split; lia.
  - unfold bind.
    destruct (schedule E filePaths w) as [arrivals w1] eqn:Hs.
    pose proof (schedule_Permutation E filePaths w arrivals w1 Hs) as Hperm.
    pose proof (schedule_logs filePaths w arrivals w1 Hs) as Hlogs.
    destruct (gemini_collectLoop_count g ctx collectConfig arrivals Hctx [] [] w1)
      as (res & w' & Hrun & Hlen & Hlog).
    exists res, w'. split; [exact Hrun|].
    rewrite Hlen, Hlog, Hlogs, !Hperm. simpl. split; lia.
Qed.

Lemma amazonq_logErrors_logs prefix errors w :
  exists w',
    AmazonQ.logErrors prefix errors w = (tt, w')
    /\ length (World.logs w') = (length (World.logs w) + length errors)%nat.
Proof.
  revert w. induction errors as [|err rest IH]; intros w; simpl.
  - exists w. split; [reflexivity|lia].
  - unfold bind, log.
    destruct (IH (World.mk (World.ticks w) (World.polls w) (World.steps w)
                    (World.logs w ++ [Warnf (prefix +:+ Error err)])))
      as (w' & Hrun & Hlen).
    exists w'. split; [exact Hrun|].
    rewrite Hlen. simpl. rewrite length_app. simpl. lia.
Qed.

Lemma amazonq_parse_readable a path collectConfig w :
  Props.amazonQReadable a path = true ->
  exists s w',
    AmazonQ.parseSessionFileSafe E a path collectConfig w = ((Some s, None), w')
    /\ World.logs w' = World.logs w.
Proof.
  unfold Props.amazonQReadable, AmazonQ.parseSessionFileSafe.
  destruct (FileReader.Stat _ path) as [info|e]; [|done].
  destruct (FileInfo.Size info >? AmazonQ.amazonQMaxFileSize); [done|]. simpl.
  destruct (FileReader.ReadFile _ path) as [data|e]; [|done].
  intros _.
  destruct (Env.json_Unmarshal_AmazonQ E data);
    unfold AmazonQ.parseTextSession, AmazonQ.convertAmazonQSessionToModel, bind, Now, ret;
    eexists _, _; split; reflexivity.
Qed.

Lemma amazonq_parse_unreadable a path collectConfig w :
  Props.amazonQReadable a path = false ->
  exists err, AmazonQ.parseSessionFileSafe E a path collectConfig w = ((None, Some err), w).
Proof.
  unfold Props.amazonQReadable, AmazonQ.parseSessionFileSafe.
  destruct (FileReader.Stat _ path) as [info|e]; [|eexists; reflexivity].
  destruct (FileInfo.Size info >? AmazonQ.amazonQMaxFileSize); [eexists; reflexivity|]. simpl.
  destruct (FileReader.ReadFile _ path) as [data|e]; [done|].
  eexists; reflexivity.
Qed.

Lemma amazonq_collectLoop_count a ctx collectConfig arrivals :
  (forall n, ctx n = None) ->
  forall sessions errors w,
    exists res w',
      AmazonQ.collectLoop E a ctx collectConfig arrivals sessions errors w
        = ((res, None), w')
      /\ length res
         = (length sessions
            + length (filter (fun p => Props.amazonQReadable a p = true) arrivals))%nat
      /\ length (World.logs w')
         = (length (World.logs w) + length errors
            + length (filter (fun p => Props.amazonQReadable a p <> true) arrivals))%nat.
Proof.
  intros Hctx.
  induction arrivals as [|path rest IH]; intros sessions errors w.
  - cbn [AmazonQ.collectLoop AmazonQ.closeLoop]. unfold bind, Done. rewrite !Hctx.
    cbn [World.ticks World.polls World.steps World.logs].
    destruct (amazonq_logErrors_logs "Amazon Q session file processing error: " errors
                (World.mk (World.ticks w) (S (S (World.polls w))) (World.steps w)
                          (World.logs w))) as (w' & Hrun & Hlen).
    rewrite Hrun. unfold ret. exists sessions, w'. split; [reflexivity|].
    simpl in *. split; lia.
  - cbn [AmazonQ.collectLoop]. unfold bind at 1. unfold Done. rewrite Hctx.
    rewrite !filter_cons.
    destruct (Props.amazonQReadable a path) eqn:Hr.
    + destruct (amazonq_parse_readable a path collectConfig
                  (World.mk (World.ticks w) (S (World.polls w)) (World.steps w)
                            (World.logs w)) Hr) as (s & w1 & Hparse & Hlogs).
      unfold bind. rewrite Hparse.
      destruct (IH (sessions ++ [s]) errors w1) as (res & w' & Hrun & Hlen & Hlog).
      exists res, w'. split; [exact Hrun|].
      rewrite decide_True by done. rewrite decide_False by (intros Hne; by apply Hne).
      rewrite Hlen, Hlog, Hlogs, length_app. simpl. split; lia.
    + destruct (amazonq_parse_unreadable a path collectConfig
                  (World.mk (World.ticks w) (S (World.polls w)) (World.steps w)
                            (World.logs w)) Hr) as (err & Hparse).
      unfold bind. rewrite Hparse.
      destruct (IH sessions
                  (errors ++ [Errorf_w ("failed to parse Amazon Q session file " +:+ path
                                        +:+ ": ") err])
                  (World.mk (World.ticks w) (S (World.polls w)) (World.steps w)
                            (World.logs w)))
        as (res & w' & Hrun & Hlen & Hlog).
      exists res, w'. split; [exact Hrun|].
      rewrite decide_False by done. rewrite decide_True by done.
      rewrite Hlen, Hlog, length_app. simpl. split; lia.
Qed.

Lemma amazonq_min_workers n cpu :
  1 <= cpu ->
  (AmazonQ.minInts [AmazonQ.amazonQMaxWorkers; Z.of_nat n; cpu] =? 0) = (Z.of_nat n =? 0).
Proof.
  intros Hcpu. unfold AmazonQ.minInts, AmazonQ.minIntsLoop, AmazonQ.amazonQMaxWorkers.
  repeat match goal with
         | |- context [?x <? ?y] => destruct (Z.ltb_spec x y)
         end;
    repeat match goal with
           | |- context [?x =? ?y] => destruct (Z.eqb_spec x y)
           end; try reflexivity; lia.
Qed.

Lemma amazonq_pipeline_count a ctx collectConfig w sessionDirPath filePaths :
  (forall n, ctx n = None) ->
  1 <= Env.NumCPU E ->
  config.ExpandPath E (config.CLIToolConfig.SessionDir
                         (AmazonQ.AmazonQCollector.config a))
    = (sessionDirPath, None) ->
  IsNotExist (errOf (FileReader.Stat (AmazonQ.AmazonQCollector.fileReader a)
                       sessionDirPath)) = false ->
  AmazonQ.walkLoop E (FileReader.WalkDir (AmazonQ.AmazonQCollector.fileReader a)
                        sessionDirPath) []
    = (filePaths, None) ->
  exists res w',
    AmazonQ.collectFromSessionDirConcurrent E a ctx collectConfig w = ((res, None), w')
    /\ length res
       = length (filter (fun p => Props.amazonQReadable a p = true) filePaths)
    /\ length (World.logs w')
       = (length (World.logs w)
          + length (filter (fun p => Props.amazonQReadable a p <> true) filePaths))%nat.
Proof.
  intros Hctx Hcpu Hexp Hstat Hwalk.
  unfold AmazonQ.collectFromSessionDirConcurrent. rewrite Hexp, Hstat, Hwalk.
  rewrite amazonq_min_workers by exact Hcpu.
  destruct (Z.eqb_spec (Z.of_nat (length filePaths)) 0) as [Hz|Hnz].
  - destruct filePaths; [|simpl in Hz; lia].
    exists [], w. split; [reflexivity|]. simpl. split; lia.
  - unfold bind.
    destruct (schedule E filePaths w) as [arrivals w1] eqn:Hs.
    pose proof (schedule_Permutation E filePaths w arrivals w1 Hs) as Hperm.
    pose proof (schedule_logs filePaths w arrivals w1 Hs) as Hlogs.
    destruct (amazonq_collectLoop_count a ctx collectConfig arrivals Hctx [] [] w1)
      as (res & w' & Hrun & Hlen & Hlog).
    exists res, w'. split; [exact Hrun|].
    rewrite Hlen, Hlog, Hlogs, !Hperm. simpl. split; lia.
Qed.

End Pipeline.

(** X9.  The walk of the session directory keeps, in the order of the
    walk, the paths of the entries before the first entry that carries
    an error: in the Gemini CLI collector the files whose path ends in
    [.json], in the Amazon Q collector the files [isAmazonQFile]
    accepts; directories are skipped, and the error of that entry is
    returned. *)
Theorem walk_loops_select_files :
  forall (E : Env.t) (entries : list WalkEntry.t) (filePaths : list string),
    Gemini.walkLoop entries filePaths
      = (filePaths ++ map WalkEntry.path
                        (List.filter Props.isJSONFile (Props.untilError entries).1),
         (Props.untilError entries).2)
    /\ AmazonQ.walkLoop E entries filePaths
       = (filePaths ++ map WalkEntry.path
                         (List.filter
                            (fun d => negb (WalkEntry.IsDir d)
                                      && AmazonQ.isAmazonQFile E (WalkEntry.path d))
                            (Props.untilError entries).1),
          (Props.untilError entries).2)
    /\ (Forall (fun d => WalkEntry.err d = None) entries ->
        Props.untilError entries = (entries, None)).
Proof.
  intros E entries filePaths. split_and!.
  - apply gemini_walkLoop_untilError.
  - apply amazonq_walkLoop_untilError.
  - induction 1 as [|d rest Hd _ IH]; [done|].
    simpl. rewrite Hd, IH. reflexivity.
Qed.

(** X10.  With a context that is never done, at least one CPU, a
    session directory whose path expands and a walk that returns no
    error, the session pipeline of the Gemini CLI and of the Amazon Q collector
    returns no error and one record for each walked file that can be
    taken ([Stat] succeeds, at most 100MB, readable): a file that is
    not JSON still gives a record, and each file that cannot be taken
    costs one logged warning and nothing else. *)
Theorem session_pipeline_isolates_files :
  forall (E : Env.t) (ctx : Context) (collectConfig : CollectionConfig.t) (w : World.t),
    (forall n, ctx n = None) ->
    1 <= Env.NumCPU E ->
    (forall (g : Gemini.ImprovedGeminiCLICollector.t) sessionDirPath filePaths,
        config.ExpandPath E (config.CLIToolConfig.SessionDir
                               (Gemini.ImprovedGeminiCLICollector.config g))
          = (sessionDirPath, None) ->
        Gemini.walkLoop (FileReader.WalkDir
                           (Gemini.ImprovedGeminiCLICollector.fileReader g)
                           sessionDirPath) []
          = (filePaths, None) ->
        exists res w',
          Gemini.collectFromSessionDirConcurrent E g ctx collectConfig w
            = ((res, None), w')
          /\ length res
             = length (filter (fun p => Props.geminiReadable g p = true) filePaths)
          /\ length (World.logs w')
             = (length (World.logs w)
                + length (filter (fun p => Props.geminiReadable g p <> true)
                                 filePaths))%nat)
    /\ (forall (a : AmazonQ.AmazonQCollector.t) sessionDirPath filePaths,
           config.ExpandPath E (config.CLIToolConfig.SessionDir
                                  (AmazonQ.AmazonQCollector.config a))
             = (sessionDirPath, None) ->
           IsNotExist (errOf (FileReader.Stat (AmazonQ.AmazonQCollector.fileReader a)
                                sessionDirPath)) = false ->
           AmazonQ.walkLoop E (FileReader.WalkDir
                                 (AmazonQ.AmazonQCollector.fileReader a)
                                 sessionDirPath) []
             = (filePaths, None) ->
           exists res w',
             AmazonQ.collectFromSessionDirConcurrent E a ctx collectConfig w
               = ((res, None), w')
             /\ length res
                = length (filter (fun p => Props.amazonQReadable a p = true) filePaths)
             /\ length (World.logs w')
                = (length (World.logs w)
                   + length (filter (fun p => Props.amazonQReadable a p <> true)
                                    filePaths))%nat).
Proof.
  intros E ctx collectConfig w Hctx Hcpu. split.
  - intros g sessionDirPath filePaths. by apply gemini_pipeline_count.
  - intros a sessionDirPath filePaths. by apply amazonq_pipeline_count.
Qed.

(** X10 at the example host: the one session file is taken, nothing is
    logged. *)
Lemma session_pipeline_isolates_files_witness :
  exists res w',
    Gemini.collectFromSessionDirConcurrent Example.env Example.gemini Background
      Example.request World.init = ((res, None), w')
    /\ length res = 1%nat
    /\ length (World.logs w') = 0%nat.
Proof.
  destruct (session_pipeline_isolates_files Example.env Background Example.request
              World.init (fun n => eq_refl)) as (HG & _).
  { vm_compute. discriminate. }
  destruct (HG Example.gemini Example.sessionDir [Example.sessionPath] eq_refl eq_refl)
    as (res & w' & Hrun & Hlen & Hlog).
  exists res, w'. split_and!; [exact Hrun|exact Hlen|exact Hlog].
Defined.

Section ClaudeSessionDir.
Context (E : Env.t) (c : Claude.ClaudeCodeCollector.t).

Lemma claude_parseMessage_logs msgMap index w :
  World.logs (Claude.parseMessage E msgMap index w).2 = World.logs w.
Proof.
  unfold Claude.parseMessage. rewrite bind_run.
  match goal with
  | |- context [time.IsZero ?t] => destruct (time.IsZero t)
  end; reflexivity.
Qed.

Lemma claude_messagesLoop_logs messages :
  forall i acc w,
    World.logs (Claude.messagesLoop E messages i acc w).2 = World.logs w.
Proof.
  induction messages as [|m rest IH]; intros i acc w; [done|].
  cbn [Claude.messagesLoop].
  destruct m; try apply IH.
  rewrite bind_run, IH. apply claude_parseMessage_logs.
Qed.

Lemma claude_parseSessionMap_logs sessionMap w :
  World.logs (Claude.parseSessionMap E sessionMap w).2 = World.logs w.
Proof.
  unfold Claude.parseSessionMap.
  rewrite !bind_run. unfold ret at 3. cbn [snd].
  etrans.
  { destruct (asArray (json.get sessionMap "messages")); [|reflexivity].
    apply claude_messagesLoop_logs. }
  etrans.
  { match goal with
    | |- context [time.IsZero ?t] => destruct (time.IsZero t)
    end; reflexivity. }
  destruct (asString (json.get sessionMap "id")); reflexivity.
Qed.

Lemma claude_parseSessionFile_cases filePath w :
  match Env.os_ReadFile E filePath with
  | inl _ =>
      exists s w',
        Claude.parseSessionFile E filePath w = ((Some s, None), w')
        /\ World.logs w' = World.logs w
  | inr _ =>
      exists err, Claude.parseSessionFile E filePath w = ((None, Some err), w)
  end.
Proof.
  unfold Claude.parseSessionFile.
  destruct (Env.os_ReadFile E filePath) as [data|e]; [|eexists; reflexivity].
  destruct (Claude.unmarshalMap E data) as [sessionData [e|]].
  - unfold Claude.parseTextSession, bind, Now, ret. eexists _, _. split; reflexivity.
  - rewrite bind_run.
    pose proof (claude_parseSessionMap_logs sessionData w) as Hlogs.
    destruct (claude_parseSessionMap_record E sessionData w) as (s & w' & Hrun & _).
    rewrite Hrun in *. cbn [fst snd] in *. unfold ret. eexists _, _. split; done.
Qed.

Lemma claude_walkLoop_count ctx entries :
  (forall n, ctx n = None) ->
  Forall (fun entry => WalkEntry.err entry = None) entries ->
  forall sessions w,
    exists res w',
      Claude.walkLoop E c ctx entries sessions w = ((res, None), w')
      /\ length res
         = (length sessions
            + length (List.filter (fun entry => Props.claudeTakes E c entry
                                                && Props.claudeReadable E entry)
                                  entries))%nat
      /\ length (World.logs w')
         = (length (World.logs w)
            + length (List.filter (fun entry => Props.claudeTakes E c entry
                                                && negb (Props.claudeReadable E entry))
                                  entries))%nat.
Proof.
  intros Hctx Hok.
  set (f1 := fun entry => Props.claudeTakes E c entry && Props.claudeReadable E entry).
  set (f2 := fun entry => Props.claudeTakes E c entry
                          && negb (Props.claudeReadable E entry)).
  induction Hok as [|entry rest Herr _ IH]; intros sessions w.
  - exists sessions, w. simpl. split_and!; [done|lia|lia].
  - cbn [Claude.walkLoop List.filter]. rewrite Herr.
    rewrite bind_run. unfold Done. cbn [fst snd]. rewrite Hctx.
    change (f1 entry)
      with (Props.claudeTakes E c entry && Props.claudeReadable E entry).
    change (f2 entry)
      with (Props.claudeTakes E c entry && negb (Props.claudeReadable E entry)).
    unfold Props.claudeTakes.
    destruct (WalkEntry.IsDir entry); cbn [negb andb].
    { destruct (IH sessions (World.mk (World.ticks w) (S (World.polls w)) (World.steps w)
                               (World.logs w))) as (res & w' & Hrun & Hlen & Hlog).
      exists res, w'. split_and!; [exact Hrun|exact Hlen|exact Hlog]. }
    destruct (Claude.matchesIncludePattern E c (WalkEntry.path entry)); cbn [negb andb].
    2: { destruct (IH sessions (World.mk (World.ticks w) (S (World.polls w))
                                  (World.steps w) (World.logs w)))
           as (res & w' & Hrun & Hlen & Hlog).
         exists res, w'. split_and!; [exact Hrun|exact Hlen|exact Hlog]. }
    destruct (Claude.matchesExcludePattern E c (WalkEntry.path entry)); cbn [negb andb].
    { destruct (IH sessions (World.mk (World.ticks w) (S (World.polls w)) (World.steps w)
                               (World.logs w))) as (res & w' & Hrun & Hlen & Hlog).
      exists res, w'. split_and!; [exact Hrun|exact Hlen|exact Hlog]. }
    rewrite bind_run.
    pose proof (claude_parseSessionFile_cases (WalkEntry.path entry)
                  (World.mk (World.ticks w) (S (World.polls w)) (World.steps w)
                            (World.logs w))) as Hparse.
    unfold Props.claudeReadable.
    destruct (Env.os_ReadFile E (WalkEntry.path entry)) as [data|e].
    + destruct Hparse as (s & w1 & -> & Hlogs). cbn [fst snd negb].
      destruct (IH (sessions ++ [s]) w1) as (res & w' & Hrun & Hlen & Hlog).
      exists res, w'. split; [exact Hrun|].
      rewrite Hlen, Hlog, Hlogs, length_app. simpl. split; lia.
    + destruct Hparse as (err & ->). cbn [fst snd negb].
      rewrite bind_run. unfold log. cbn [fst snd].
      match goal with
      | |- context [Claude.walkLoop E c ctx rest sessions ?w0] =>
          destruct (IH sessions w0) as (res & w' & Hrun & Hlen & Hlog)
      end.
      exists res, w'. split; [exact Hrun|].
      rewrite Hlen, Hlog. simpl. rewrite length_app. simpl. split; lia.
Qed.

End ClaudeSessionDir.

(** X11.  With a context that is never done, a session directory that
    is there and a walk that meets no error, the session directory of the Claude Code collector gives
    one record for each file that matches the include patterns, matches
    no exclude pattern and can be read, whether it holds JSON or not; a
    matching file that cannot be read costs one printed line and
    nothing else. *)
Theorem claude_session_dir_isolates_files :
  forall (E : Env.t) (c : Claude.ClaudeCodeCollector.t) (ctx : Context)
         (collectConfig : option CollectionConfig.t) (w : World.t) (sessionDir : string),
    (forall n, ctx n = None) ->
    config.ExpandPath E (config.CLIToolConfig.SessionDir
                           (Claude.ClaudeCodeCollector.config c))
      = (sessionDir, None) ->
    IsNotExist (errOf (Env.os_Stat E sessionDir)) = false ->
    Forall (fun entry => WalkEntry.err entry = None) (Env.filepath_Walk E sessionDir) ->
    exists sessions w',
      Claude.collectFromSessionDir E c ctx collectConfig w = ((sessions, None), w')
      /\ length sessions
         = length (List.filter (fun entry => Props.claudeTakes E c entry
                                             && Props.claudeReadable E entry)
                               (Env.filepath_Walk E sessionDir))
      /\ length (World.logs w')
         = (length (World.logs w)
            + length (List.filter (fun entry => Props.claudeTakes E c entry
                                                && negb (Props.claudeReadable E entry))
                                  (Env.filepath_Walk E sessionDir)))%nat.
Proof.
  intros E c ctx collectConfig w sessionDir Hctx Hexp Hstat Hwalk.
  unfold Claude.collectFromSessionDir. rewrite Hexp, Hstat. rewrite bind_run.
  destruct (claude_walkLoop_count E c ctx (Env.filepath_Walk E sessionDir) Hctx Hwalk [] w)
    as (res & w' & -> & Hlen & Hlog).
  cbn [fst snd]. unfold ret. exists res, w'. split; [reflexivity|]. 
  split; [exact Hlen|exact Hlog].
Qed.

(** X11 at the example host: the one session file gives one record. *)
Lemma claude_session_dir_isolates_files_witness :
  exists sessions w',
    Claude.collectFromSessionDir Example.env Example.claude Background
      (Some Example.request) World.init = ((sessions, None), w')
    /\ length sessions = 1%nat
    /\ length (World.logs w') = 0%nat.
Proof.
  destruct (claude_session_dir_isolates_files Example.env Example.claude Background
              (Some Example.request) World.init Example.sessionDir
              (fun n => eq_refl) eq_refl eq_refl)
    as (sessions & w' & Hrun & Hlen & Hlog).
  { vm_compute. repeat constructor. }
  exists sessions, w'. split_and!; [exact Hrun|exact Hlen|exact Hlog].
Defined.

(** ** The AWS configuration files *)

Section AWSConfig.
Context (E : Env.t) (a : AmazonQ.AmazonQCollector.t).

Lemma amazonq_awsLoop_spec ctx awsPaths :
  (forall n, ctx n = None) ->
  forall sessions w,
    exists res w',
      AmazonQ.awsLoop E a ctx awsPaths sessions w = ((res, None), w')
      /\ map Props.configView res
         = map Props.configView sessions
           ++ map (fun f => (Some "aws_config", Some f.1, [("system", f.2)]))
                  (omap (Props.awsFile E a) awsPaths).
Proof.
  intros Hctx.
  induction awsPaths as [|awsPath rest IH]; intros sessions w.
  - exists sessions, w. split; [reflexivity|]. simpl. by rewrite app_nil_r.
  - cbn [AmazonQ.awsLoop omap list_omap]. unfold bind at 1. unfold Done. rewrite Hctx.
    unfold Props.awsFile at 1.
    destruct (config.ExpandPath E awsPath) as [expandedPath [e|]]; [apply IH|].
    destruct (IsNotExist _); [apply IH|].
    destruct (FileReader.ReadFile _ expandedPath) as [data|e]; [|apply IH].
    unfold bind, Now.
    match goal with
    | |- context [AmazonQ.awsLoop E a ctx rest ?l ?w0] =>
        destruct (IH l w0) as (res & w' & Hrun & Hview)
    end.
    exists res, w'. split; [exact Hrun|].
    rewrite Hview, map_app, <- app_assoc. reflexivity.
Qed.

Lemma amazonq_awsLoop_length ctx awsPaths :
  forall sessions w,
    (length (AmazonQ.awsLoop E a ctx awsPaths sessions w).1.1
     <= length sessions + length awsPaths)%nat.
Proof.
  induction awsPaths as [|awsPath rest IH]; intros sessions w.
  - simpl. lia.
  - cbn [AmazonQ.awsLoop]. unfold bind at 1. unfold Done.
    destruct (ctx (World.polls w)); [simpl; lia|].
    destruct (config.ExpandPath E awsPath) as [expandedPath [e|]].
    { etrans; [apply IH|]. simpl. lia. }
    destruct (IsNotExist _).
    { etrans; [apply IH|]. simpl. lia. }
    destruct (FileReader.ReadFile _ expandedPath) as [data|e].
    2: { etrans; [apply IH|]. simpl. lia. }
    unfold bind, Now.
    etrans; [apply IH|]. rewrite length_app. simpl. lia.
Qed.

End AWSConfig.

(** X12.  With a context that is never done, [collectFromAWSConfig]
    returns one record for each of [~/.aws/config],
    [~/.aws/credentials], [~/.amazon-q/config] and
    [~/.amazon-q/session.json] that is present and readable, in that
    order, at most four; the record is marked [aws_config] with the
    expanded path, and its one system message holds the content of the
    file as it is. *)
Theorem aws_config_files_are_collected :
  forall (E : Env.t) (a : AmazonQ.AmazonQCollector.t) (ctx : Context)
         (collectConfig : CollectionConfig.t) (w : World.t),
    (forall n, ctx n = None) ->
    exists res w',
      AmazonQ.collectFromAWSConfig E a ctx collectConfig w = ((res, None), w')
      /\ map Props.configView res
         = map (fun f => (Some "aws_config", Some f.1, [("system", f.2)]))
               (omap (Props.awsFile E a)
                     ["~/.aws/config"; "~/.aws/credentials"; "~/.amazon-q/config";
                      "~/.amazon-q/session.json"])
      /\ (length res <= 4)%nat.
Proof.
  intros E a ctx collectConfig w Hctx.
  unfold AmazonQ.collectFromAWSConfig.
  destruct (amazonq_awsLoop_spec E a ctx
              ["~/.aws/config"; "~/.aws/credentials"; "~/.amazon-q/config";
               "~/.amazon-q/session.json"] Hctx [] w) as (res & w' & Hrun & Hview).
  exists res, w'. split_and!; [exact Hrun|exact Hview|].
  pose proof (amazonq_awsLoop_length E a ctx
                ["~/.aws/config"; "~/.aws/credentials"; "~/.amazon-q/config";
                 "~/.amazon-q/session.json"] [] w) as Hlen.
  rewrite Hrun in Hlen. simpl in Hlen. exact Hlen.
Qed.

(** X12 at a host whose home directory holds a credentials file: its
    content is the one message of the one record. *)
Lemma aws_config_files_are_collected_witness :
  exists res w',
    AmazonQ.collectFromAWSConfig Example.env Sample.awsCollector Background
      Example.request World.init = ((res, None), w')
    /\ map Props.configView res
       = [(Some "aws_config", Some Sample.credentialsPath,
           [("system", Sample.credentials)])].
Proof.
  destruct (aws_config_files_are_collected Example.env Sample.awsCollector Background
              Example.request World.init (fun n => eq_refl))
    as (res & w' & Hrun & Hview & _).
  exists res, w'. split; [exact Hrun|]. rewrite Hview. vm_compute. reflexivity.
Defined.

(** ** The history file of Claude Code *)

Section ClaudeHistory.
Context (E : Env.t).

Lemma claude_parseSessionMap_madeFrom sessionMap w :
  exists s w',
    Claude.parseSessionMap E sessionMap w = (Some s, w') /\ Props.madeFrom s sessionMap.
Proof.
  unfold Claude.parseSessionMap.
  rewrite bind_run.
  destruct (asString (json.get sessionMap "id")) as [id|] eqn:Hid.
  - cbv iota. change (ret id w) with (id, w). cbn [fst snd]. rewrite bind_run.
    match goal with
    | |- context [(?m ?w0).1] => generalize (m w0); intros [timestamp w2]
    end.
    cbn [fst snd]. rewrite bind_run.
    match goal with
    | |- context [(?m ?w0).1] => generalize (m w0); intros [messages w3]
    end.
    cbn [fst snd]. unfold ret. eexists _, _. split; [reflexivity|].
    split; [reflexivity|]. intros id' Heq. simpl. congruence.
  - match goal with
    | |- context [(?m ?w0).1] => generalize (m w0); intros [id w1]
    end.
    cbn [fst snd]. rewrite bind_run.
    match goal with
    | |- context [(?m ?w0).1] => generalize (m w0); intros [timestamp w2]
    end.
    cbn [fst snd]. rewrite bind_run.
    match goal with
    | |- context [(?m ?w0).1] => generalize (m w0); intros [messages w3]
    end.
    cbn [fst snd]. unfold ret. eexists _, _. split; [reflexivity|].
    split; [reflexivity|]. intros id' Heq. congruence.
Qed.

Lemma claude_itemsLoop_madeFrom items :
  forall sessions maps w,
    Forall2 Props.madeFrom sessions maps ->
    Forall2 Props.madeFrom (Claude.itemsLoop E items sessions w).1
            (maps ++ Props.objects items).
Proof.
  induction items as [|item rest IH]; intros sessions maps w Hall.
  - simpl. by rewrite app_nil_r.
  - cbn [Claude.itemsLoop].
    destruct item; try (by apply IH).
    rewrite bind_run.
    destruct (claude_parseSessionMap_madeFrom members w) as (s & w' & -> & Hs).
    cbn [fst snd].
    change (Props.objects (JObject members :: rest))
      with (members :: Props.objects rest).
    rewrite (cons_middle members), app_assoc.
    apply IH. apply Forall2_app; [done|]. by constructor.
Qed.

Lemma claude_keysLoop_madeFrom historyData keys :
  forall sessions maps w,
    Forall2 Props.madeFrom sessions maps ->
    Forall2 Props.madeFrom (Claude.keysLoop E historyData keys sessions w).1
            (maps ++ Props.objects
                       (flat_map (fun key => default [] (asArray (json.get historyData key)))
                                 keys)).
Proof.
  induction keys as [|key rest IH]; intros sessions maps w Hall.
  - simpl. by rewrite app_nil_r.
  - cbn [Claude.keysLoop flat_map].
    unfold Props.objects. rewrite omap_app. fold Props.objects.
    rewrite app_assoc.
    destruct (asArray (json.get historyData key)) as [data|]; simpl.
    + rewrite bind_run. apply IH. by apply claude_itemsLoop_madeFrom.
    + rewrite app_nil_r. by apply IH.
Qed.

End ClaudeHistory.

(** X13.  [parseHistoryData] of the Claude Code collector returns one
    record for each object among the items of the arrays under the keys
    sessions, conversations, chats, history and data, in that order;
    an item that is not an object is skipped, nothing is merged, and a
    record keeps the [id] of its object when that is a string. *)
Theorem claude_history_one_record_per_object :
  forall (E : Env.t) (historyData : list (string * JValue)) (w : World.t),
    Forall2 Props.madeFrom (Claude.parseHistoryData E historyData w).1
            (Props.objects (Props.historyItems historyData))
    /\ length (Claude.parseHistoryData E historyData w).1
       = length (Props.objects (Props.historyItems historyData)).
Proof.
  intros E historyData w.
  assert (H : Forall2 Props.madeFrom (Claude.parseHistoryData E historyData w).1
                (Props.objects (Props.historyItems historyData))).
  { unfold Claude.parseHistoryData, Props.historyItems. rewrite bind_run.
    cbn [flat_map].
    unfold Props.objects at 1. rewrite omap_app. fold Props.objects.
    apply claude_keysLoop_madeFrom.
    destruct (asArray (json.get historyData "sessions")) as [data|]; simpl.
    - apply (claude_itemsLoop_madeFrom E data [] [] w). constructor.
    - constructor. }
  split; [exact H|]. by apply Forall2_length in H.
Qed.

(** ** Titles and the smallest of some integers *)

Section Titles.

Lemma string_length_append (s1 s2 : string) :
  String.length (s1 +:+ s2) = (String.length s1 + String.length s2)%nat.
Proof. induction s1 as [|a s1 IH]; simpl; [done|]. by rewrite IH. Qed.

Lemma length_substring_0 (m : nat) (s : string) :
  (m <= String.length s)%nat -> String.length (String.substring 0 m s) = m.
Proof.
  revert s. induction m as [|m IH]; intros s Hlen.
  - destruct s; reflexivity.
  - destruct s as [|a s]; simpl in *; [lia|]. rewrite IH; [done|lia].
Qed.

Lemma title_bounded (fallback text : string) :
  1 <= strings.len fallback <= 100 ->
  let title := strings.TrimSpace (hd "" (strings.SplitLines text)) in
  let title := if strings.len title >? 100
               then String.substring 0 97 title +:+ "..." else title in
  1 <= strings.len (if isEmpty title then fallback else title) <= 100.
Proof.
  intros Hf. cbv zeta.
  set (t := strings.TrimSpace (hd "" (strings.SplitLines text))).
  unfold strings.len in *.
  destruct (Z.gtb_spec (Z.of_nat (String.length t)) 100) as [Hgt|Hle].
  - assert (Hl : String.length (String.substring 0 97 t +:+ "...") = 100%nat).
    { rewrite string_length_append, length_substring_0 by lia. reflexivity. }
    destruct (String.substring 0 97 t +:+ "...") as [|a s] eqn:Hs; [done|].
    unfold isEmpty. simpl String.eqb. cbv iota. rewrite Hl. lia.
  - destruct t as [|a s]; [exact Hf|].
    unfold isEmpty. simpl String.eqb. cbv iota. simpl in *. lia.
Qed.

End Titles.

(** X14.  The title [extractTitleFromPrompt] and
    [extractTitleFromQuery] give is never empty and at most 100 bytes
    long. *)
Theorem titles_are_bounded :
  forall text : string,
    1 <= strings.len (Gemini.extractTitleFromPrompt text) <= 100
    /\ 1 <= strings.len (AmazonQ.extractTitleFromQuery text) <= 100.
Proof.
  intros text. split.
  - unfold Gemini.extractTitleFromPrompt.
    destruct (strings.len text =? 0); [by vm_compute|].
    apply (title_bounded "Gemini CLI Session"). by vm_compute.
  - unfold AmazonQ.extractTitleFromQuery.
    destruct (strings.len text =? 0); [by vm_compute|].
    apply (title_bounded "Amazon Q CLI Session"). by vm_compute.
Qed.

Section Min.

Lemma minLoop_least rest :
  forall result,
    (Gemini.minLoop result rest = result \/ Gemini.minLoop result rest ∈ rest)
    /\ Gemini.minLoop result rest <= result
    /\ Forall (fun v => Gemini.minLoop result rest <= v) rest.
Proof.
  induction rest as [|v rest IH]; intros result; simpl.
  - split_and!; [by left|lia|constructor].
  - destruct (Z.ltb_spec v result) as [Hlt|Hge].
    + destruct (IH v) as (Hmem & Hle & Hall). split_and!.
      * right. destruct Hmem as [Heq|Hin]; [rewrite Heq; by left|by right].
      * lia.
      * by constructor.
    + destruct (IH result) as (Hmem & Hle & Hall). split_and!.
      * destruct Hmem as [Heq|Hin]; [by left|right; by right].
      * done.
      * constructor; [lia|done].
Qed.

Lemma minIntsLoop_minLoop rest :
  forall result, AmazonQ.minIntsLoop result rest = Gemini.minLoop result rest.
Proof. induction rest as [|v rest IH]; intros result; simpl; [done|]. by rewrite !IH. Qed.

End Min.

(** X15.  [min] and [minInts] return one of their arguments, below
    or equal to every argument, and 0 when called with none; the two
    functions agree.  So with at least one file and one CPU the number
    of workers of the session pipeline lies between 1 and 10 and does
    not exceed the number of files. *)
Theorem min_is_the_least_argument :
  forall (a0 : Z) (rest : list Z),
    Gemini.min (a0 :: rest) ∈ a0 :: rest
    /\ Forall (fun v => Gemini.min (a0 :: rest) <= v) (a0 :: rest)
    /\ AmazonQ.minInts (a0 :: rest) = Gemini.min (a0 :: rest)
    /\ Gemini.min [] = 0 /\ AmazonQ.minInts [] = 0
    /\ (forall (files : nat) (cpus : Z),
           (1 <= files)%nat -> 1 <= cpus ->
           1 <= Gemini.min [Gemini.maxWorkers; Z.of_nat files; cpus] <= 10
           /\ Gemini.min [Gemini.maxWorkers; Z.of_nat files; cpus] <= Z.of_nat files).
Proof.
  intros a0 rest.
  assert (Hmin : forall b0 l,
            Gemini.min (b0 :: l) ∈ b0 :: l
            /\ Forall (fun v => Gemini.min (b0 :: l) <= v) (b0 :: l)).
  { intros b0 l. unfold Gemini.min.
    destruct (minLoop_least l b0) as ([Heq|Hin] & Hle & Hall).
    - split; [rewrite Heq; by left|by constructor].
    - split; [by right|by constructor]. }
  destruct (Hmin a0 rest) as [Hin Hall].
  split_and!; [exact Hin|exact Hall|apply minIntsLoop_minLoop|done|done|].
  intros files cpus Hf Hc.
  destruct (Hmin Gemini.maxWorkers [Z.of_nat files; cpus]) as [Hin' Hall'].
  apply Forall_cons in Hall' as [H10 Hall'].
  apply Forall_cons in Hall' as [Hn _].
  unfold Gemini.maxWorkers in *.
  split; [|exact Hn]. split; [|exact H10].
  apply elem_of_cons in Hin' as [->|Hin']; [lia|].
  apply elem_of_cons in Hin' as [->|Hin']; [lia|].
  apply list_elem_of_singleton in Hin' as ->. lia.
Qed.

(** ** The registry and the records of the orchestrator *)

(** X16.  Registering a constructor for a source makes [GetCollector]
    return, for that source, the collector the constructor builds, and
    leaves every other source as it was.  [IsRegistered] holds of the
    sources [ListRegisteredSources] lists, each listed once, which are
    those [GetCollector] succeeds for; for any other source it returns
    the error "no collector registered for source". *)
Theorem registry_round_trip :
  forall (registry : Factory.Registry) (source : CollectionSource)
         (constructor : Factory.ConfigValue -> Factory.Collector.t)
         (config : Factory.ConfigValue),
    Factory.GetCollector (Factory.Register registry source constructor) source config
      = (Some (constructor config), None)
    /\ Factory.IsRegistered (Factory.Register registry source constructor) source = true
    /\ (forall other,
           other <> source ->
           Factory.GetCollector (Factory.Register registry source constructor) other config
             = Factory.GetCollector registry other config
           /\ Factory.IsRegistered (Factory.Register registry source constructor) other
              = Factory.IsRegistered registry other)
    /\ (forall s, Factory.IsRegistered registry s = true
                  <-> s ∈ Factory.ListRegisteredSources registry)
    /\ NoDup (Factory.ListRegisteredSources registry)
    /\ (forall s, Factory.IsRegistered registry s = true
                  <-> exists c, Factory.GetCollector registry s config = (Some c, None))
    /\ (forall s, Factory.IsRegistered registry s = false
                  <-> Factory.GetCollector registry s config
                      = (None, Some (New ("no collector registered for source: " +:+ s)))).
Proof.
  intros registry source constructor config.
  unfold Factory.GetCollector, Factory.Register, Factory.IsRegistered,
    Factory.ListRegisteredSources.
  split_and!.
  - by rewrite lookup_insert_eq.
  - by rewrite lookup_insert_eq.
  - intros other Hne. by rewrite !lookup_insert_ne.
  - intros s. rewrite list_elem_of_fmap. split.
    + destruct (registry !! s) as [c|] eqn:Hs; [|done]. intros _.
      exists (s, c). split; [done|]. by apply elem_of_map_to_list.
    + intros ([s' c] & -> & Hin). apply elem_of_map_to_list in Hin. simpl.
      by rewrite Hin.
  - apply NoDup_fst_map_to_list.
  - intros s. destruct (registry !! s) as [c|]; split; try done; eauto.
    intros [c Hc]. done.
  - intros s. destruct (registry !! s) as [c|]; split; done.
Qed.

Section Attribution.
Context (registry : Factory.Registry) (ctx : Context)
        (collectionConfig : CollectionConfig.t)
        (configs : gmap CollectionSource Factory.ConfigValue).

Lemma collectSource_attributed source result w result' w' :
  Props.Attributes registry ctx collectionConfig ->
  Props.attributed result ->
  Factory.collectSource registry ctx collectionConfig configs source result w
    = (Returned result', w') ->
  Props.attributed result'.
Proof.
  intros Hattr Hinv. unfold Factory.collectSource, Factory.GetCollector.
  destruct (configs !! source) as [config|]; [|inversion 1; subst; exact Hinv].
  destruct (registry !! source) as [constructor|] eqn:Hr;
    [|inversion 1; subst; exact Hinv].
  unfold bind.
  destruct (Factory.Collector.Collect (constructor config) ctx (Some collectionConfig) w)
    as [[[sessions [err|]]|msg] w1] eqn:Hrun; inversion 1; subst; [exact Hinv|].
  pose proof (Hattr source constructor config w sessions None w' Hr Hrun) as Hrec.
  unfold Props.attributed, Factory.addSessions. simpl.
  apply Forall_app. split.
  - eapply Forall_impl; [exact Hinv|]. intros s (Hin & Hf & Hc).
    split_and!; [|done|done]. apply elem_of_app. by left.
  - eapply Forall_impl; [exact Hrec|]. intros s (Hs & Hf & Hc).
    split_and!; [|done|done]. rewrite Hs. apply elem_of_app. right. by left.
Qed.

Lemma sourcesLoop_attributed sources :
  Props.Attributes registry ctx collectionConfig ->
  forall result w result' w',
    Props.attributed result ->
    Factory.sourcesLoop registry ctx collectionConfig configs sources result w
      = (Returned result', w') ->
    Props.attributed result'.
Proof.
  intros Hattr.
  induction sources as [|source rest IH]; intros result w result' w' Hinv.
  - inversion 1; subst; exact Hinv.
  - cbn [Factory.sourcesLoop]. rewrite bind_run.
    destruct (Factory.collectSource registry ctx collectionConfig configs source result w)
      as [[result1|msg] w1] eqn:Hstep; cbn [fst snd]; [|inversion 1].
    apply IH. eapply collectSource_attributed; eauto.
Qed.

End Attribution.

Lemma initRegistry_attributes E ctx collectionConfig :
  Props.Attributes (Factory.initRegistry E) ctx collectionConfig.
Proof.
  intros source constructor config w res err w' Hlook.
  unfold Factory.initRegistry, Factory.Register in Hlook.
  apply lookup_insert_Some in Hlook as [[<- <-]|[_ Hlook]].
  - unfold Factory.amazonQCollector. cbn [Factory.Collector.Collect]. rewrite bind_run.
    pose proof (amazonq_Collect_records_of E
                  (AmazonQ.NewAmazonQCollector (Factory.asCLIToolConfig config)
                     (Factory.defaultFileReader E))
                  ctx (Some collectionConfig) w) as Hrec.
    destruct (AmazonQ.Collect E _ ctx (Some collectionConfig) w) as [[r e] w0].
    cbn [fst snd] in *. unfold ret. inversion 1; subst. exact Hrec.
  - apply lookup_insert_Some in Hlook as [[<- <-]|[_ Hlook]].
    + unfold Factory.geminiCollector. cbn [Factory.Collector.Collect]. rewrite bind_run.
      pose proof (gemini_Collect_records_of E
                    (Gemini.NewImprovedGeminiCLICollector (Factory.asCLIToolConfig config)
                       (Factory.defaultFileReader E))
                    ctx (Some collectionConfig) w) as Hrec.
      destruct (Gemini.Collect E _ ctx (Some collectionConfig) w) as [[r e] w0].
      cbn [fst snd] in *. unfold ret. inversion 1; subst. exact Hrec.
    + by rewrite lookup_empty in Hlook.
Qed.

(** X17.  With the registry the [init] functions build,
    [CollectAllSources] returns, for a request that is not nil, a
    result and a nil error; the records of the result each come from
    a source the result lists as collected; those sources are
    gemini_cli and amazon_q only, no constructor being registered for
    claude_code. *)
Theorem CollectAllSources_records_attributed :
  forall (E : Env.t) (ctx : Context) (collectionConfig : CollectionConfig.t)
         (configs : gmap CollectionSource Factory.ConfigValue) (w : World.t),
    exists result w',
      Factory.CollectAllSources E (Factory.initRegistry E) ctx (Some collectionConfig)
        configs w = (Returned (Some result, None), w')
      /\ Forall (fun s => SessionData.Source s ∈ CollectionResult.Sources result
                          /\ SessionData.Files s = [] /\ SessionData.Commands s = [])
                (CollectionResult.Sessions result)
      /\ Forall (fun source => source = SourceGeminiCLI \/ source = SourceAmazonQ)
                (CollectionResult.Sources result).
Proof.
  intros E ctx collectionConfig configs w.
  unfold Factory.CollectAllSources, bind, Now.
  destruct (sourcesLoop_returns (Factory.initRegistry E) ctx collectionConfig configs
              (CollectionConfig.Sources collectionConfig)
              (initRegistry_returns E ctx collectionConfig)
              (CollectionResult.mk [] 0 [] (Env.clock E (World.ticks w)) 0 [])
              (World.mk (S (World.ticks w)) (World.polls w) (World.steps w)
                        (World.logs w)))
    as (result' & w' & added & Hrun & _ & Hsrc & _ & Hall & _ & _).
  rewrite Hrun. eexists _, _. split; [reflexivity|].
  split.
  - apply (sourcesLoop_attributed (Factory.initRegistry E) ctx collectionConfig configs
             _ (initRegistry_attributes E ctx collectionConfig) _ _ _ _) in Hrun.
    + exact Hrun.
    + constructor.
  - simpl in *. rewrite Hsrc. simpl.
    eapply Forall_impl; [exact Hall|]. intros source [_ [constructor Hlook]].
    unfold Factory.initRegistry, Factory.Register in Hlook.
    apply lookup_insert_Some in Hlook as [[<- _]|[_ Hlook]]; [by right|].
    apply lookup_insert_Some in Hlook as [[<- _]|[_ Hlook]]; [by left|].
    by rewrite lookup_empty in Hlook.
Qed.

(** ** The configuration file and the request of the command *)

Section ConfigFile.

Lemma SetDefaults_filled c :
  isEmpty (OutputSettings.TemplateDir (Config.OutputSettings (configfile.SetDefaults c)))
    = false
  /\ isEmpty (OutputSettings.DefaultTemplate
                (Config.OutputSettings (configfile.SetDefaults c))) = false
  /\ Config.CollectionSettings (configfile.SetDefaults c) = Config.CollectionSettings c.
Proof.
  unfold configfile.SetDefaults. simpl.
  destruct (isEmpty (OutputSettings.TemplateDir (Config.OutputSettings c))) eqn:H1,
           (isEmpty (OutputSettings.DefaultTemplate (Config.OutputSettings c))) eqn:H2;
    split_and!; done.
Qed.

Lemma SetDefaults_idemp c :
  configfile.SetDefaults (configfile.SetDefaults c) = configfile.SetDefaults c.
Proof.
  destruct (SetDefaults_filled c) as (H1 & H2 & _).
  unfold configfile.SetDefaults at 1. rewrite H1, H2.
  by destruct (configfile.SetDefaults c) as [cs []].
Qed.

Lemma LoadConfig_cases H configPath :
  (exists c,
      configfile.LoadConfig H configPath = (Some (configfile.SetDefaults c), None)
      /\ (isEmpty configPath = true -> c = configfile.createDefaultConfig))
  \/ (exists err, configfile.LoadConfig H configPath = (None, Some err)
                  /\ isEmpty configPath = false).
Proof.
  unfold configfile.LoadConfig.
  destruct (isEmpty configPath) eqn:He.
  { left. eexists. split; [reflexivity|done]. }
  match goal with
  | |- context [match ?x with inl _ => _ | inr _ => _ end] =>
      destruct x as [path|err] eqn:Hexp
  end.
  2: { right. eauto. }
  destruct (Env.os_ReadFile (Host.env H) path) as [data|err].
  - destruct (Host.yaml_Unmarshal H data) as [config|err].
    + left. eexists. split; [reflexivity|done].
    + right. eauto.
  - destruct (IsNotExist (Some err)).
    + left. eexists. split; [reflexivity|done].
    + right. eauto.
Qed.

End ConfigFile.

(** X18.  [LoadConfig] returns a configuration or an error, never
    both and never neither.  A configuration it returns has a template
    directory and a default template that are not empty, and
    [SetDefaults] leaves it unchanged.  The empty
    path gives the default configuration, and so does a file that does
    not exist. *)
Theorem LoadConfig_fills_defaults :
  forall (H : Host.t) (configPath : string),
    ((exists cfg,
         configfile.LoadConfig H configPath = (Some cfg, None)
         /\ isEmpty (OutputSettings.TemplateDir (Config.OutputSettings cfg)) = false
         /\ isEmpty (OutputSettings.DefaultTemplate (Config.OutputSettings cfg)) = false
         /\ configfile.SetDefaults cfg = cfg)
     \/ (exists err, configfile.LoadConfig H configPath = (None, Some err)))
    /\ configfile.LoadConfig H "" = (Some configfile.createDefaultConfig, None)
    /\ (forall err,
           strings.HasPrefix configPath "~" = false ->
           Env.os_ReadFile (Host.env H) configPath = inr err ->
           IsNotExist (Some err) = true ->
           configfile.LoadConfig H configPath
           = (Some configfile.createDefaultConfig, None)).
Proof.
  intros H configPath. split_and!.
  - destruct (LoadConfig_cases H configPath) as [(c & Hrun & _)|(err & Hrun & _)].
    + left. exists (configfile.SetDefaults c).
      destruct (SetDefaults_filled c) as (H1 & H2 & _).
      split_and!; [exact Hrun|exact H1|exact H2|apply SetDefaults_idemp].
    + right. eauto.
  - reflexivity.
  - intros err Hp Hread Hne. unfold configfile.LoadConfig.
    destruct configPath as [|ch rest]; [reflexivity|].
    unfold isEmpty. simpl String.eqb. cbv iota.
    assert (Hc : Ascii.eqb ch "~" = false).
    { unfold strings.HasPrefix in Hp. simpl in Hp.
      destruct (Ascii.ascii_dec "~" ch) as [<-|Hneq]; [by destruct rest|].
      apply Ascii.eqb_neq. congruence. }
    rewrite Hc, Hread, Hne. reflexivity.
Qed.

Section BuildConfig.
Context (H : Host.t) (F : cmd.Flags.t).

Lemma cmd_sourcesLoop_spec collectSources :
  forall sources res,
    cmd.sourcesLoop collectSources sources = inl res ->
    res = sources ++ collectSources /\ Forall Props.knownSource collectSources.
Proof.
  induction collectSources as [|source rest IH]; intros sources res; simpl.
  - intros [= <-]. by rewrite app_nil_r.
  - destruct (String.eqb_spec source "claude_code") as [->|H1].
    { intros Hrun. apply IH in Hrun as [-> Hall]. rewrite <- app_assoc.
      split; [done|]. constructor; [by left|done]. }
    destruct (String.eqb_spec source "gemini_cli") as [->|H2].
    { intros Hrun. apply IH in Hrun as [-> Hall]. rewrite <- app_assoc.
      split; [done|]. constructor; [right; by left|done]. }
    destruct (String.eqb_spec source "amazon_q") as [->|H3]; [|done].
    intros Hrun. apply IH in Hrun as [-> Hall]. rewrite <- app_assoc.
    split; [done|]. constructor; [right; by right|done].
Qed.

Lemma cmd_sourcesLoop_unknown collectSources :
  forall sources err,
    cmd.sourcesLoop collectSources sources = inr err ->
    exists source,
      source ∈ collectSources /\ ~ Props.knownSource source
      /\ err = New ("알 수 없는 데이터 소스: " +:+ source).
Proof.
  induction collectSources as [|source rest IH]; intros sources err; simpl; [done|].
  destruct (String.eqb_spec source "claude_code") as [->|H1].
  { intros Hrun. apply IH in Hrun as (s & Hin & Hs). exists s. split; [by right|done]. }
  destruct (String.eqb_spec source "gemini_cli") as [->|H2].
  { intros Hrun. apply IH in Hrun as (s & Hin & Hs). exists s. split; [by right|done]. }
  destruct (String.eqb_spec source "amazon_q") as [->|H3].
  { intros Hrun. apply IH in Hrun as (s & Hin & Hs). exists s. split; [by right|done]. }
  intros [= <-]. exists source. split_and!; [by left| |done].
  intros [?|[?|?]]; done.
Qed.

End BuildConfig.


Lemma buildCollectionConfig_cases H F cfg :
  (exists collectConfig,
      cmd.buildCollectionConfig H F (Some cfg) = Returned (Some collectConfig, None)
      /\ Props.builtFrom H F cfg collectConfig)
  \/ (exists err,
         cmd.buildCollectionConfig H F (Some cfg) = Returned (None, Some err)
         /\ Props.refusedFor H F err).
Proof.
  unfold cmd.buildCollectionConfig, Props.builtFrom, Props.refusedFor.
  set (sources := if cmd.Flags.collectAll F then _ else _).
  destruct sources as [srcs|err] eqn:Hsrc.
  2: { right. exists err. split; [reflexivity|]. left.
       subst sources. destruct (cmd.Flags.collectAll F); [done|]. split; [done|].
       destruct (Z.gtb_spec (Z.of_nat (length (cmd.Flags.collectSources F))) 0)
         as [Hgt|Hle].
       - right. by apply cmd_sourcesLoop_unknown in Hsrc.
       - left. inversion Hsrc. split; [|done].
         destruct (cmd.Flags.collectSources F); [done|simpl in Hle; lia]. }
  assert (Hs : (1 <= length srcs)%nat /\ Forall Props.knownSource srcs
               /\ srcs = (if cmd.Flags.collectAll F
                          then [SourceClaudeCode; SourceGeminiCLI; SourceAmazonQ]
                          else cmd.Flags.collectSources F)).
  { subst sources. destruct (cmd.Flags.collectAll F).
    - inversion Hsrc; subst. split_and!; [simpl; lia| |done].
      constructor; [by left|]. constructor; [right; by left|].
      constructor; [right; by right|]. constructor.
    - destruct (Z.gtb_spec (Z.of_nat (length (cmd.Flags.collectSources F))) 0)
        as [Hgt|Hle]; [|inversion Hsrc].
      apply cmd_sourcesLoop_spec in Hsrc as [-> Hall]. simpl.
      split_and!; [lia|done|done]. }
  destruct Hs as (Hlen & Hknown & Heq).
  destruct (isEmpty (cmd.Flags.collectDateFrom F)) eqn:Hfrom,
           (isEmpty (cmd.Flags.collectDateTo F)) eqn:Hto; simpl.
  - left. eexists. split; [reflexivity|]. simpl. split_and!; done.
  - destruct (Host.time_ParseDate H (cmd.Flags.collectDateTo F)) as [to|e] eqn:Hp.
    + left. eexists. split; [reflexivity|]. simpl. split_and!; try done.
      * split; [done|]. intros [_ ?]. done.
      * intros dr [= <-]. simpl. split; [done|]. exists to. split; [done|].
        unfold time.Add, time.Hour, time.Minute, time.Second. lia.
    + right. eexists. split; [reflexivity|]. right. right. eauto.
  - destruct (Host.time_ParseDate H (cmd.Flags.collectDateFrom F)) as [from|e] eqn:Hp.
    + left. eexists. split; [reflexivity|]. simpl. split_and!; try done.
      * split; [done|]. intros [? _]. done.
      * intros dr [= <-]. simpl. done.
    + right. eexists. split; [reflexivity|]. right. left. eauto.
  - destruct (Host.time_ParseDate H (cmd.Flags.collectDateFrom F)) as [from|e] eqn:Hp.
    2: { right. eexists. split; [reflexivity|]. right. left. eauto. }
    destruct (Host.time_ParseDate H (cmd.Flags.collectDateTo F)) as [to|e] eqn:Hp2.
    + left. eexists. split; [reflexivity|]. simpl. split_and!; try done.
      * split; [done|]. intros [? _]. done.
      * intros dr [= <-]. simpl. split; [done|]. exists to. split; [done|].
        unfold time.Add, time.Hour, time.Minute, time.Second. lia.
    + right. eexists. split; [reflexivity|]. right. right. eauto.
Qed.

(** X19.  [buildCollectionConfig] returns a request or an error.  A
    request names at least one source, all among claude_code,
    gemini_cli and amazon_q: the three with [--all], else the list of
    [--sources]; its date range is nil exactly when neither date is
    given, and its end is the [--to] day plus 24h less one second.  An
    error means a missing or unknown source or a date that does not
    parse. *)
Theorem buildCollectionConfig_request :
  forall (H : Host.t) (F : cmd.Flags.t) (cfg : Config.t),
    match cmd.buildCollectionConfig H F (Some cfg) with
    | Returned (Some collectConfig, None) => Props.builtFrom H F cfg collectConfig
    | Returned (None, Some err) => Props.refusedFor H F err
    | _ => False
    end.
Proof.
  intros H F cfg.
  destruct (buildCollectionConfig_cases H F cfg)
    as [(collectConfig & -> & Hb)|(err & -> & Hr)]; done.
Qed.

(** ** The collect command *)

Section CommandData.
Context (H : Host.t) (F : cmd.Flags.t).

Lemma say_run msg w : exists w', cmd.say F msg w = (tt, w').
Proof. unfold cmd.say. destruct (cmd.Flags.verbose F); eexists; reflexivity. Qed.

Lemma fallbackSession_record id source age title msgID content t1 t2 err :
  Props.recordOf source (cmd.fallbackSession id source age title msgID content t1 t2 err)
  /\ Props.fallbackFor err
       (cmd.fallbackSession id source age title msgID content t1 t2 err).
Proof. repeat split. Qed.

Lemma cmd_gemini_data cfg appConfig w :
  configfile.LoadConfig H (cmd.Flags.cfgFile F) = (Some appConfig, None) ->
  let g := Gemini.NewImprovedGeminiCLICollector
             (CollectionSettings.GeminiCLI (Config.CollectionSettings appConfig))
             (Factory.defaultFileReader (Host.env H)) in
  exists sessions w',
    cmd.collectGeminiCLIData H F (Some cfg) w = (Returned (sessions, None), w')
    /\ Forall (Props.recordOf SourceGeminiCLI) sessions
    /\ match Gemini.Validate (Host.env H) g with
       | None =>
           sessions
           = (Gemini.Collect (Host.env H) g Background (Some cfg)
                (cmd.say F "  Gemini CLI 데이터 수집기 호출" w).2).1.1
       | Some e =>
           exists s,
             sessions = [s]
             /\ Props.fallbackFor
                  (Errorf_w "config directory validation failed: " e) s
       end.
Proof.
  intros Hload g. unfold cmd.collectGeminiCLIData. rewrite Hload.
  rewrite bind_run.
  destruct (say_run "  Gemini CLI 데이터 수집기 호출" w) as [w0 ->]. cbn [fst snd].
  rewrite bind_run. fold g.
  pose proof (gemini_Collect_records_of (Host.env H) g Background (Some cfg) w0) as Hrec.
  pose proof (gemini_Collect_nil_error (Host.env H) g Background cfg w0) as Hnil.
  unfold Gemini.Validate.
  destruct (Gemini.validateConfigDirectory (Host.env H) g) as [e|] eqn:Hv.
  - unfold Gemini.Collect. rewrite Hv. unfold ret at 1. cbn [fst snd].
    rewrite bind_run.
    match goal with
    | |- context [cmd.say F ?m ?w1] => destruct (say_run m w1) as [w2 ->]
    end.
    cbn [fst snd]. unfold bind, Now, ret.
    eexists _, _. split; [reflexivity|].
    split.
    + constructor; [|constructor]. apply fallbackSession_record.
    + eexists. split; [reflexivity|]. apply fallbackSession_record.
  - specialize (Hnil eq_refl).
    destruct (Gemini.Collect (Host.env H) g Background (Some cfg) w0)
      as [[sessions err] w1].
    cbn [fst snd] in *. subst err.
    rewrite bind_run.
    match goal with
    | |- context [cmd.say F ?m ?w1] => destruct (say_run m w1) as [w2 ->]
    end.
    cbn [fst snd]. unfold ret. eexists _, _. split; [reflexivity|]. done.
Qed.

Lemma cmd_amazonq_data cfg appConfig w :
  configfile.LoadConfig H (cmd.Flags.cfgFile F) = (Some appConfig, None) ->
  let a := AmazonQ.NewAmazonQCollector
             (CollectionSettings.AmazonQ (Config.CollectionSettings appConfig))
             (Factory.defaultFileReader (Host.env H)) in
  exists sessions w',
    cmd.collectAmazonQData H F (Some cfg) w = (Returned (sessions, None), w')
    /\ Forall (Props.recordOf SourceAmazonQ) sessions
    /\ sessions
       = (AmazonQ.Collect (Host.env H) a Background (Some cfg)
            (cmd.say F "  Amazon Q CLI 데이터 수집기 호출" w).2).1.1.
Proof.
  intros Hload a. unfold cmd.collectAmazonQData. rewrite Hload.
  rewrite bind_run.
  destruct (say_run "  Amazon Q CLI 데이터 수집기 호출" w) as [w0 ->]. cbn [fst snd].
  rewrite bind_run. fold a.
  pose proof (amazonq_Collect_records_of (Host.env H) a Background (Some cfg) w0) as Hrec.
  pose proof (amazonq_Collect_nil_error (Host.env H) a Background cfg w0) as Hnil.
  destruct (AmazonQ.Collect (Host.env H) a Background (Some cfg) w0)
    as [[sessions err] w1].
  cbn [fst snd] in *. subst err.
  rewrite bind_run.
  match goal with
  | |- context [cmd.say F ?m ?w1] => destruct (say_run m w1) as [w2 ->]
  end.
  cbn [fst snd]. unfold ret. eexists _, _. split; [reflexivity|]. done.
Qed.

Lemma cmd_claude_data cfg appConfig w :
  configfile.LoadConfig H (cmd.Flags.cfgFile F) = (Some appConfig, None) ->
  exists sessions w',
    cmd.collectClaudeCodeData H F (Some cfg) w = (Returned (sessions, None), w')
    /\ Forall (Props.recordOf SourceClaudeCode) sessions.
Proof.
  intros Hload. unfold cmd.collectClaudeCodeData. rewrite Hload.
  rewrite bind_run.
  destruct (say_run "  Claude Code 데이터 수집기 호출" w) as [w0 ->]. cbn [fst snd].
  rewrite bind_run.
  set (c := Claude.NewClaudeCodeCollector _).
  destruct (claude_Collect_returns (Host.env H) c Background cfg w0)
    as ([sessions err] & w1 & Hrun).
  pose proof (claude_Collect_records_of (Host.env H) c Background (Some cfg) w0
                sessions err w1 Hrun) as Hrec.
  rewrite Hrun. cbn [fst snd].
  destruct err as [err|].
  - rewrite bind_run.
    match goal with
    | |- context [cmd.say F ?m ?w1] => destruct (say_run m w1) as [w2 ->]
    end.
    cbn [fst snd]. unfold bind, Now, ret.
    eexists _, _. split; [reflexivity|].
    constructor; [|constructor]. apply fallbackSession_record.
  - rewrite bind_run.
    match goal with
    | |- context [cmd.say F ?m ?w1] => destruct (say_run m w1) as [w2 ->]
    end.
    cbn [fst snd]. unfold ret. eexists _, _. split; [reflexivity|]. done.
Qed.

Lemma cmd_collectFromSource_known source cfg appConfig w :
  configfile.LoadConfig H (cmd.Flags.cfgFile F) = (Some appConfig, None) ->
  Props.knownSource source ->
  exists sessions w',
    cmd.collectFromSource H F source (Some cfg) w = (Returned (sessions, None), w')
    /\ Forall (Props.recordOf source) sessions.
Proof.
  intros Hload [-> | [-> | ->]]; unfold cmd.collectFromSource; simpl.
  - by apply cmd_claude_data with (appConfig := appConfig).
  - destruct (cmd_gemini_data cfg appConfig w Hload) as (s & w' & Hrun & Hrec & _).
    eauto.
  - destruct (cmd_amazonq_data cfg appConfig w Hload) as (s & w' & Hrun & Hrec & _).
    eauto.
Qed.

Lemma cmd_collectFromSource_returns source cfg w :
  exists sessions err w',
    cmd.collectFromSource H F source (Some cfg) w = (Returned (sessions, err), w')
    /\ Forall (Props.recordOf source) sessions
    /\ (is_Some err ->
        (configfile.LoadConfig H (cmd.Flags.cfgFile F)).2 <> None
        \/ ~ Props.knownSource source).
Proof.
  destruct (LoadConfig_cases H (cmd.Flags.cfgFile F))
    as [(c & Hload & _)|(e & Hload & _)].
  - destruct (decide (source = SourceClaudeCode)) as [->|H1];
      [|destruct (decide (source = SourceGeminiCLI)) as [->|H2];
        [|destruct (decide (source = SourceAmazonQ)) as [->|H3]]].
    + destruct (cmd_collectFromSource_known SourceClaudeCode cfg _ w Hload)
        as (s & w' & Hrun & Hrec); [by left|].
      exists s, None, w'. split_and!; [done|done|]. by intros [? ?].
    + destruct (cmd_collectFromSource_known SourceGeminiCLI cfg _ w Hload)
        as (s & w' & Hrun & Hrec); [right; by left|].
      exists s, None, w'. split_and!; [done|done|]. by intros [? ?].
    + destruct (cmd_collectFromSource_known SourceAmazonQ cfg _ w Hload)
        as (s & w' & Hrun & Hrec); [right; by right|].
      exists s, None, w'. split_and!; [done|done|]. by intros [? ?].
    + unfold cmd.collectFromSource.
      rewrite (proj2 (String.eqb_neq _ _) H1), (proj2 (String.eqb_neq _ _) H2),
        (proj2 (String.eqb_neq _ _) H3).
      eexists _, _, _. split; [reflexivity|]. split; [constructor|].
      intros _. right. intros [?|[?|?]]; done.
  - unfold cmd.collectFromSource, cmd.collectClaudeCodeData, cmd.collectGeminiCLIData,
      cmd.collectAmazonQData.
    rewrite Hload.
    destruct (String.eqb source SourceClaudeCode);
      [|destruct (String.eqb source SourceGeminiCLI);
        [|destruct (String.eqb source SourceAmazonQ)]];
      try (rewrite bind_run;
           match goal with
           | |- context [cmd.say F ?m ?w1] => destruct (say_run m w1) as [w2 ->]
           end;
           cbn [fst snd]; unfold ret; eexists _, _, _;
           split; [reflexivity|]; split; [constructor|]; intros _; left; done).
    eexists _, _, _. split; [reflexivity|]. split; [constructor|].
    intros _. left. done.
Qed.

End CommandData.


(** X20.  Once the configuration file loads, [collectFromSource] of
    the command returns no error for a known source and a request that
    is not nil, and records of that source.  For gemini_cli, when
    [Validate] refuses the configuration directory, the result is one
    made-up record marked [fallback = true] with the error as
    [reason]; otherwise it is what the collector returned.  For
    amazon_q it is always what the collector returned. *)
Theorem cmd_collector_errors_become_fallback_records :
  forall (H : Host.t) (F : cmd.Flags.t) (cfg : CollectionConfig.t)
         (appConfig : Config.t) (w : World.t),
    configfile.LoadConfig H (cmd.Flags.cfgFile F) = (Some appConfig, None) ->
    (forall source,
        Props.knownSource source ->
        exists sessions w',
          cmd.collectFromSource H F source (Some cfg) w = (Returned (sessions, None), w')
          /\ Forall (Props.recordOf source) sessions)
    /\ (exists sessions w',
           cmd.collectGeminiCLIData H F (Some cfg) w = (Returned (sessions, None), w')
           /\ match Gemini.Validate (Host.env H)
                      (Gemini.NewImprovedGeminiCLICollector
                         (CollectionSettings.GeminiCLI (Config.CollectionSettings appConfig))
                         (Factory.defaultFileReader (Host.env H))) with
              | None =>
                  sessions
                  = (Gemini.Collect (Host.env H)
                       (Gemini.NewImprovedGeminiCLICollector
                          (CollectionSettings.GeminiCLI
                             (Config.CollectionSettings appConfig))
                          (Factory.defaultFileReader (Host.env H)))
                       Background (Some cfg)
                       (cmd.say F "  Gemini CLI 데이터 수집기 호출" w).2).1.1
              | Some e =>
                  exists s,
                    sessions = [s]
                    /\ Props.fallbackFor
                         (Errorf_w "config directory validation failed: " e) s
              end)
    /\ (exists sessions w',
           cmd.collectAmazonQData H F (Some cfg) w = (Returned (sessions, None), w')
           /\ sessions
              = (AmazonQ.Collect (Host.env H)
                   (AmazonQ.NewAmazonQCollector
                      (CollectionSettings.AmazonQ (Config.CollectionSettings appConfig))
                      (Factory.defaultFileReader (Host.env H)))
                   Background (Some cfg)
                   (cmd.say F "  Amazon Q CLI 데이터 수집기 호출" w).2).1.1).
Proof.
  intros H F cfg appConfig w Hload. split_and!.
  - intros source Hk. by apply cmd_collectFromSource_known with (appConfig := appConfig).
  - destruct (cmd_gemini_data H F cfg appConfig w Hload) as (s & w' & Hrun & _ & Hm).
    exists s, w'. split; [exact Hrun|exact Hm].
  - destruct (cmd_amazonq_data H F cfg appConfig w Hload) as (s & w' & Hrun & _ & Hm).
    exists s, w'. split; [exact Hrun|exact Hm].
Qed.

(** X20 at the example host with the default configuration: the
    directory [~/.config/gemini] is missing, the record is the
    fallback. *)
Lemma cmd_collector_errors_become_fallback_records_witness :
  exists sessions w' s,
    cmd.collectGeminiCLIData Sample.host Sample.flags (Some Example.request) World.init
      = (Returned (sessions, None), w')
    /\ sessions = [s]
    /\ Props.fallbackFor
         (Errorf_w "config directory validation failed: "
            (New "gemini CLI config directory does not exist: /home/user/.config/gemini"))
         s.
Proof.
  destruct (cmd_collector_errors_become_fallback_records Sample.host Sample.flags
              Example.request configfile.createDefaultConfig World.init eq_refl)
    as (_ & (sessions & w' & Hrun & Hm) & _).
  match type of Hm with
  | match ?v with _ => _ end =>
      assert (Hv : v = Some (New "gemini CLI config directory does not exist: /home/user/.config/gemini"))
        by (vm_compute; reflexivity);
      rewrite Hv in Hm
  end.
  destruct Hm as (s & Hs & Hf).
  exists sessions, w', s. split_and!; [exact Hrun|exact Hs|exact Hf].
Defined.

Section CommandLoop.
Context (H : Host.t) (F : cmd.Flags.t) (cfg : CollectionConfig.t).

Lemma cmd_collectLoop_spec sources :
  forall result stderr w,
    exists result' failed added w',
      cmd.collectLoop H F (Some cfg) sources result stderr w
        = ((Returned result', stderr ++ map (fun msg => "경고: " +:+ msg) failed), w')
      /\ CollectionResult.Errors result' = CollectionResult.Errors result ++ failed
      /\ CollectionResult.Sessions result' = CollectionResult.Sessions result ++ added
      /\ CollectionResult.Sources result' = CollectionResult.Sources result
      /\ CollectionResult.CollectedAt result' = CollectionResult.CollectedAt result
      /\ (length failed <= length sources)%nat
      /\ Forall (fun s => SessionData.Source s ∈ sources) added
      /\ ((configfile.LoadConfig H (cmd.Flags.cfgFile F)).2 = None ->
          Forall Props.knownSource sources -> failed = []).
Proof.
  induction sources as [|source rest IH]; intros result stderr w.
  - exists result, [], [], w. simpl. rewrite !app_nil_r.
    split_and!; try done. 
  - cbn [cmd.collectLoop]. rewrite bind_run.
    match goal with
    | |- context [cmd.say F ?m ?ww] => destruct (say_run F m ww) as [w0 ->]
    end.
    cbn [fst snd]. rewrite bind_run.
    destruct (cmd_collectFromSource_returns H F source cfg w0)
      as (sessions & err & w1 & -> & Hrec & Herr).
    cbn [fst snd]. destruct err as [err|].
    + match goal with
      | |- context [cmd.collectLoop H F (Some cfg) rest ?r ?e w1] =>
          destruct (IH r e w1)
            as (result' & failed & added & w' & Hrun & He & Hs & Hsrc & Hat & Hlen
                & Hall & Hok)
      end.
      exists result',
        (("소스 '" +:+ source +:+ "' 수집 실패: " +:+ Error err) :: failed), added, w'.
      simpl in *. split_and!; try done.
      * rewrite Hrun. by rewrite <- app_assoc.
      * rewrite He. by rewrite <- app_assoc.
      * lia.
      * eapply Forall_impl; [exact Hall|]. intros s Hin. by right.
      * intros Hload Hknown. exfalso.
        destruct (Herr (mk_is_Some _ _ eq_refl)) as [Hl|Hk]; [done|].
        apply Hk. by inversion Hknown.
    + rewrite bind_run.
      match goal with
      | |- context [cmd.say F ?m ?ww] => destruct (say_run F m ww) as [w2 ->]
      end.
      cbn [fst snd].
      match goal with
      | |- context [cmd.collectLoop H F (Some cfg) rest ?r ?e w2] =>
          destruct (IH r e w2)
            as (result' & failed & added & w' & Hrun & He & Hs & Hsrc & Hat & Hlen
                & Hall & Hok)
      end.
      exists result', failed, (sessions ++ added), w'.
      simpl in *. split_and!; try done.
      * rewrite Hs. by rewrite <- app_assoc.
      * lia.
      * apply Forall_app. split.
        -- eapply Forall_impl; [exact Hrec|]. intros s (-> & _). by left.
        -- eapply Forall_impl; [exact Hall|]. intros s Hin. by right.
      * intros Hload Hknown. apply Hok; [done|]. by inversion Hknown.
Qed.

End CommandLoop.

(** X21.  [executeCollection] of the command returns, for a request
    that is not nil, a result and a nil error.  The result lists the
    requested sources, counts its records, and holds records of
    requested sources only; each error string is also logged as a
    warning, at most one per source; and there is none when the
    configuration file loads and every requested source is known. *)
Theorem cmd_executeCollection_result :
  forall (H : Host.t) (F : cmd.Flags.t) (cfg : CollectionConfig.t) (w : World.t),
    exists result stderr w',
      cmd.executeCollection H F (Some cfg) w
        = ((Returned (Some result, None), stderr), w')
      /\ CollectionResult.Sources result = CollectionConfig.Sources cfg
      /\ CollectionResult.TotalCount result
         = Z.of_nat (length (CollectionResult.Sessions result))
      /\ CollectionResult.CollectedAt result = Env.clock (Host.env H) (World.ticks w)
      /\ stderr = map (fun msg => "경고: " +:+ msg) (CollectionResult.Errors result)
      /\ (length (CollectionResult.Errors result)
          <= length (CollectionConfig.Sources cfg))%nat
      /\ Forall (fun s => SessionData.Source s ∈ CollectionConfig.Sources cfg)
                (CollectionResult.Sessions result)
      /\ ((configfile.LoadConfig H (cmd.Flags.cfgFile F)).2 = None ->
          Forall Props.knownSource (CollectionConfig.Sources cfg) ->
          CollectionResult.Errors result = []).
Proof.
  intros H F cfg w. unfold cmd.executeCollection.
  rewrite bind_run. unfold Now at 1. cbn [fst snd].
  rewrite bind_run.
  match goal with
  | |- context [cmd.say F ?m ?ww] => destruct (say_run F m ww) as [w0 ->]
  end.
  cbn [fst snd]. rewrite bind_run.
  match goal with
  | |- context [cmd.collectLoop H F (Some cfg) ?l ?r ?e w0] =>
      destruct (cmd_collectLoop_spec H F cfg l r e w0)
        as (result' & failed & added & w' & -> & He & Hs & Hsrc & Hat & Hlen & Hall & Hok)
  end.
  cbn [fst snd]. unfold bind, Now, ret. simpl in *.
  eexists _, _, _. split; [reflexivity|]. simpl.
  rewrite He, Hs, Hsrc, Hat. split_and!; done.
Qed.

(** ** The collect service *)

Section ServiceLoop.
Context (E : Env.t) (registry : Factory.Registry) (ctx : Context)
        (collectConfig : CollectionConfig.t)
        (configs : gmap CollectionSource Factory.ConfigValue).

Lemma service_collectFromSource_returns source w :
  Spec.CollectorsReturn registry ctx collectConfig ->
  exists sessions err w',
    service.collectFromSource registry ctx source (Some collectConfig) configs w
    = (Returned (sessions, err), w').
Proof.
  intros Hret. unfold service.collectFromSource, Factory.GetCollector.
  destruct (configs !! source) as [config|]; [|eexists _, _, _; reflexivity].
  destruct (registry !! source) as [constructor|] eqn:Hr;
    [|eexists _, _, _; reflexivity].
  destruct (Hret source constructor config w Hr) as ([sessions err] & w' & Hrun).
  unfold bind. rewrite Hrun. destruct err; eexists _, _, _; reflexivity.
Qed.

Lemma service_executeLoop_spec sources :
  Spec.CollectorsReturn registry ctx collectConfig ->
  forall result w,
    exists result' err w',
      service.executeLoop registry ctx (Some collectConfig) configs sources result w
        = (Returned (result', err), w')
      /\ CollectionResult.Sources result' = CollectionResult.Sources result
      /\ CollectionResult.CollectedAt result' = CollectionResult.CollectedAt result
      /\ (length (CollectionResult.Errors result')
          <= length (CollectionResult.Errors result) + length sources)%nat
      /\ (forall e, err = Some e -> exists n, ctx n = Some e)
      /\ ((forall n, ctx n = None) -> err = None).
Proof.
  intros Hret.
  induction sources as [|source rest IH]; intros result w.
  - exists result, None, w. simpl. split_and!; try done. lia.
  - cbn [service.executeLoop]. rewrite bind_run.
    unfold service.checkContextCancellation, Done. cbn [fst snd].
    destruct (ctx (World.polls w)) as [e|] eqn:Hc.
    { eexists _, _, _. split; [reflexivity|]. simpl. split_and!; try done.
      - lia.
      - intros e' [= <-]. eauto.
      - intros Hlive. by rewrite Hlive in Hc. }
    rewrite bind_run.
    match goal with
    | |- context [service.collectFromSource registry ctx source _ configs ?ww] =>
        destruct (service_collectFromSource_returns source ww Hret)
          as (sessions & err & w1 & ->)
    end.
    cbn [fst snd].
    destruct (IH (service.handleCollectionResult source sessions err result) w1)
      as (result' & err' & w' & Hrun & Hsrc & Hat & Hlen & Hctx & Hlive).
    exists result', err', w'. split; [exact Hrun|].
    unfold service.handleCollectionResult in *.
    destruct err as [err|]; simpl in *.
    + rewrite length_app in Hlen. simpl in Hlen. split_and!; try done. lia.
    + split_and!; try done. lia.
Qed.

End ServiceLoop.

(** X22.  Provided no collector of the registry panics, [Execute] of
    the service returns a result and a nil error, or no result and an
    error, which is the missing configuration or wraps the error of
    the context.  A result lists the requested sources, counts its
    records and has at most one error string per source.  With a
    configuration and a context that is never done, it returns a
    result. *)
Theorem service_Execute_result :
  forall (E : Env.t) (registry : Factory.Registry) (s : service.CollectService.t)
         (ctx : Context) (collectConfig : CollectionConfig.t) (w : World.t),
    Spec.CollectorsReturn registry ctx collectConfig ->
    exists r w',
      service.Execute E registry s ctx (Some collectConfig) w = (Returned r, w')
      /\ Props.executed s ctx collectConfig w E r
      /\ ((forall n, ctx n = None) ->
          is_Some (service.CollectService.config s) -> is_Some r.1).
Proof.
  intros E registry s ctx collectConfig w Hret.
  unfold service.Execute, service.initializeCollectionResult,
    service.prepareCollectorConfigs, service.getCollectorConfigs,
    service.executeCollection.
  rewrite bind_run. rewrite bind_run. unfold Now at 1. unfold ret at 1. cbn [fst snd].
  destruct (service.CollectService.config s) as [cfg|] eqn:Hcfg.
  2: { eexists _, _. split; [reflexivity|]. split.
       - left. done.
       - intros _ [? ?]. done. }
  rewrite bind_run.
  match goal with
  | |- context [service.executeLoop registry ctx _ ?configs ?l ?r ?ww] =>
      destruct (service_executeLoop_spec registry ctx collectConfig configs l Hret r ww)
        as (result' & err & w1 & -> & Hsrc & Hat & Hlen & Hctx & Hlive)
  end.
  cbn [fst snd]. destruct err as [e|].
  - eexists _, _. split; [reflexivity|]. split.
    + right. destruct (Hctx e eq_refl) as [n Hn]. eauto.
    + intros Hl _. specialize (Hlive Hl). done.
  - unfold service.finalizeCollectionResult, bind, Now, ret.
    eexists _, _. split; [reflexivity|]. simpl in *. split.
    + rewrite Hsrc, Hat. split_and!; try done. 
    + intros _ _. eauto.
Qed.

(** X22 at the example host, for the request of four sources. *)
Lemma service_Execute_result_witness :
  exists r w',
    service.Execute Example.env (Factory.initRegistry Example.env)
      (service.CollectService.mk (Some configfile.createDefaultConfig))
      Background (Some Example.mixedRequest) World.init = (Returned r, w')
    /\ is_Some r.1.
Proof.
  destruct (service_Execute_result Example.env (Factory.initRegistry Example.env)
              (service.CollectService.mk (Some configfile.createDefaultConfig))
              Background Example.mixedRequest World.init
              (initRegistry_returns Example.env Background Example.mixedRequest))
    as (r & w' & Hrun & _ & Hlive).
  exists r, w'. split; [exact Hrun|].
  apply Hlive; [reflexivity|]. eexists. reflexivity.
Defined.

(** X23.  When the context is done as [Execute] of the service comes to
    the first requested source, it returns no result and the error of
    the context wrapped; when no source is requested it returns an
    empty result. *)
Theorem service_Execute_cancelled :
  forall (E : Env.t) (registry : Factory.Registry) (cfg : Config.t) (ctx : Context)
         (collectConfig : CollectionConfig.t) (w : World.t) (e : error),
    ctx (World.polls w) = Some e ->
    (service.Execute E registry (service.CollectService.mk (Some cfg)) ctx
       (Some collectConfig) w).1
    = match CollectionConfig.Sources collectConfig with
      | [] =>
          Returned
            (Some (CollectionResult.mk [] 0 [] (Env.clock E (World.ticks w))
                     (Env.clock E (S (World.ticks w)) - Env.clock E (World.ticks w)) []),
             None)
      | _ :: _ => Returned (None, Some (Errorf_w "데이터 수집 실행 실패: " e))
      end.
Proof.
  intros E registry cfg ctx collectConfig w e Hc.
  unfold service.Execute, service.initializeCollectionResult,
    service.prepareCollectorConfigs, service.getCollectorConfigs,
    service.executeCollection.
  rewrite bind_run. rewrite bind_run. unfold Now at 1. unfold ret at 1. cbn [fst snd].
  cbn [service.CollectService.config]. rewrite bind_run.
  destruct (CollectionConfig.Sources collectConfig) as [|source rest].
  - reflexivity.
  - cbn [service.executeLoop]. rewrite bind_run.
    unfold service.checkContextCancellation, Done, ret, Now.
    cbn [fst snd World.polls]. rewrite Hc. reflexivity.
Qed.

(** X23 at the example host with the context cancelled. *)
Lemma service_Execute_cancelled_witness :
  (service.Execute Example.env (Factory.initRegistry Example.env)
     (service.CollectService.mk (Some configfile.createDefaultConfig))
     Example.cancelled (Some Example.request) World.init).1
  = Returned (None, Some (Errorf_w "데이터 수집 실행 실패: " Canceled)).
Proof.
  apply (service_Execute_cancelled Example.env (Factory.initRegistry Example.env)
           configfile.createDefaultConfig Example.cancelled Example.request World.init
           Canceled).
  reflexivity.
Defined.
